(** * Context manager of Ollama-Code: a shallow embedding and its properties

    The Go package [context_manager] (file [context_manager/manager.go])
    keeps a cache of file contents, decides which paths are ignored, walks
    the project tree and assembles a size-bounded context text for a file
    and its related files.  This development embeds the package function by
    function and settles the properties stated about it.

    Conventions of the embedding.
    - A Go [string] is a sequence of bytes: it is a [string] of Rocq, one
      [ascii] per byte.  [len(s)] is [String.length s].  [strings.TrimSpace]
      trims the white space of Unicode, read in its UTF-8 encoding;
      [strings.ToLower] lowers ASCII itself and leaves a string with other
      bytes to the case mapping of Unicode, which the environment gives.
    - Go's [int] is modelled as [Z]: the program adds the lengths of two
      strings held in memory, which cannot wrap around.  A time stamp is the
      [int64] that [UnixNano] makes of a time, and that does wrap around.
    - A Go function returning [(T, error)] returns a [result T].
    - The file system and the glob matcher are outside the package: they are
      the fields of an environment [Env] that every function takes.  One
      call sees one environment; the lock of the manager protects its maps
      against concurrent callers and has no sequential meaning, so it does
      not appear. *)

From Stdlib Require Import ZArith Ascii String List Lia Bool.
From stdpp Require Import gmap strings list.

Open Scope Z_scope.

(** ** Errors *)

(** The error values that reach the package: those of the operating system
    (a [*fs.PathError] naming the operation and the path), the one of
    [filepath.Rel], the one of [filepath.Match], and the two sentinels that
    a [filepath.WalkFunc] returns to steer the walk. *)
Inductive error : Type :=
| PathError (op path : string)
| RelError (basepath targpath : string)
| ErrBadPattern
| SkipDir
| SkipAll.

Inductive result (A : Type) : Type :=
| Ok (a : A)
| Err (e : error).
Arguments Ok {A} a.
Arguments Err {A} e.

Definition error_eqb (e1 e2 : error) : bool :=
  match e1, e2 with
  | PathError o1 p1, PathError o2 p2 => String.eqb o1 o2 && String.eqb p1 p2
  | RelError b1 t1, RelError b2 t2 => String.eqb b1 b2 && String.eqb t1 t2
  | ErrBadPattern, ErrBadPattern => true
  | SkipDir, SkipDir => true
  | SkipAll, SkipAll => true
  | _, _ => false
  end.

(** ** Bytes that a Rocq string literal cannot hold *)

Definition byteString (n : nat) : string := String (ascii_of_nat n) EmptyString.

(** The string of the bytes with the given numbers. *)
Fixpoint bytesString (l : list nat) : string :=
  match l with
  | [] => EmptyString
  | n :: rest => String (ascii_of_nat n) (bytesString rest)
  end.
Definition LF : string := byteString 10.
Definition CR : string := byteString 13.
Definition DQUOTE : string := byteString 34.
Definition SQUOTE : string := byteString 39.

(** Concatenation of Go strings, [s + t]. *)
Infix "+++" := String.append (at level 60, right associativity).

(** ** Package [strings] of the Go library (the functions the program uses) *)

Module strings.

Definition rev (s : string) : string :=
  string_of_list_ascii (List.rev (list_ascii_of_string s)).

Fixpoint drop (n : nat) (s : string) : string :=
  match n, s with
  | O, _ => s
  | S n', String _ s' => drop n' s'
  | S _, EmptyString => EmptyString
  end.

Definition take (n : nat) (s : string) : string := String.substring 0 n s.

Definition HasPrefix (s prefix : string) : bool := String.prefix prefix s.

Definition HasSuffix (s suffix : string) : bool :=
  String.prefix (rev suffix) (rev s).

Definition TrimPrefix (s prefix : string) : string :=
  if HasPrefix s prefix then drop (String.length prefix) s else s.

Definition TrimSuffix (s suffix : string) : string :=
  if HasSuffix s suffix
  then take (String.length s - String.length suffix) s
  else s.

Fixpoint trimLeft (f : ascii -> bool) (s : string) : string :=
  match s with
  | EmptyString => EmptyString
  | String c s' => if f c then trimLeft f s' else s
  end.

Definition trimRight (f : ascii -> bool) (s : string) : string :=
  rev (trimLeft f (rev s)).

(** The white space of [unicode.IsSpace], each code point in its UTF-8
    encoding: U+0009 to U+000D, U+0020, U+0085, U+00A0, U+1680, U+2000 to
    U+200A, U+2028, U+2029, U+202F, U+205F, U+3000. *)
Definition spaceEncodings : list string :=
  map bytesString
    [[9]; [10]; [11]; [12]; [13]; [32]; [194; 133]; [194; 160]; [225; 154; 128];
     [226; 128; 128]; [226; 128; 129]; [226; 128; 130]; [226; 128; 131];
     [226; 128; 132]; [226; 128; 133]; [226; 128; 134]; [226; 128; 135];
     [226; 128; 136]; [226; 128; 137]; [226; 128; 138]; [226; 128; 168];
     [226; 128; 169]; [226; 128; 175]; [226; 129; 159]; [227; 128; 128]]%nat.

(** What follows the first of [prefixes] that [s] starts with. *)
Fixpoint afterPrefix (prefixes : list string) (s : string) : option string :=
  match prefixes with
  | [] => None
  | p :: rest =>
      if String.prefix p s then Some (drop (String.length p) s)
      else afterPrefix rest s
  end.

(** Dropping from the left as long as [s] starts with one of [prefixes];
    each round drops a byte at least, so [fuel] the length of [s] is enough. *)
Fixpoint dropPrefixes (prefixes : list string) (fuel : nat) (s : string) : string :=
  match fuel with
  | O => s
  | S fuel' =>
      match afterPrefix prefixes s with
      | Some rest => dropPrefixes prefixes fuel' rest
      | None => s
      end
  end.

Definition trimLeftSpace (s : string) : string :=
  dropPrefixes spaceEncodings (String.length s) s.

(** From the right the same, on the string and the encodings read backwards:
    a code point is decoded at the end of a string when its encoding ends
    the string. *)
Definition trimRightSpace (s : string) : string :=
  rev (dropPrefixes (map rev spaceEncodings) (String.length s) (rev s)).

(** [TrimSpace]: the white space of Unicode off both ends.  A byte that
    starts no valid encoding of a white space stops the trimming, as the
    decoder of Go answers [RuneError] for it. *)
Definition TrimSpace (s : string) : string :=
  trimRightSpace (trimLeftSpace s).

Definition inCutset (cutset : string) (c : ascii) : bool :=
  existsb (Ascii.eqb c) (list_ascii_of_string cutset).

(** [Trim] with an ASCII cut set, the only use the program makes of it. *)
Definition Trim (s cutset : string) : string :=
  trimRight (inCutset cutset) (trimLeft (inCutset cutset) s).

Fixpoint Contains (s substr : string) : bool :=
  String.prefix substr s ||
  match s with
  | EmptyString => false
  | String _ s' => Contains s' substr
  end.

Definition lowerByte (c : ascii) : ascii :=
  let n := nat_of_ascii c in
  if ((65 <=? n) && (n <=? 90))%nat then ascii_of_nat (n + 32) else c.

Fixpoint lowerASCII (s : string) : string :=
  match s with
  | EmptyString => EmptyString
  | String c s' => String (lowerByte c) (lowerASCII s')
  end.

Definition isASCII (s : string) : bool :=
  forallb (fun c => (nat_of_ascii c <? 128)%nat) (list_ascii_of_string s).

(** [ToLower]: a string of ASCII bytes has its letters [A] to [Z] lowered;
    any other string goes through [strings.Map(unicode.ToLower, s)], the
    case mapping of Unicode, here the function [mapLower]. *)
Definition ToLower (mapLower : string -> string) (s : string) : string :=
  if isASCII s then lowerASCII s else mapLower s.

(** The loop of [Split] for a separator that is not empty: [cur] holds the
    bytes of the piece being read, last byte first, and [skip] counts the
    bytes of a separator just matched that are still to be passed. *)
Fixpoint splitFrom (sep : string) (skip : nat) (cur s : string) : list string :=
  match s with
  | EmptyString => [rev cur]
  | String c s' =>
      match skip with
      | S k => splitFrom sep k cur s'
      | O =>
          if String.prefix sep s
          then rev cur :: splitFrom sep (String.length sep - 1) EmptyString s'
          else splitFrom sep O (String c cur) s'
      end
  end.

(** [Split s sep]: the pieces of [s] between the occurrences of [sep],
    taken from the left without overlap; one piece more than there are
    occurrences.  With an empty separator Go cuts after every code point;
    here after every byte. *)
Definition Split (s sep : string) : list string :=
  match sep with
  | EmptyString => map (fun c => String c EmptyString) (list_ascii_of_string s)
  | _ => splitFrom sep O EmptyString s
  end.

Definition Join (elems : list string) (sep : string) : string :=
  String.concat sep elems.

(** [Count s substr] for a [substr] that is not empty. *)
Definition Count (s substr : string) : nat :=
  (List.length (Split s substr) - 1)%nat.

(** [ReplaceAll s old new] for an [old] that is not empty. *)
Definition ReplaceAll (s old new : string) : string :=
  Join (Split s old) new.

Fixpoint Repeat (s : string) (count : nat) : string :=
  match count with
  | O => EmptyString
  | S n => String.append s (Repeat s n)
  end.

End strings.

(** ** Package [path/filepath] of the Go library, on Unix (separator [/]) *)

Module filepath.

Definition Separator : string := "/".

Definition isSep (c : ascii) : bool := Ascii.eqb c "/"%char.

Definition rooted (path : string) : bool :=
  match path with
  | String c _ => isSep c
  | EmptyString => false
  end.

(** The elements of a path are pushed on a stack, last element first:
    an empty element and [.] are dropped; [..] removes the element before
    it, is dropped at the root, and is kept at the head of a relative
    path, where nothing can be removed. *)
Fixpoint cleanElems (isRooted : bool) (stack elems : list string) : list string :=
  match elems with
  | [] => List.rev stack
  | e :: rest =>
      if String.eqb e "" || String.eqb e "." then cleanElems isRooted stack rest
      else if String.eqb e ".." then
        match stack with
        | top :: below =>
            if String.eqb top ".."
            then cleanElems isRooted (e :: stack) rest
            else cleanElems isRooted below rest
        | [] =>
            if isRooted then cleanElems isRooted [] rest
            else cleanElems isRooted [e] rest
        end
      else cleanElems isRooted (e :: stack) rest
  end.

(** [Clean]: the shortest path equivalent to [path] by lexical processing
    alone; the empty path becomes [.]. *)
Definition Clean (path : string) : string :=
  let isRooted := rooted path in
  let body := strings.Join (cleanElems isRooted [] (strings.Split path Separator)) Separator in
  let out := if isRooted then String.append Separator body else body in
  if String.eqb out "" then "." else out.

(** [Join]: the elements from the first one that is not empty, joined by
    the separator and cleaned; the empty string when all are empty. *)
Fixpoint Join (elem : list string) : string :=
  match elem with
  | [] => ""
  | e :: rest =>
      if String.eqb e "" then Join rest
      else Clean (strings.Join elem Separator)
  end.

(** What follows the last separator of [s]; [acc] is the answer so far. *)
Fixpoint afterLastSep (s acc : string) : string :=
  match s with
  | EmptyString => acc
  | String c s' => if isSep c then afterLastSep s' s' else afterLastSep s' acc
  end.

Definition Base (path : string) : string :=
  if String.eqb path "" then "."
  else
    let p := strings.trimRight isSep path in
    let b := afterLastSep p p in
    if String.eqb b "" then Separator else b.

Definition Dir (path : string) : string :=
  let last := afterLastSep path path in
  Clean (strings.take (String.length path - String.length last) path).

(** The extension: from the last dot of the last element. *)
Fixpoint extFrom (s acc : string) : string :=
  match s with
  | EmptyString => acc
  | String c s' =>
      if isSep c then extFrom s' EmptyString
      else if Ascii.eqb c "."%char then extFrom s' s
      else extFrom s' acc
  end.

Definition Ext (path : string) : string := extFrom path EmptyString.

(** The first element of [s] and what follows it, separator included. *)
Fixpoint element (s : string) : string * string :=
  match s with
  | EmptyString => (EmptyString, EmptyString)
  | String c s' =>
      if isSep c then (EmptyString, s)
      else let '(e, r) := element s' in (String c e, r)
  end.

Definition skipSep (s : string) : string :=
  match s with
  | String _ s' => s'
  | EmptyString => EmptyString
  end.

(** The loop of [Rel] over the cleaned paths: it passes the elements the
    two paths share and returns the element of [base] at which it stopped
    with what is left of [base] and of [targ] from there on. *)
Fixpoint relLoop (fuel : nat) (base targ : string) : string * string * string :=
  match fuel with
  | O => (EmptyString, base, targ)
  | S fuel' =>
      if String.eqb base "" || String.eqb targ "" then (EmptyString, base, targ)
      else
        let '(be, brest) := element base in
        let '(te, trest) := element targ in
        if negb (String.eqb te be) then (be, base, targ)
        else relLoop fuel' (skipSep brest) (skipSep trest)
  end.

Fixpoint upward (seps : nat) : string :=
  match seps with
  | O => ".."
  | S n => String.append (upward n) "/.."
  end.

(** [Rel basepath targpath]: a path that joined to [basepath] names
    [targpath]; an error when one path is rooted and the other is not, or
    when [basepath] has a [..] that nothing tells how to walk back. *)
Definition Rel (basepath targpath : string) : result string :=
  let base := Clean basepath in
  let targ := Clean targpath in
  if String.eqb targ base then Ok "."
  else
    let base := if String.eqb base "." then "" else base in
    if negb (Bool.eqb (rooted base) (rooted targ))
    then Err (RelError basepath targpath)
    else
      let '(stop, brest, trest) := relLoop (S (String.length base)) base targ in
      if String.eqb stop ".." then Err (RelError basepath targpath)
      else if negb (String.eqb brest "") then
        let up := upward (strings.Count brest Separator) in
        Ok (if String.eqb trest "" then up
            else String.append up (String.append Separator trest))
      else Ok trest.

End filepath.

(** ** Package [os]: what the program sees of the file system *)

(** Package [time]: a time is the count of its nanoseconds since the Unix
    epoch, any integer.  [UnixNano] gives that count as an [int64]: it wraps
    around, so that two times a multiple of 2^64 nanoseconds apart have one
    stamp. *)
Module time.
Definition UnixNano (t : Z) : Z := (t + 2 ^ 63) mod 2 ^ 64 - 2 ^ 63.
End time.

(** [fs.FileInfo], the three answers the program asks of it.  [ModTime] is
    the modification time, [info.ModTime()]. *)
Module FileInfo.
Record t : Type := mk { Name : string; IsDir : bool; ModTime : Z }.
End FileInfo.

(** [fs.DirEntry], an entry of a directory as [os.ReadDir] lists it. *)
Module DirEntry.
Record t : Type := mk { Name : string; IsDir : bool }.
End DirEntry.

(** The environment of one call.  [Stat] follows symbolic links and [Lstat]
    does not, so the two can differ on one path.  [ReadDir] lists a
    directory; [filepath.Walk] reads the same directory for the names alone.
    [Match] is [filepath.Match]: what it answers on a malformed pattern has
    changed between releases of Go, and nothing below depends on it.
    [MapToLower] is [strings.Map(unicode.ToLower, s)], the case mapping of
    Unicode that [strings.ToLower] applies to a string with a byte outside
    ASCII; its tables are not part of this development. *)
Record Env : Type := {
  Stat : string -> result FileInfo.t;
  Lstat : string -> result FileInfo.t;
  ReadFile : string -> result string;
  ReadDir : string -> result (list DirEntry.t);
  Match : string -> string -> result bool;
  MapToLower : string -> string
}.

Definition readDirNames (env : Env) (dirname : string) : result (list string) :=
  match ReadDir env dirname with
  | Ok entries => Ok (map DirEntry.Name entries)
  | Err e => Err e
  end.

(** ** The manager *)

Record ContextManager : Type := {
  rootPath : string;
  fileCache : gmap string string;
  fileMtimes : gmap string Z;
  ignoreDirs : list string;
  ignoreFiles : list string;
  maxContextLen : Z;
  isKaliLinux : bool
}.

Definition NewContextManager (env : Env) (root : string) : ContextManager :=
  let isKali :=
    match Stat env "/etc/os-release" with
    | Ok _ =>
        match ReadFile env "/etc/os-release" with
        | Ok data => strings.Contains data "ID=kali"
        | Err _ => false
        end
    | Err _ => false
    end in
  let dirs := [".git"; "node_modules"; "__pycache__"; "venv"; ".env"; ".venv"] in
  let dirs :=
    if isKali
    then dirs ++ [".msf4"; "metasploit-framework"; "wordlists"; "exploitdb"]
    else dirs in
  {| rootPath := root;
     fileCache := ∅;
     fileMtimes := ∅;
     ignoreDirs := dirs;
     ignoreFiles := [".DS_Store"; "*.pyc"; "*.o"; "*.out"; "*.log"];
     maxContextLen := 16384;
     isKaliLinux := isKali |}.

Definition SetMaxContextLength (maxLen : Z) (cm : ContextManager) : ContextManager :=
  {| rootPath := rootPath cm;
     fileCache := fileCache cm;
     fileMtimes := fileMtimes cm;
     ignoreDirs := ignoreDirs cm;
     ignoreFiles := ignoreFiles cm;
     maxContextLen := maxLen;
     isKaliLinux := isKaliLinux cm |}.

Definition AddIgnorePattern (pattern : string) (cm : ContextManager) : ContextManager :=
  let isDirPattern := strings.HasSuffix pattern "/" in
  {| rootPath := rootPath cm;
     fileCache := fileCache cm;
     fileMtimes := fileMtimes cm;
     ignoreDirs :=
       if isDirPattern
       then ignoreDirs cm ++ [strings.TrimSuffix pattern "/"]
       else ignoreDirs cm;
     ignoreFiles :=
       if isDirPattern then ignoreFiles cm else ignoreFiles cm ++ [pattern];
     maxContextLen := maxContextLen cm;
     isKaliLinux := isKaliLinux cm |}.

(** The two assignments that [GetFileContent] makes under the write lock. *)
Definition store (filePath content : string) (mtime : Z) (cm : ContextManager)
  : ContextManager :=
  {| rootPath := rootPath cm;
     fileCache := <[filePath := content]> (fileCache cm);
     fileMtimes := <[filePath := mtime]> (fileMtimes cm);
     ignoreDirs := ignoreDirs cm;
     ignoreFiles := ignoreFiles cm;
     maxContextLen := maxContextLen cm;
     isKaliLinux := isKaliLinux cm |}.

(** ** State of a run

    The methods that read files change the manager.  They run in a state
    monad over the manager and a log of the paths handed to [os.ReadFile],
    the read counter by which a test observes that a call did no read. *)

Record Process : Type := {
  manager : ContextManager;
  readLog : list string
}.

Definition M (A : Type) : Type := Process -> A * Process.

Definition ret {A : Type} (a : A) : M A := fun st => (a, st).

Definition bind {A B : Type} (m : M A) (k : A -> M B) : M B :=
  fun st => let '(a, st1) := m st in k a st1.

Notation "x <- m ;; k" := (bind m (fun x => k))
  (at level 100, m at next level, right associativity).
Notation "m ;;; k" := (bind m (fun _ => k))
  (at level 100, right associativity).

Definition getManager : M ContextManager := fun st => (manager st, st).

Definition updManager (f : ContextManager -> ContextManager) : M unit :=
  fun st => (tt, {| manager := f (manager st); readLog := readLog st |}).

Definition osReadFile (env : Env) (name : string) : M (result string) :=
  fun st => (ReadFile env name,
             {| manager := manager st; readLog := readLog st ++ [name] |}).

(** A [for ... range] loop whose body changes the local variables [L]. *)
Fixpoint forRange {A L : Type} (l : list A) (body : A -> L -> M L) (vars : L) : M L :=
  match l with
  | [] => ret vars
  | x :: rest => vars1 <- body x vars ;; forRange rest body vars1
  end.

(** ** [GetFileContent] *)

Definition GetFileContent (env : Env) (filePath : string) : M (result string) :=
  cm <- getManager ;;
  let cached :=
    match fileCache cm !! filePath with
    | Some content =>
        match Stat env filePath with
        | Ok info =>
            match fileMtimes cm !! filePath with
            | Some mtime =>
                if mtime =? time.UnixNano (FileInfo.ModTime info)
                then Some content else None
            | None => None
            end
        | Err _ => None
        end
    | None => None
    end in
  match cached with
  | Some content => ret (Ok content)
  | None =>
      r <- osReadFile env filePath ;;
      match r with
      | Err err => ret (Err err)
      | Ok content =>
          match Stat env filePath with
          | Ok info =>
              updManager (store filePath content
                            (time.UnixNano (FileInfo.ModTime info))) ;;;
              ret (Ok content)
          | Err _ => ret (Ok content)
          end
      end
  end.

(** ** [ShouldIgnore] *)

Definition ShouldIgnore (env : Env) (cm : ContextManager) (path : string) : bool :=
  let base := filepath.Base path in
  match Stat env path with
  | Err _ => false
  | Ok info =>
      if FileInfo.IsDir info
      then existsb (fun ignoreDir => String.eqb base ignoreDir) (ignoreDirs cm)
      else existsb (fun ignorePattern =>
                      match Match env ignorePattern base with
                      | Ok matched => matched
                      | Err _ => false
                      end) (ignoreFiles cm)
  end.

(** ** [filepath.Walk]

    The function handed to [Walk] is a closure over local variables of its
    caller; here it takes their value [L] and returns the new one with its
    error.  It is called with the file information and no error, with an
    error and no information when [Lstat] failed on the entry, and with both
    when the directory it is called on could not be listed.

    [walk] descends one directory per unit of [depth]; it answers [None]
    when the tree is deeper than that. *)

Definition WalkFunc (L : Type) : Type :=
  string -> option FileInfo.t -> option error -> L -> L * option error.

Definition isErr (target : error) (err : error) : bool := error_eqb err target.

(** The loop of [walk] over the names of the directory [path]. *)
Definition walkEntries {L : Type} (env : Env) (walkFn : WalkFunc L)
    (descend : string -> FileInfo.t -> L -> option (L * option error))
    (path : string) : list string -> L -> option (L * option error) :=
  fix loop (names : list string) (vars : L) : option (L * option error) :=
    match names with
    | [] => Some (vars, None)
    | name :: rest =>
        let filename := filepath.Join [path; name] in
        match Lstat env filename with
        | Err err =>
            match walkFn filename None (Some err) vars with
            | (vars1, Some err1) =>
                if negb (isErr SkipDir err1) then Some (vars1, Some err1)
                else loop rest vars1
            | (vars1, None) => loop rest vars1
            end
        | Ok fileInfo =>
            match descend filename fileInfo vars with
            | None => None
            | Some (vars1, Some err1) =>
                if negb (FileInfo.IsDir fileInfo) || negb (isErr SkipDir err1)
                then Some (vars1, Some err1)
                else loop rest vars1
            | Some (vars1, None) => loop rest vars1
            end
        end
    end.

Fixpoint walk {L : Type} (env : Env) (walkFn : WalkFunc L) (depth : nat)
    (path : string) (info : FileInfo.t) (vars : L) : option (L * option error) :=
  if negb (FileInfo.IsDir info) then Some (walkFn path (Some info) None vars)
  else
    match depth with
    | O => None
    | S depth' =>
        match readDirNames env path with
        | Err err => Some (walkFn path (Some info) (Some err) vars)
        | Ok names =>
            match walkFn path (Some info) None vars with
            | (vars1, Some err1) => Some (vars1, Some err1)
            | (vars1, None) =>
                walkEntries env walkFn (walk env walkFn depth') path names vars1
            end
        end
    end.

Definition Walk {L : Type} (env : Env) (depth : nat) (root : string)
    (fn : WalkFunc L) (vars : L) : option (L * option error) :=
  let walked :=
    match Lstat env root with
    | Err err => Some (fn root None (Some err) vars)
    | Ok info => walk env fn depth root info vars
    end in
  match walked with
  | None => None
  | Some (vars1, Some err) =>
      if isErr SkipDir err || isErr SkipAll err then Some (vars1, None)
      else Some (vars1, Some err)
  | Some (vars1, None) => Some (vars1, None)
  end.

(** ** [GetProjectStructure] *)

(** The function literal of [GetProjectStructure]; [result] is the builder. *)
Definition structureFn (env : Env) (cm : ContextManager) : WalkFunc string :=
  fun path info err result =>
    match err, info with
    | Some e, _ => (result, Some e)
    | None, None => (result, None)
    | None, Some info =>
        if negb (String.eqb path (rootPath cm)) && ShouldIgnore env cm path then
          if FileInfo.IsDir info then (result, Some SkipDir) else (result, None)
        else
          match filepath.Rel (rootPath cm) path with
          | Err e => (result, Some e)
          | Ok relPath =>
              if String.eqb relPath "." then (result, None)
              else
                let depth := (List.length (strings.Split relPath filepath.Separator) - 1)%nat in
                let indent := strings.Repeat "  " depth in
                if FileInfo.IsDir info
                then (result +++ indent +++ FileInfo.Name info +++ "/" +++ LF, None)
                else (result +++ indent +++ FileInfo.Name info +++ LF, None)
          end
    end.

Definition GetProjectStructure (env : Env) (cm : ContextManager) (depth : nat)
  : option (result string) :=
  match Walk env depth (rootPath cm) (structureFn env cm) ("Project Structure:" +++ LF) with
  | None => None
  | Some (_, Some err) => Some (Err err)
  | Some (result, None) => Some (Ok result)
  end.

(** ** [GetRelevantFiles] *)

(** The function literal of [GetRelevantFiles]; [relevantFiles] is the slice. *)
Definition relevantFn (env : Env) (cm : ContextManager) (query : string) (maxFiles : Z)
  : WalkFunc (list string) :=
  fun path info err relevantFiles =>
    match err, info with
    | Some _, _ => (relevantFiles, None)
    | None, None => (relevantFiles, None)
    | None, Some info =>
        if FileInfo.IsDir info then
          if ShouldIgnore env cm path then (relevantFiles, Some SkipDir)
          else (relevantFiles, None)
        else if ShouldIgnore env cm path then (relevantFiles, None)
        else
          let relPath :=
            match filepath.Rel (rootPath cm) path with
            | Ok r => r
            | Err _ => EmptyString
            end in
          let relevantFiles :=
            if strings.Contains (strings.ToLower (MapToLower env) relPath)
                 (strings.ToLower (MapToLower env) query)
            then relevantFiles ++ [path]
            else relevantFiles in
          if Z.of_nat (List.length relevantFiles) >=? maxFiles
          then (relevantFiles, Some SkipDir)
          else (relevantFiles, None)
    end.

Definition GetRelevantFiles (env : Env) (cm : ContextManager) (depth : nat)
    (query : string) (maxFiles : Z) : option (list string * option error) :=
  Walk env depth (rootPath cm) (relevantFn env cm query maxFiles) [].

(** ** [findRelatedFiles]

    Each language has its loop over the lines of the content; its body looks
    at one trimmed line and appends to [relatedFiles].  The body is given
    here as the list of paths that one line appends. *)

(** Appending the files with extension [ext] that are directly in a
    directory: the inner loop shared by the Go and the Python strategy. *)
Definition sourceFilesIn (ext resolvedPath : string) (entries : list DirEntry.t)
  : list string :=
  flat_map (fun entry =>
              if negb (DirEntry.IsDir entry)
                 && String.eqb (filepath.Ext (DirEntry.Name entry)) ext
              then [filepath.Join [resolvedPath; DirEntry.Name entry]]
              else []) entries.

Definition isLocalImport (importPath : string) : bool :=
  strings.HasPrefix importPath "./" || strings.HasPrefix importPath "../".

(** The import path of a Go line that the scan follows: a single-line
    quoted import whose path is relative. *)
Definition goImportPath (line : string) : option string :=
  if strings.HasPrefix line "import "
     || (strings.HasPrefix line "import(" && negb (strings.HasSuffix line ")"))
  then
    if strings.HasPrefix line "import (" then None
    else if strings.HasPrefix line ("import " +++ DQUOTE) then
      let importPath := strings.Trim (strings.TrimPrefix line "import ") DQUOTE in
      if isLocalImport importPath then Some importPath else None
    else None
  else None.

Definition goLine (env : Env) (dir line : string) : list string :=
  match goImportPath line with
  | None => []
  | Some importPath =>
      let resolvedPath := filepath.Join [dir; importPath] in
      match Stat env resolvedPath with
      | Err _ => []
      | Ok info =>
          if negb (FileInfo.IsDir info) then [resolvedPath]
          else
            match ReadDir env resolvedPath with
            | Ok entries => sourceFilesIn ".go" resolvedPath entries
            | Err _ => []
            end
      end
  end.

(** The import path of a JS/TS line that the scan follows. *)
Definition jsImportPath (line : string) : option string :=
  if strings.HasPrefix line "import " || strings.HasPrefix line "require(" then
    let importPath :=
      if strings.HasPrefix line "import " then
        match strings.Split line "from" with
        | _ :: part1 :: _ =>
            strings.Trim (strings.TrimSpace part1) (SQUOTE +++ DQUOTE +++ ";" +++ CR +++ LF)
        | _ => EmptyString
        end
      else if strings.HasPrefix line "require(" then
        strings.Trim
          (strings.TrimSpace
             (strings.TrimSuffix (strings.TrimPrefix line "require(") ");"))
          (SQUOTE +++ DQUOTE)
      else EmptyString in
    if negb (String.eqb importPath "") && isLocalImport importPath
    then Some importPath else None
  else None.

(** The loop over the extensions, left at the first one that names a file. *)
Fixpoint tryExtensions (env : Env) (resolvedPath : string) (exts : list string)
  : list string :=
  match exts with
  | [] => []
  | ext :: rest =>
      let pathWithExt := resolvedPath +++ ext in
      match Stat env pathWithExt with
      | Ok info =>
          if negb (FileInfo.IsDir info) then [pathWithExt]
          else tryExtensions env resolvedPath rest
      | Err _ => tryExtensions env resolvedPath rest
      end
  end.

Definition jsLine (env : Env) (dir line : string) : list string :=
  match jsImportPath line with
  | None => []
  | Some importPath =>
      let resolvedPath := filepath.Join [dir; importPath] in
      match Stat env resolvedPath with
      | Ok info => if negb (FileInfo.IsDir info) then [resolvedPath] else []
      | Err _ => tryExtensions env resolvedPath [".js"; ".ts"; ".jsx"; ".tsx"]
      end
  end.

(** The module path of a Python line that the scan follows, as the
    directory path it stands for: [from .a.b import c] gives [/a/b]. *)
Definition pyModulePath (line : string) : option string :=
  if strings.HasPrefix line "import " || strings.HasPrefix line "from " then
    if strings.HasPrefix line "from " then
      match strings.Split line "import" with
      | part0 :: _ =>
          let module := strings.TrimSpace (strings.TrimPrefix part0 "from ") in
          if strings.HasPrefix module "." then
            Some (if String.eqb module "." then EmptyString
                  else strings.ReplaceAll module "." "/")
          else None
      | [] => None
      end
    else None
  else None.

Definition pyLine (env : Env) (dir line : string) : list string :=
  match pyModulePath line with
  | None => []
  | Some modulePath =>
      let resolvedDir := filepath.Join [dir; modulePath] in
      match ReadDir env resolvedDir with
      | Ok entries => sourceFilesIn ".py" resolvedDir entries
      | Err _ => []
      end
  end.

(** The loop over the lines of the content, for one strategy. *)
Definition scanLines (perLine : string -> list string) (content : string)
  : list string :=
  fold_left (fun relatedFiles line =>
               relatedFiles ++ perLine (strings.TrimSpace line))
            (strings.Split content LF) [].

(** The files of [dir] named as the file but for the extension. *)
Definition siblings (env : Env) (dir baseName ext : string) : list string :=
  let baseWithoutExt := strings.TrimSuffix baseName ext in
  match ReadDir env dir with
  | Err _ => []
  | Ok entries =>
      flat_map (fun entry =>
                  if DirEntry.IsDir entry then []
                  else
                    let name := DirEntry.Name entry in
                    let nameWithoutExt := strings.TrimSuffix name (filepath.Ext name) in
                    if String.eqb nameWithoutExt baseWithoutExt
                       && negb (String.eqb name baseName)
                    then [filepath.Join [dir; name]]
                    else []) entries
  end.

Definition findRelatedFiles (env : Env) (filePath content : string) : list string :=
  let ext := filepath.Ext filePath in
  let dir := filepath.Dir filePath in
  let imported :=
    if String.eqb ext ".go" then scanLines (goLine env dir) content
    else if String.eqb ext ".js" || String.eqb ext ".ts"
    then scanLines (jsLine env dir) content
    else if String.eqb ext ".py" then scanLines (pyLine env dir) content
    else [] in
  imported ++ siblings env dir (filepath.Base filePath) ext.

(** ** [GetFileContext] *)

(** The three kinds of text that [GetFileContext] writes to its builder. *)
Inductive section : Type :=
| Primary (relPath content : string)
| Related (relPath content : string)
| Notice (relPath : string).

Definition fence : string := "```".

(** The three format strings of [GetFileContext]. *)
Definition render (sec : section) : string :=
  match sec with
  | Primary relPath content =>
      "File: " +++ relPath +++ LF +++ LF +++ fence +++ LF +++ content +++ LF
        +++ fence +++ LF +++ LF
  | Related relPath content =>
      "Related file: " +++ relPath +++ LF +++ LF +++ fence +++ LF +++ content +++ LF
        +++ fence +++ LF +++ LF
  | Notice relPath =>
      "(Additional related file " +++ relPath
        +++ " not included due to context length limits)" +++ LF
  end.

Definition len (s : string) : Z := Z.of_nat (String.length s).

(** [filepath.Rel] with its error dropped, [relPath, _ := filepath.Rel(...)]. *)
Definition relOf (cm : ContextManager) (path : string) : string :=
  match filepath.Rel (rootPath cm) path with
  | Ok relPath => relPath
  | Err _ => EmptyString
  end.

(** The local variables of the loop of [GetFileContext]: the builder
    [context] and [totalLength].  [written] lists what was written to the
    builder, section by section; the program does not hold it, it is kept
    to state what the text consists of. *)
Record Assembly : Type := {
  context : string;
  totalLength : Z;
  written : list section
}.

Definition write (sec : section) (counted : bool) (a : Assembly) : Assembly :=
  {| context := context a +++ render sec;
     totalLength := if counted then totalLength a + len (render sec) else totalLength a;
     written := written a ++ [sec] |}.

(** The body of the loop over the related files. *)
Definition relatedStep (env : Env) (relatedFile : string) (a : Assembly) : M Assembly :=
  r <- GetFileContent env relatedFile ;;
  match r with
  | Err _ => ret a
  | Ok relatedContent =>
      cm <- getManager ;;
      let relPath := relOf cm relatedFile in
      let fileContext := render (Related relPath relatedContent) in
      if totalLength a + len fileContext >? maxContextLen cm
      then ret (write (Notice relPath) false a)
      else ret (write (Related relPath relatedContent) true a)
  end.

(** [GetFileContext] with the list of what it wrote. *)
Definition assemble (env : Env) (filePath : string) : M (result Assembly) :=
  r <- GetFileContent env filePath ;;
  match r with
  | Err err => ret (Err err)
  | Ok content =>
      cm <- getManager ;;
      let relPath := relOf cm filePath in
      let start :=
        {| context := render (Primary relPath content);
           totalLength := len (render (Primary relPath content));
           written := [Primary relPath content] |} in
      let relatedFiles := findRelatedFiles env filePath content in
      a <- forRange relatedFiles (relatedStep env) start ;;
      ret (Ok a)
  end.

Definition GetFileContext (env : Env) (filePath : string) : M (result string) :=
  r <- assemble env filePath ;;
  match r with
  | Err err => ret (Err err)
  | Ok a => ret (Ok (context a))
  end.

(** ** A file system given by a table, for the examples

    A table gives the node at each path that exists.  A path not in the
    table does not exist: every operation on it fails.  A directory lists
    its entries itself, so that an example can list an entry that is gone
    when it is looked at. *)

Inductive node : Type :=
| file (content : string) (mtime : Z)
| locked (mtime : Z)
| folder (entries : list DirEntry.t).

Fixpoint lookupNode (table : list (string * node)) (path : string) : option node :=
  match table with
  | [] => None
  | (p, n) :: rest => if String.eqb p path then Some n else lookupNode rest path
  end.

Definition infoOf (path : string) (n : node) : FileInfo.t :=
  match n with
  | file _ mtime => FileInfo.mk (filepath.Base path) false mtime
  | locked mtime => FileInfo.mk (filepath.Base path) false mtime
  | folder _ => FileInfo.mk (filepath.Base path) true 0
  end.

(** A matcher for patterns made of literal bytes, [?] and [*]: the patterns
    a new manager starts with. *)
Fixpoint globMatch (pattern name : string) {struct pattern} : bool :=
  match pattern with
  | EmptyString => String.eqb name ""
  | String p pattern' =>
      if Ascii.eqb p "*"%char then
        (fix star (n : string) : bool :=
           globMatch pattern' n ||
           match n with
           | String c n' => negb (filepath.isSep c) && star n'
           | EmptyString => false
           end) name
      else
        match name with
        | String c name' =>
            (if Ascii.eqb p "?"%char then negb (filepath.isSep c) else Ascii.eqb p c)
            && globMatch pattern' name'
        | EmptyString => false
        end
  end.

(** A case mapping for the examples: the letters of ASCII and of Latin-1
    (U+00C0 to U+00DE but U+00D7, the bytes 195 128 to 195 158 but 195 151);
    an example with other letters brings its own. *)
Fixpoint latinLower (s : string) : string :=
  match s with
  | EmptyString => EmptyString
  | String c s' =>
      if (nat_of_ascii c =? 195)%nat then
        match s' with
        | String d s'' =>
            let n := nat_of_ascii d in
            if ((128 <=? n) && (n <=? 158) && negb (n =? 151))%nat
            then String c (String (ascii_of_nat (n + 32)) (latinLower s''))
            else String c (String d (latinLower s''))
        | EmptyString => String c EmptyString
        end
      else String (strings.lowerByte c) (latinLower s')
  end.

Definition tableEnv (table : list (string * node)) : Env :=
  let stat (op path : string) :=
    match lookupNode table path with
    | Some n => Ok (infoOf path n)
    | None => Err (PathError op path)
    end in
  {| Stat := stat "stat";
     Lstat := stat "lstat";
     ReadFile := fun path =>
       match lookupNode table path with
       | Some (file content _) => Ok content
       | _ => Err (PathError "open" path)
       end;
     ReadDir := fun path =>
       match lookupNode table path with
       | Some (folder entries) => Ok entries
       | _ => Err (PathError "open" path)
       end;
     Match := fun pattern name => Ok (globMatch pattern name);
     MapToLower := latinLower |}.

Definition fileEntry (name : string) : DirEntry.t := DirEntry.mk name false.
Definition dirEntry (name : string) : DirEntry.t := DirEntry.mk name true.

Definition start (cm : ContextManager) : Process :=
  {| manager := cm; readLog := [] |}.

(** ** The cache: what the statements about [GetFileContent] speak of *)

(** The cache has an entry for [filePath] holding [content], and the time
    stamp stored with it is the stamp of the time the file has on disk now. *)
Definition freshEntry (env : Env) (cm : ContextManager) (filePath content : string)
  : Prop :=
  fileCache cm !! filePath = Some content /\
  exists info, Stat env filePath = Ok info /\
               fileMtimes cm !! filePath
               = Some (time.UnixNano (FileInfo.ModTime info)).

(** The call returns the content the cache holds and reads no file. *)
Definition servedFromCache (env : Env) (filePath : string) (st : Process) : Prop :=
  exists content,
    fileCache (manager st) !! filePath = Some content /\
    fst (GetFileContent env filePath st) = Ok content /\
    readLog (snd (GetFileContent env filePath st)) = readLog st.

(** The call reads the file once and returns what the read returned. *)
Definition readFromDisk (env : Env) (filePath : string) (st : Process) : Prop :=
  fst (GetFileContent env filePath st) = ReadFile env filePath /\
  readLog (snd (GetFileContent env filePath st)) = readLog st ++ [filePath].

(** What [GetFileContent] does when the cache does not answer: one read,
    and an entry stored when the read and the second [Stat] succeed. *)
Definition slowPath (env : Env) (filePath : string) (st : Process)
  : result string * Process :=
  let logged := {| manager := manager st; readLog := readLog st ++ [filePath] |} in
  match ReadFile env filePath with
  | Err err => (Err err, logged)
  | Ok content =>
      match Stat env filePath with
      | Ok info =>
          (Ok content,
           {| manager := store filePath content
                           (time.UnixNano (FileInfo.ModTime info)) (manager st);
              readLog := readLog st ++ [filePath] |})
      | Err _ => (Ok content, logged)
      end
  end.

(** ** The sections of an assembled context *)

Definition isPrimary (sec : section) : bool :=
  match sec with Primary _ _ => true | _ => false end.

Definition isRelated (sec : section) : bool :=
  match sec with Related _ _ => true | _ => false end.

Definition isNotice (sec : section) : bool :=
  match sec with Notice _ => true | _ => false end.

Definition sectionPath (sec : section) : string :=
  match sec with
  | Primary relPath _ => relPath
  | Related relPath _ => relPath
  | Notice relPath => relPath
  end.

(** The text of a list of sections, one after the other. *)
Definition renderAll (secs : list section) : string :=
  fold_right (fun sec text => render sec +++ text) EmptyString secs.

(** The size of the sections of one kind. *)
Definition sizeOf (kind : section -> bool) (secs : list section) : Z :=
  fold_right (fun sec n => if kind sec then len (render sec) + n else n) 0 secs.

(** The size of the largest notice that the related files could get. *)
Definition largestNotice (cm : ContextManager) (relatedFiles : list string) : Z :=
  fold_right Z.max 0 (map (fun f => len (render (Notice (relOf cm f)))) relatedFiles).

(** The process with another budget. *)
Definition withBudget (maxLen : Z) (st : Process) : Process :=
  {| manager := SetMaxContextLength maxLen (manager st); readLog := readLog st |}.

(** What holds of the local variables of the loop of [GetFileContext] after
    the related files [done], for the primary section [primary], the root
    [root] and the budget [budget]. *)
Record assembled (env : Env) (cm : ContextManager) (primary : section)
    (done : list string) (a : Assembly) : Prop := {
  as_context : context a = renderAll (written a);
  as_total : totalLength a = len (render primary) + sizeOf isRelated (written a);
  as_budget : sizeOf isRelated (written a) = 0 \/ totalLength a <= maxContextLen cm;
  as_length : len (context a) = totalLength a + sizeOf isNotice (written a);
  as_written : exists items,
      written a = primary :: items /\
      Forall (fun sec => isPrimary sec = false) items /\
      sublist (map sectionPath items) (map (relOf cm) done) /\
      (forall f, In f done -> (exists c, ReadFile env f = Ok c) ->
                 In (relOf cm f) (map sectionPath items))
}.

(** The invariant of the loop: what was written is as [assembled] says, and
    the root and the budget of the manager are those the loop started with. *)
Definition loopInv (env : Env) (cm : ContextManager) (primary : section)
    (done : list string) (a : Assembly) (st : Process) : Prop :=
  assembled env cm primary done a /\
  rootPath (manager st) = rootPath cm /\
  maxContextLen (manager st) = maxContextLen cm.


(** An answer of a [WalkFunc] that steers the walk and reports no failure. *)
Definition steers (r : option error) : Prop := r = None \/ r = Some SkipDir.

(** ** Examples of file systems *)

(** One file, before and after it is rewritten. *)
Definition notesBefore : Env := tableEnv [("/proj/notes.txt", file "old text" 100)].
Definition notesAfter : Env := tableEnv [("/proj/notes.txt", file "new text" 200)].

Definition notesStart : Process := start (NewContextManager notesBefore "/proj").

(** The file rewritten with a time 2^64 nanoseconds later, which has the
    stamp of the first, and rewritten with the very time of the first. *)
Definition notesWrapped : Env :=
  tableEnv [("/proj/notes.txt", file "new text" (100 + 2 ^ 64))].
Definition notesSameTime : Env := tableEnv [("/proj/notes.txt", file "new text" 100)].

(** A file whose content can no longer be read; its time stamp can. *)
Definition notesLocked : Env := tableEnv [("/proj/notes.txt", locked 100)].

(** Nothing at all. *)
Definition emptyEnv : Env := tableEnv [].

(** A project with a Go file, a long note and a short configuration file
    beside it, all three named [server]. *)
Definition serverGo : string :=
  "package main" +++ LF +++ LF +++
  "import " +++ DQUOTE +++ "net/http" +++ DQUOTE +++ LF +++ LF +++
  "func main() {" +++ LF +++
  "  http.ListenAndServe(" +++ DQUOTE +++ ":8080" +++ DQUOTE +++ ", nil)" +++ LF +++
  "}" +++ LF.

Definition serverMd : string :=
  "# Server" +++ LF +++ LF +++
  strings.Repeat ("The server listens on the port given in server.yaml. " +++ LF) 6.

Definition serverYaml : string := "port: 8080" +++ LF.

Definition serverEnv : Env :=
  tableEnv
    [("/proj", folder [fileEntry "server.go"; fileEntry "server.md"; fileEntry "server.yaml"]);
     ("/proj/server.go", file serverGo 10);
     ("/proj/server.md", file serverMd 20);
     ("/proj/server.yaml", file serverYaml 30)].

Definition serverStart (maxLen : Z) : Process :=
  start (SetMaxContextLength maxLen (NewContextManager serverEnv "/proj")).

(** A project with two packages, each in its directory. *)
Definition repoEnv : Env :=
  tableEnv
    [("/proj", folder [dirEntry "api"; dirEntry "ui"]);
     ("/proj/api", folder [fileEntry "client.go"]);
     ("/proj/api/client.go", file "package api" 10);
     ("/proj/ui", folder [fileEntry "terminal.go"]);
     ("/proj/ui/terminal.go", file "package ui" 20)].

(** The same project when the root lists a file that is gone by the time
    the walk looks at it. *)
Definition racyEnv : Env :=
  tableEnv
    [("/proj", folder [dirEntry "api"; fileEntry "notes.tmp"; dirEntry "ui"]);
     ("/proj/api", folder [fileEntry "client.go"]);
     ("/proj/api/client.go", file "package api" 10);
     ("/proj/ui", folder [fileEntry "terminal.go"]);
     ("/proj/ui/terminal.go", file "package ui" 20)].

(** A web project whose entry file imports a directory. *)
Definition appJs : string :=
  "import { format } from " +++ SQUOTE +++ "./lib" +++ SQUOTE +++ ";" +++ LF +++
  "format();" +++ LF.

Definition webEnv : Env :=
  tableEnv
    [("/web", folder [fileEntry "app.js"; dirEntry "lib"]);
     ("/web/app.js", file appJs 10);
     ("/web/lib", folder [fileEntry "format.js"; fileEntry "util.js"]);
     ("/web/lib/format.js", file "export function format() {}" 20);
     ("/web/lib/util.js", file "export function util() {}" 30)].

(** The same layout in Go and in Python. *)
Definition mainGo : string :=
  "package main" +++ LF +++ "import " +++ DQUOTE +++ "./lib" +++ DQUOTE +++ LF.

Definition goEnv : Env :=
  tableEnv
    [("/gosrc", folder [fileEntry "main.go"; dirEntry "lib"]);
     ("/gosrc/main.go", file mainGo 10);
     ("/gosrc/lib", folder [fileEntry "format.go"; fileEntry "notes.md"; dirEntry "sub"]);
     ("/gosrc/lib/format.go", file "package lib" 20);
     ("/gosrc/lib/notes.md", file "notes" 30);
     ("/gosrc/lib/sub", folder [fileEntry "deep.go"])].

Definition mainPy : string := "from .lib import format" +++ LF.

Definition pyEnv : Env :=
  tableEnv
    [("/pysrc", folder [fileEntry "main.py"; dirEntry "lib"]);
     ("/pysrc/main.py", file mainPy 10);
     ("/pysrc/lib", folder [fileEntry "__init__.py"; fileEntry "format.py"]);
     ("/pysrc/lib/__init__.py", file "" 20);
     ("/pysrc/lib/format.py", file "def format(): pass" 30)].

(** A project with one note, [Époque.md]: its first letter is U+00C9, in
    UTF-8 the bytes 195 and 137; the small letter is U+00E9, 195 and 169. *)
Definition epoqueMd : string := bytesString [195; 137]%nat +++ "poque.md".

Definition accentEnv : Env :=
  tableEnv
    [("/proj", folder [fileEntry epoqueMd]);
     ("/proj/" +++ epoqueMd, file "notes" 10)].

(** ** The loop of [GetFileContext], file by file

    What the loop is to do with one related file, said without the loop:
    [cm] is the manager at the start of the call, whose cache may answer for
    the file, and [total] the size of the primary section and of the related
    sections written before the file. *)

(** The content the file is fetched with: what the cache held for it with
    the stamp of its time, and what reading it gives when the cache held no
    such entry. *)
Definition fetchedAs (env : Env) (cm : ContextManager) (f content : string) : Prop :=
  freshEntry env cm f content \/
  ((forall cached, ~ freshEntry env cm f cached) /\ ReadFile env f = Ok content).

(** One related file [f] met at the running total [total]: the text that is
    written for it and the running total after it. *)
Inductive relatedItem (env : Env) (cm : ContextManager) (total : Z) (f : string)
  : string -> Z -> Prop :=
| item_none :
    (forall content, ~ fetchedAs env cm f content) ->
    relatedItem env cm total f EmptyString total
| item_notice (content : string) :
    fetchedAs env cm f content ->
    total + len ("Related file: " +++ relOf cm f +++ LF +++ LF +++ "```" +++ LF
                 +++ content +++ LF +++ "```" +++ LF +++ LF) > maxContextLen cm ->
    relatedItem env cm total f
      ("(Additional related file " +++ relOf cm f
       +++ " not included due to context length limits)" +++ LF)
      total
| item_section (content : string) :
    fetchedAs env cm f content ->
    total + len ("Related file: " +++ relOf cm f +++ LF +++ LF +++ "```" +++ LF
                 +++ content +++ LF +++ "```" +++ LF +++ LF) <= maxContextLen cm ->
    relatedItem env cm total f
      ("Related file: " +++ relOf cm f +++ LF +++ LF +++ "```" +++ LF
       +++ content +++ LF +++ "```" +++ LF +++ LF)
      (total + len ("Related file: " +++ relOf cm f +++ LF +++ LF +++ "```" +++ LF
                    +++ content +++ LF +++ "```" +++ LF +++ LF)).

(** The related files in their order, from the running total [total]: the
    text written for them, the text of each file after the text of the files
    before it, and the total at the end. *)
Inductive relatedItems (env : Env) (cm : ContextManager) (total : Z)
  : list string -> string -> Z -> Prop :=
| items_none : relatedItems env cm total [] EmptyString total
| items_more (files : list string) (text : string) (f : string)
    (item : string) (total1 total2 : Z) :
    relatedItems env cm total files text total1 ->
    relatedItem env cm total1 f item total2 ->
    relatedItems env cm total (files ++ [f]) (text +++ item) total2.

(** The invariant of the loop that goes with [relatedItems]: the cache of
    the state holds what the cache at the start held, and beyond that only
    what was read from the files. *)
Definition itemizedInv (env : Env) (cm : ContextManager) (primaryText : string)
    (done : list string) (a : Assembly) (st : Process) : Prop :=
  (exists text,
     relatedItems env cm (len primaryText) done text (totalLength a) /\
     context a = primaryText +++ text) /\
  (forall f c, freshEntry env cm f c -> freshEntry env (manager st) f c) /\
  (forall f c, freshEntry env (manager st) f c -> fetchedAs env cm f c) /\
  rootPath (manager st) = rootPath cm /\
  maxContextLen (manager st) = maxContextLen cm.

(** ** The cache: what it keeps from call to call *)

(** The two maps of the cache have the same paths. *)
Definition aligned (cm : ContextManager) : Prop :=
  forall path, is_Some (fileCache cm !! path) <-> is_Some (fileMtimes cm !! path).

(** Every entry that carries the time stamp its file has now holds the
    content its file has now. *)
Definition coherent (env : Env) (cm : ContextManager) : Prop :=
  forall path content,
    freshEntry env cm path content -> ReadFile env path = Ok content.

(** Two managers with the same root, budget and ignore rules. *)
Definition sameSettings (cm1 cm2 : ContextManager) : Prop :=
  rootPath cm1 = rootPath cm2 /\
  maxContextLen cm1 = maxContextLen cm2 /\
  ignoreDirs cm1 = ignoreDirs cm2 /\
  ignoreFiles cm1 = ignoreFiles cm2 /\
  isKaliLinux cm1 = isKaliLinux cm2.

(** ** Ignore rules: what one more pattern adds *)

(** The pattern, as [AddIgnorePattern] files it, applies to the path: as a
    directory name to a directory of that name, as a file pattern to a file
    whose name it matches. *)
Definition patternApplies (env : Env) (pattern path : string) : bool :=
  match Stat env path with
  | Err _ => false
  | Ok info =>
      if FileInfo.IsDir info
      then strings.HasSuffix pattern "/"
           && String.eqb (filepath.Base path) (strings.TrimSuffix pattern "/")
      else negb (strings.HasSuffix pattern "/")
           && match Match env pattern (filepath.Base path) with
              | Ok matched => matched
              | Err _ => false
              end
  end.

Definition defaultIgnoreDirs : list string :=
  [".git"; "node_modules"; "__pycache__"; "venv"; ".env"; ".venv"].

Definition kaliIgnoreDirs : list string :=
  [".msf4"; "metasploit-framework"; "wordlists"; "exploitdb"].

(** A system that says it is Kali, with a project on it. *)
Definition kaliEnv : Env :=
  tableEnv
    [("/etc/os-release", file ("NAME=Kali" +++ LF +++ "ID=kali" +++ LF) 1);
     ("/proj", folder [dirEntry "node_modules"; dirEntry "wordlists"]);
     ("/proj/node_modules", folder []);
     ("/proj/wordlists", folder [])].

(** ** Traversals: what they return *)

(** The path is one that [GetRelevantFiles] appends when it is handed it as
    a file: [Lstat] finds it, it is not ignored, and its path from the root
    contains the query, letter case apart. *)
Definition relevantFile (env : Env) (cm : ContextManager) (query path : string) : bool :=
  match Lstat env path with
  | Ok _ =>
      negb (ShouldIgnore env cm path)
      && strings.Contains (strings.ToLower (MapToLower env) (relOf cm path))
           (strings.ToLower (MapToLower env) query)
  | Err _ => false
  end.

(** A project with three files whose names start with a dot. *)
Definition dotEnv : Env :=
  tableEnv
    [("/proj", folder [fileEntry ".dockerignore"; fileEntry ".env"; fileEntry ".gitignore";
                       fileEntry "main.go"]);
     ("/proj/.dockerignore", file "dist" 10);
     ("/proj/.env", file "TOKEN=secret" 20);
     ("/proj/.gitignore", file "dist" 30);
     ("/proj/main.go", file "package main" 40)].

(** ** The loop of [GetFileContext]: what becomes of each related file *)

(** After the related files [done], each of them that can be read has its
    section in what was written, or has its notice and a section that does
    not fit after the running total. *)
Definition settled (env : Env) (cm : ContextManager) (done : list string)
    (a : Assembly) : Prop :=
  forall f content,
    In f done -> ReadFile env f = Ok content ->
    In (Related (relOf cm f) content) (written a) \/
    (In (Notice (relOf cm f)) (written a) /\
     totalLength a + len (render (Related (relOf cm f) content)) > maxContextLen cm).

Definition settledInv (env : Env) (cm : ContextManager) (done : list string)
    (a : Assembly) (st : Process) : Prop :=
  settled env cm done a /\
  coherent env (manager st) /\
  sameSettings (manager st) cm.

(** Two managers with the same cache, root and budget; their ignore rules
    may differ. *)
Definition sameCache (cm1 cm2 : ContextManager) : Prop :=
  fileCache cm1 = fileCache cm2 /\
  fileMtimes cm1 = fileMtimes cm2 /\
  rootPath cm1 = rootPath cm2 /\
  maxContextLen cm1 = maxContextLen cm2.

(** The process with one more ignore pattern. *)
Definition withPattern (pattern : string) (st : Process) : Process :=
  {| manager := AddIgnorePattern pattern (manager st); readLog := readLog st |}.

(** The cache has entries with the current time stamp for the primary file,
    holding [content], and for each of the files [done]. *)
Definition allFresh (env : Env) (filePath content : string) (done : list string)
    (st : Process) : Prop :=
  freshEntry env (manager st) filePath content /\
  forall f, In f done -> exists c, freshEntry env (manager st) f c.

(** The path is one that [GetRelevantFiles] looks at as a file: [Lstat]
    finds it and it is not ignored. *)
Definition visibleFile (env : Env) (cm : ContextManager) (path : string) : bool :=
  match Lstat env path with
  | Ok _ => negb (ShouldIgnore env cm path)
  | Err _ => false
  end.

(** A file that can be read while [Stat] fails on it. *)
Definition noStatEnv : Env :=
  {| Stat := fun path => Err (PathError "stat" path);
     Lstat := fun path => Err (PathError "lstat" path);
     ReadFile := fun path => Ok "text";
     ReadDir := fun path => Err (PathError "open" path);
     Match := fun pattern name => Ok false;
     MapToLower := fun s => s |}.

(** ** The depth of a tree

    [walk] is given a depth; [withinDepth env depth path info] tells that the
    tree below [path] is no deeper than it: a directory at depth 0 is too
    deep, and below a directory that can be listed every entry that [Lstat]
    finds is within one level less. *)
Fixpoint withinDepth (env : Env) (depth : nat) (path : string) (info : FileInfo.t)
  : bool :=
  negb (FileInfo.IsDir info) ||
  match depth with
  | O => false
  | S depth' =>
      match readDirNames env path with
      | Err _ => true
      | Ok names =>
          forallb (fun name =>
                     match Lstat env (filepath.Join [path; name]) with
                     | Err _ => true
                     | Ok fileInfo =>
                         withinDepth env depth' (filepath.Join [path; name]) fileInfo
                     end) names
      end
  end.

(** The project of [repoEnv] when the directory [api] cannot be listed. *)
Definition sealedEnv : Env :=
  {| Stat := Stat repoEnv;
     Lstat := Lstat repoEnv;
     ReadFile := ReadFile repoEnv;
     ReadDir := fun path =>
       if String.eqb path "/proj/api" then Err (PathError "open" path)
       else ReadDir repoEnv path;
     Match := Match repoEnv;
     MapToLower := MapToLower repoEnv |}.

(** A project of three files, the second of which is gone when the walk
    looks at it. *)
Definition goneEnv : Env :=
  tableEnv
    [("/proj", folder [fileEntry "README.md"; fileEntry "notes.tmp"; fileEntry "main.go"]);
     ("/proj/README.md", file "read me" 10);
     ("/proj/main.go", file "package main" 20)].

(** * Properties *)

(** ** The library functions on examples *)

Example Clean_ex1 : filepath.Clean "/proj/src/../lib/./x.go" = "/proj/lib/x.go".
Proof. reflexivity. Qed.
Example Clean_ex2 : filepath.Clean "../../a//b/" = "../../a/b".
Proof. reflexivity. Qed.
Example Clean_ex3 : filepath.Clean "/../a" = "/a" /\ filepath.Clean "a/.." = "."
  /\ filepath.Clean "/" = "/" /\ filepath.Clean "" = ".".
Proof. repeat split; reflexivity. Qed.
Example Rel_ex : filepath.Rel "/proj" "/proj/a/b.go" = Ok "a/b.go"
  /\ filepath.Rel "/proj" "/proj" = Ok "."
  /\ filepath.Rel "/proj/x" "/proj/a/b.go" = Ok "../a/b.go"
  /\ filepath.Rel "/a/b/c" "/a" = Ok "../.."
  /\ filepath.Rel "/" "/a" = Ok "a"
  /\ filepath.Rel "." "a/b" = Ok "a/b"
  /\ filepath.Rel "/proj" "a" = Err (RelError "/proj" "a")
  /\ filepath.Rel "../x" "y" = Err (RelError "../x" "y").
Proof. repeat split; reflexivity. Qed.
Example Path_ex : filepath.Dir "/proj/a/b.go" = "/proj/a" /\ filepath.Dir "b.go" = "."
  /\ filepath.Base "/proj/a/b.go" = "b.go" /\ filepath.Base "/proj/a/" = "a"
  /\ filepath.Base "///" = "/" /\ filepath.Ext "/x.d/b.tar.gz" = ".gz"
  /\ filepath.Ext "/x.d/b" = "" /\ filepath.Join ["/proj/a"; "../lib"] = "/proj/lib"
  /\ filepath.Join [""; ""] = "" /\ filepath.Join ["/proj"; ""] = "/proj"
  /\ filepath.Join ["/proj"; "//pkg"] = "/proj/pkg".
Proof. repeat split; reflexivity. Qed.
Example Split_ex : strings.Split ("a" +++ LF +++ "b") LF = ["a"; "b"]
  /\ strings.Split "x from y from" "from" = ["x "; " y "; ""]
  /\ strings.Split "" "/" = [""]
  /\ strings.TrimSpace ("   import x  " +++ CR) = "import x"
  /\ strings.Trim (SQUOTE +++ "./b" +++ SQUOTE +++ ";") (SQUOTE +++ DQUOTE +++ ";") = "./b"
  /\ strings.TrimSuffix "abc);" ");" = "abc"
  /\ strings.ReplaceAll "..a.b" "." "/" = "//a/b"
  /\ strings.ToLower latinLower "AbC.go" = "abc.go"
  /\ strings.Contains "auth/login.go" "auth" = true.
Proof. repeat split; reflexivity. Qed.

(** White space and letters beyond ASCII: a no-break space, U+00A0, and an
    ideographic space, U+3000, are trimmed, a zero-width space, U+200B, is
    not; a name with a capital letter of Latin-1 is found by a query in
    small letters. *)
Example TrimSpace_unicode :
  strings.TrimSpace (bytesString [194; 160]%nat +++ "import x" +++ bytesString [227; 128; 128]%nat)
  = "import x"
  /\ strings.TrimSpace (bytesString [226; 128; 139]%nat +++ "import x")
     = bytesString [226; 128; 139]%nat +++ "import x"
  /\ strings.TrimSpace (bytesString [160]%nat +++ "x") = bytesString [160]%nat +++ "x".
Proof. repeat split; reflexivity. Qed.

Example ToLower_unicode :
  strings.ToLower latinLower epoqueMd = bytesString [195; 169]%nat +++ "poque.md"
  /\ GetRelevantFiles accentEnv (NewContextManager accentEnv "/proj") 1
       (bytesString [195; 169]%nat +++ "poque") 5
     = Some (["/proj/" +++ epoqueMd], None).
Proof. split; vm_compute; reflexivity. Qed.

(** ** [GetFileContent] *)

Section Cache.
Variable env : Env.
Variable filePath : string.

Lemma GetFileContent_hit (st : Process) (content : string) :
  freshEntry env (manager st) filePath content ->
  GetFileContent env filePath st = (Ok content, st).
Proof.
  intros [Hc (info & Hs & Hm)].
  unfold GetFileContent, bind, getManager, ret. cbn.
  rewrite Hc, Hs, Hm, Z.eqb_refl. reflexivity.
Qed.

Lemma GetFileContent_miss (st : Process) :
  (forall content, ~ freshEntry env (manager st) filePath content) ->
  GetFileContent env filePath st = slowPath env filePath st.
Proof.
  intros Hno.
  unfold GetFileContent, slowPath, bind, getManager, ret, osReadFile, updManager. cbn.
  destruct (fileCache (manager st) !! filePath) as [c|] eqn:Hc.
  - destruct (Stat env filePath) as [info|e] eqn:Hs.
    + destruct (fileMtimes (manager st) !! filePath) as [m|] eqn:Hm.
      * destruct (Z.eqb_spec m (time.UnixNano (FileInfo.ModTime info))) as [->|Hne].
        -- exfalso. apply (Hno c). split; [exact Hc|]. exists info. auto.
        -- destruct (ReadFile env filePath); reflexivity.
      * destruct (ReadFile env filePath); reflexivity.
    + destruct (ReadFile env filePath); reflexivity.
  - destruct (ReadFile env filePath) as [content|e]; [|reflexivity].
    destruct (Stat env filePath); reflexivity.
Qed.

Lemma freshEntry_dec (cm : ContextManager) :
  (exists content, freshEntry env cm filePath content) \/
  (forall content, ~ freshEntry env cm filePath content).
Proof.
  unfold freshEntry.
  destruct (fileCache cm !! filePath) as [c|]; [|right; intros c [H _]; discriminate].
  destruct (Stat env filePath) as [info|e].
  2:{ right. intros c' [_ (i & H & _)]. discriminate. }
  destruct (fileMtimes cm !! filePath) as [m|].
  2:{ right. intros c' [_ (i & _ & H)]. discriminate. }
  destruct (Z.eq_dec m (time.UnixNano (FileInfo.ModTime info))) as [->|Hne].
  - left. exists c. split; [reflexivity|]. exists info. auto.
  - right. intros c' [_ (i & Hi & H)]. inversion Hi; subst. congruence.
Qed.

Lemma slowPath_log (st : Process) :
  readLog (snd (slowPath env filePath st)) = readLog st ++ [filePath].
Proof.
  unfold slowPath. destruct (ReadFile env filePath); [|reflexivity].
  destruct (Stat env filePath); reflexivity.
Qed.

Lemma slowPath_result (st : Process) : fst (slowPath env filePath st) = ReadFile env filePath.
Proof.
  unfold slowPath. destruct (ReadFile env filePath); [|reflexivity].
  destruct (Stat env filePath); reflexivity.
Qed.

End Cache.

Lemma GetFileContent_cases (env : Env) (filePath : string) (st : Process) :
  (exists content, freshEntry env (manager st) filePath content /\
                   GetFileContent env filePath st = (Ok content, st)) \/
  GetFileContent env filePath st = slowPath env filePath st.
Proof.
  destruct (freshEntry_dec env filePath (manager st)) as [(c & Hf)|H].
  - left. exists c. split; [exact Hf|]. now apply GetFileContent_hit.
  - right. now apply GetFileContent_miss.
Qed.

(** A call returns the content the file is fetched with. *)
Lemma GetFileContent_fetched (env : Env) (filePath : string) (st : Process)
    (content : string) :
  fetchedAs env (manager st) filePath content ->
  fst (GetFileContent env filePath st) = Ok content.
Proof.
  intros [Hf|[Hno Hr]].
  - now rewrite (GetFileContent_hit env filePath st content Hf).
  - now rewrite (GetFileContent_miss env filePath st Hno), slowPath_result.
Qed.

Lemma app_one_neq {A : Type} (l : list A) (x : A) : l ++ [x] <> l.
Proof.
  intros H. apply (f_equal (@List.length A)) in H.
  rewrite List.length_app in H. simpl in H. lia.
Qed.

Lemma UnixNano_in_range (t : Z) :
  - 2 ^ 63 <= t < 2 ^ 63 -> time.UnixNano t = t.
Proof. intros H. unfold time.UnixNano. rewrite Z.mod_small; lia. Qed.

Lemma UnixNano_wraps (t k : Z) : time.UnixNano (t + k * 2 ^ 64) = time.UnixNano t.
Proof.
  unfold time.UnixNano.
  replace (t + k * 2 ^ 64 + 2 ^ 63) with (t + 2 ^ 63 + k * 2 ^ 64) by lia.
  now rewrite Z_mod_plus_full.
Qed.

(** C1, as stated, fails: the file is rewritten with another content and a
    modification time 2^64 nanoseconds later; the [int64] that [UnixNano]
    makes of that time is the stamp of the first, and the second call
    returns the old content without a read. *)
Lemma GetFileContent_wrapped_stamp_counterexample :
  fst (GetFileContent notesBefore "/proj/notes.txt" notesStart) = Ok "old text" /\
  Stat notesBefore "/proj/notes.txt" = Ok (FileInfo.mk "notes.txt" false 100) /\
  Stat notesWrapped "/proj/notes.txt"
  = Ok (FileInfo.mk "notes.txt" false (100 + 2 ^ 64)) /\
  ReadFile notesWrapped "/proj/notes.txt" = Ok "new text" /\
  GetFileContent notesWrapped "/proj/notes.txt"
    (snd (GetFileContent notesBefore "/proj/notes.txt" notesStart))
  = (Ok "old text", snd (GetFileContent notesBefore "/proj/notes.txt" notesStart)).
Proof. repeat split; vm_compute; reflexivity. Qed.

(** C1, amended. [GetFileContent] returns the cached content without reading
    the file exactly when the cache has an entry for the path whose stored
    stamp equals the stamp of the time the file has on disk, the [int64] that
    [UnixNano] makes of it; in every other case (no entry, another stamp, a
    failing [Stat]) it reads the file.  So when the content of a file
    changes between two calls, and its time to one of another stamp, the
    second call returns the new content.  Times that [int64] holds have
    different stamps when they differ; times a multiple of 2^64 nanoseconds
    apart have one stamp. *)
Theorem GetFileContent_cached_iff_fresh (env : Env) (filePath : string) (st : Process) :
  (servedFromCache env filePath st <->
   exists content, freshEntry env (manager st) filePath content) /\
  ((forall content, ~ freshEntry env (manager st) filePath content) ->
   readFromDisk env filePath st) /\
  (forall (env2 : Env) (content1 content2 : string) (info1 : FileInfo.t),
     fst (GetFileContent env filePath st) = Ok content1 ->
     Stat env filePath = Ok info1 ->
     ReadFile env2 filePath = Ok content2 ->
     (forall info2, Stat env2 filePath = Ok info2 ->
                    time.UnixNano (FileInfo.ModTime info2)
                    <> time.UnixNano (FileInfo.ModTime info1)) ->
     fst (GetFileContent env2 filePath (snd (GetFileContent env filePath st)))
     = Ok content2) /\
  (forall t1 t2,
     - 2 ^ 63 <= t1 < 2 ^ 63 -> - 2 ^ 63 <= t2 < 2 ^ 63 -> t1 <> t2 ->
     time.UnixNano t1 <> time.UnixNano t2) /\
  (forall t k, time.UnixNano (t + k * 2 ^ 64) = time.UnixNano t).
Proof.
  split; [|split; [|split; [|split]]].
  - split.
    + intros (c & Hc & Hr & Hlog).
      destruct (freshEntry_dec env filePath (manager st)) as [H|H]; [exact H|].
      rewrite (GetFileContent_miss _ _ _ H), slowPath_log in Hlog.
      exfalso. exact (app_one_neq _ _ Hlog).
    + intros (c & Hf). exists c.
      rewrite (GetFileContent_hit _ _ _ _ Hf). destruct Hf as [Hc _]. auto.
  - intros H. unfold readFromDisk.
    rewrite (GetFileContent_miss _ _ _ H), slowPath_log, slowPath_result. auto.
  - intros env2 c1 c2 info1 Hfirst Hstat Hread Hmod.
    assert (Hm : fileMtimes (manager (snd (GetFileContent env filePath st))) !! filePath
                 = Some (time.UnixNano (FileInfo.ModTime info1))).
    { destruct (freshEntry_dec env filePath (manager st)) as [(c & Hf)|H].
      - rewrite (GetFileContent_hit _ _ _ _ Hf). cbn.
        destruct Hf as [_ (i & Hi & Hm)]. congruence.
      - rewrite (GetFileContent_miss _ _ _ H) in *.
        unfold slowPath in *. rewrite Hstat in *.
        destruct (ReadFile env filePath); [|discriminate].
        cbn. apply lookup_insert_eq. }
    rewrite GetFileContent_miss, slowPath_result; [exact Hread|].
    intros c [_ (i & Hi & Hm')]. rewrite Hm in Hm'.
    apply (Hmod i Hi). congruence.
  - intros t1 t2 H1 H2 Hne. now rewrite !UnixNano_in_range.
  - apply UnixNano_wraps.
Qed.

Lemma GetFileContent_cached_iff_fresh_witness :
  readFromDisk notesBefore "/proj/notes.txt" notesStart /\
  fst (GetFileContent notesBefore "/proj/notes.txt" notesStart) = Ok "old text" /\
  servedFromCache notesBefore "/proj/notes.txt"
    (snd (GetFileContent notesBefore "/proj/notes.txt" notesStart)) /\
  fst (GetFileContent notesAfter "/proj/notes.txt"
         (snd (GetFileContent notesBefore "/proj/notes.txt" notesStart)))
  = Ok "new text" /\
  time.UnixNano 100 <> time.UnixNano 200.
Proof.
  destruct (GetFileContent_cached_iff_fresh notesBefore "/proj/notes.txt" notesStart)
    as (_ & Hread & Hnext & Hrange & _).
  destruct (GetFileContent_cached_iff_fresh notesBefore "/proj/notes.txt"
              (snd (GetFileContent notesBefore "/proj/notes.txt" notesStart)))
    as ([_ Hserved] & _).
  split; [|split; [vm_compute; reflexivity|split; [|split]]].
  - apply Hread. intros content [H _]. vm_compute in H. discriminate.
  - apply Hserved. exists "old text". split; [vm_compute; reflexivity|].
    exists (FileInfo.mk "notes.txt" false 100). split; vm_compute; reflexivity.
  - apply (Hnext notesAfter "old text" "new text" (FileInfo.mk "notes.txt" false 100)).
    + vm_compute; reflexivity.
    + vm_compute; reflexivity.
    + vm_compute; reflexivity.
    + intros info2 H. vm_compute in H. inversion H. vm_compute. discriminate.
  - apply Hrange; lia.
Defined.

(** C9. When the read of the file fails, a call of [GetFileContent] that
    reads the file returns the error of the read, and the call leaves the
    two maps of the cache as they were: nothing is cached.  The call reads
    the file unless the cache answers, that is, when the cache has no entry
    for the path with the time stamp of the file. *)
Theorem GetFileContent_read_error (env : Env) (filePath : string) (st : Process)
    (err : error) :
  ReadFile env filePath = Err err ->
  manager (snd (GetFileContent env filePath st)) = manager st /\
  (readLog (snd (GetFileContent env filePath st)) <> readLog st ->
   fst (GetFileContent env filePath st) = Err err) /\
  ((forall content, ~ freshEntry env (manager st) filePath content) ->
   GetFileContent env filePath st
   = (Err err, {| manager := manager st; readLog := readLog st ++ [filePath] |})).
Proof.
  intros Hread. split; [|split].
  - destruct (GetFileContent_cases env filePath st) as [(c & _ & ->)| ->];
      [reflexivity|].
    unfold slowPath. now rewrite Hread.
  - destruct (GetFileContent_cases env filePath st) as [(c & _ & ->)| ->].
    + intros H. now destruct H.
    + intros _. now rewrite slowPath_result.
  - intros H. rewrite (GetFileContent_miss _ _ _ H). unfold slowPath.
    now rewrite Hread.
Qed.

Lemma GetFileContent_read_error_witness :
  ReadFile emptyEnv "/proj/gone.txt" = Err (PathError "open" "/proj/gone.txt") /\
  GetFileContent emptyEnv "/proj/gone.txt" (start (NewContextManager emptyEnv "/proj"))
  = (Err (PathError "open" "/proj/gone.txt"),
     {| manager := NewContextManager emptyEnv "/proj";
        readLog := ["/proj/gone.txt"] |}).
Proof.
  split; [reflexivity|].
  apply (proj2 (proj2 (GetFileContent_read_error emptyEnv "/proj/gone.txt"
                         (start (NewContextManager emptyEnv "/proj"))
                         (PathError "open" "/proj/gone.txt") eq_refl))).
  intros content [H _]. vm_compute in H. discriminate.
Defined.

(** A file that was cached and can no longer be read, its time stamp
    unchanged: the cache answers, no read takes place and none fails. *)
Example GetFileContent_locked_file :
  GetFileContent notesLocked "/proj/notes.txt"
    (snd (GetFileContent notesBefore "/proj/notes.txt" notesStart))
  = (Ok "old text", snd (GetFileContent notesBefore "/proj/notes.txt" notesStart)).
Proof. vm_compute. reflexivity. Qed.

(** ** [ShouldIgnore] *)

(** C8. When [Stat] fails on a path, [ShouldIgnore] answers [false] for it,
    whatever the directory names and the file patterns of the manager. *)
Theorem ShouldIgnore_stat_error (env : Env) (cm : ContextManager) (path : string)
    (err : error) :
  Stat env path = Err err -> ShouldIgnore env cm path = false.
Proof.
  intros H. unfold ShouldIgnore. rewrite H. reflexivity.
Qed.

Lemma ShouldIgnore_stat_error_witness :
  Stat emptyEnv "/proj/node_modules" = Err (PathError "stat" "/proj/node_modules") /\
  ShouldIgnore emptyEnv (NewContextManager emptyEnv "/proj") "/proj/node_modules" = false.
Proof.
  split; [reflexivity|].
  apply (ShouldIgnore_stat_error emptyEnv _ _ (PathError "stat" "/proj/node_modules")).
  reflexivity.
Defined.

(** ** Strings *)

Lemma append_cons (c : ascii) (s t : string) : String c s +++ t = String c (s +++ t).
Proof. reflexivity. Qed.

Lemma append_nil_r (s : string) : s +++ EmptyString = s.
Proof. induction s as [|c s IH]; [reflexivity|]. now rewrite append_cons, IH. Qed.

Lemma append_assoc (s t u : string) : (s +++ t) +++ u = s +++ t +++ u.
Proof. induction s as [|c s IH]; [reflexivity|]. now rewrite !append_cons, IH. Qed.

Lemma len_append (s t : string) : len (s +++ t) = len s + len t.
Proof.
  unfold len. induction s as [|c s IH]; [reflexivity|].
  rewrite append_cons. cbn [String.length]. lia.
Qed.

Lemma len_nonneg (s : string) : 0 <= len s.
Proof. unfold len. lia. Qed.

Lemma renderAll_app (l k : list section) : renderAll (l ++ k) = renderAll l +++ renderAll k.
Proof.
  induction l as [|sec l IH]; [reflexivity|].
  cbn [app renderAll fold_right]. fold (renderAll (l ++ k)) (renderAll l).
  now rewrite IH, append_assoc.
Qed.

Lemma renderAll_snoc (l : list section) (sec : section) :
  renderAll (l ++ [sec]) = renderAll l +++ render sec.
Proof.
  rewrite renderAll_app.
  change (renderAll [sec]) with (render sec +++ EmptyString).
  now rewrite append_nil_r.
Qed.

Lemma sizeOf_app (kind : section -> bool) (l k : list section) :
  sizeOf kind (l ++ k) = sizeOf kind l + sizeOf kind k.
Proof.
  induction l as [|sec l IH]; [reflexivity|].
  cbn [app sizeOf fold_right]. fold (sizeOf kind (l ++ k)) (sizeOf kind l).
  destruct (kind sec); lia.
Qed.

Lemma sizeOf_nonneg (kind : section -> bool) (l : list section) : 0 <= sizeOf kind l.
Proof.
  induction l as [|sec l IH]; [cbn; lia|].
  cbn [sizeOf fold_right]. fold (sizeOf kind l).
  destruct (kind sec); pose proof (len_nonneg (render sec)); lia.
Qed.

Lemma len_renderAll (l : list section) :
  len (renderAll l) = sizeOf isPrimary l + sizeOf isRelated l + sizeOf isNotice l.
Proof.
  induction l as [|sec l IH]; [reflexivity|].
  cbn [renderAll sizeOf fold_right]. fold (renderAll l).
  fold (sizeOf isPrimary l) (sizeOf isRelated l) (sizeOf isNotice l).
  rewrite len_append, IH. destruct sec; cbn [isPrimary isRelated isNotice]; lia.
Qed.

(** ** The loop of [GetFileContext] *)


(** [GetFileContent] changes the two maps of the cache and nothing else. *)
Lemma GetFileContent_frame (env : Env) (filePath : string) (st : Process) :
  rootPath (manager (snd (GetFileContent env filePath st))) = rootPath (manager st) /\
  maxContextLen (manager (snd (GetFileContent env filePath st)))
  = maxContextLen (manager st).
Proof.
  destruct (GetFileContent_cases env filePath st) as [(c & _ & ->)| ->]; [auto|].
  unfold slowPath. destruct (ReadFile env filePath); [|auto].
  destruct (Stat env filePath); auto.
Qed.

(** A file that can be read is a file whose content the cache can give. *)
Lemma GetFileContent_readable (env : Env) (filePath : string) (st : Process)
    (content : string) :
  ReadFile env filePath = Ok content ->
  exists c, fst (GetFileContent env filePath st) = Ok c.
Proof.
  intros Hread.
  destruct (GetFileContent_cases env filePath st) as [(c & _ & ->)| ->]; [eauto|].
  rewrite slowPath_result. eauto.
Qed.

Lemma relOf_root (cm1 cm2 : ContextManager) (path : string) :
  rootPath cm1 = rootPath cm2 -> relOf cm1 path = relOf cm2 path.
Proof. unfold relOf. now intros ->. Qed.

Lemma forRange_invariant {A L : Type} (body : A -> L -> M L)
    (I : list A -> L -> Process -> Prop) :
  (forall done x vars st,
     I done vars st -> I (done ++ [x]) (fst (body x vars st)) (snd (body x vars st))) ->
  forall l done vars st,
    I done vars st ->
    I (done ++ l) (fst (forRange l body vars st)) (snd (forRange l body vars st)).
Proof.
  intros Hstep l. induction l as [|x l IH]; intros done vars st HI.
  - rewrite app_nil_r. exact HI.
  - cbn [forRange]. unfold bind.
    specialize (Hstep done x vars st HI).
    destruct (body x vars st) as [vars1 st1]. cbn [fst snd] in Hstep.
    specialize (IH (done ++ [x]) vars1 st1 Hstep).
    now rewrite <- app_assoc in IH.
Qed.

Lemma relatedStep_unfold (env : Env) (relatedFile : string) (a : Assembly) (st : Process) :
  relatedStep env relatedFile a st =
  (match fst (GetFileContent env relatedFile st) with
   | Err _ => a
   | Ok relatedContent =>
       let cm := manager (snd (GetFileContent env relatedFile st)) in
       let relPath := relOf cm relatedFile in
       if totalLength a + len (render (Related relPath relatedContent)) >? maxContextLen cm
       then write (Notice relPath) false a
       else write (Related relPath relatedContent) true a
   end, snd (GetFileContent env relatedFile st)).
Proof.
  unfold relatedStep, bind.
  destruct (GetFileContent env relatedFile st) as [[c|e] st1]; cbn [fst snd]; [|reflexivity].
  unfold getManager, ret.
  destruct (_ >? _); reflexivity.
Qed.

Lemma assembled_skip (env : Env) (cm : ContextManager) (primary : section)
    (done : list string) (f : string) (a : Assembly) :
  (forall c, ReadFile env f <> Ok c) ->
  assembled env cm primary done a -> assembled env cm primary (done ++ [f]) a.
Proof.
  intros Hno [H1 H2 H3 H4 (items & Hw & Hall & Hsub & Hin)].
  split; try assumption.
  exists items. repeat split; try assumption.
  - rewrite map_app. now apply sublist_inserts_r.
  - intros f' Hf' Hr. apply in_app_iff in Hf' as [Hf'|[<-|[]]]; [now apply Hin|].
    destruct Hr as [c Hc]. now destruct (Hno c).
Qed.

Lemma assembled_write (env : Env) (cm : ContextManager) (primary sec : section)
    (done : list string) (f : string) (a : Assembly) (counted : bool) :
  isPrimary sec = false ->
  sectionPath sec = relOf cm f ->
  counted = isRelated sec ->
  (counted = true -> totalLength a + len (render sec) <= maxContextLen cm) ->
  assembled env cm primary done a ->
  assembled env cm primary (done ++ [f]) (write sec counted a).
Proof.
  intros Hp Hpath Hc Hfit [H1 H2 H3 H4 (items & Hw & Hall & Hsub & Hin)].
  assert (Hn : isNotice sec = negb counted) by (subst counted; now destruct sec).
  split; cbn [write context totalLength written].
  - now rewrite renderAll_snoc, H1.
  - rewrite sizeOf_app. cbn [sizeOf fold_right]. rewrite <- Hc.
    destruct counted; lia.
  - rewrite sizeOf_app. cbn [sizeOf fold_right]. rewrite <- Hc.
    destruct counted; [right; now apply Hfit|].
    destruct H3 as [H3|H3]; [left; lia|now right].
  - rewrite len_append, sizeOf_app, H4. cbn [sizeOf fold_right]. rewrite Hn.
    destruct counted; cbn [negb]; lia.
  - exists (items ++ [sec]). repeat split.
    + now rewrite Hw.
    + apply Forall_app. split; [exact Hall|]. now constructor.
    + rewrite !map_app. apply sublist_app; [exact Hsub|]. cbn. rewrite Hpath.
      reflexivity.
    + intros f' Hf' Hr. rewrite map_app. apply in_app_iff.
      apply in_app_iff in Hf' as [Hf'|[<-|[]]]; [left; now apply Hin|].
      right. cbn. now left.
Qed.

Lemma relatedStep_invariant (env : Env) (cm : ContextManager) (primary : section)
    (done : list string) (f : string) (a : Assembly) (st : Process) :
  loopInv env cm primary done a st ->
  loopInv env cm primary (done ++ [f])
    (fst (relatedStep env f a st)) (snd (relatedStep env f a st)).
Proof.
  intros (Ha & Hroot & Hmax).
  rewrite relatedStep_unfold. cbn [fst snd].
  destruct (GetFileContent_frame env f st) as [Hr1 Hm1].
  split; [|split; congruence].
  destruct (fst (GetFileContent env f st)) as [c|e] eqn:Hres.
  - cbn zeta. rewrite Hm1, Hmax.
    rewrite (relOf_root _ cm) by congruence.
    destruct (Z.gtb_spec (totalLength a + len (render (Related (relOf cm f) c)))
                (maxContextLen cm)) as [Hgt|Hle].
    + apply assembled_write; auto. discriminate.
    + apply assembled_write; auto.
  - apply assembled_skip; [|exact Ha].
    intros c Hc. destruct (GetFileContent_readable env f st c Hc) as [c' Hc'].
    congruence.
Qed.

Lemma assembled_start (env : Env) (cm : ContextManager) (primary : section) :
  isPrimary primary = true ->
  assembled env cm primary []
    {| context := render primary;
       totalLength := len (render primary);
       written := [primary] |}.
Proof.
  intros Hp.
  assert (Hr : sizeOf isRelated [primary] = 0) by (destruct primary; [reflexivity|discriminate..]).
  assert (Hn : sizeOf isNotice [primary] = 0) by (destruct primary; [reflexivity|discriminate..]).
  split; cbn [context totalLength written].
  - change (renderAll [primary]) with (render primary +++ EmptyString).
    now rewrite append_nil_r.
  - lia.
  - now left.
  - lia.
  - exists []. repeat split; [constructor|constructor|intros f []].
Qed.

(** [assemble] fails as the fetch of the primary file fails, and otherwise
    returns what the loop built from the primary section. *)
Lemma assemble_spec (env : Env) (filePath : string) (st : Process) :
  match fst (GetFileContent env filePath st) with
  | Err err => fst (assemble env filePath st) = Err err
  | Ok content =>
      exists a,
        fst (assemble env filePath st) = Ok a /\
        assembled env (manager st) (Primary (relOf (manager st) filePath) content)
          (findRelatedFiles env filePath content) a
  end.
Proof.
  unfold assemble, bind.
  destruct (GetFileContent_frame env filePath st) as [Hroot Hmax].
  destruct (GetFileContent env filePath st) as [[content|e] st1]; cbn [fst snd] in *;
    [|reflexivity].
  unfold getManager. cbn [fst snd].
  rewrite (relOf_root (manager st1) (manager st)) by exact Hroot.
  set (primary := Primary (relOf (manager st) filePath) content).
  pose proof (forRange_invariant (relatedStep env) (loopInv env (manager st) primary)
                (relatedStep_invariant env (manager st) primary)
                (findRelatedFiles env filePath content) []
                {| context := render primary;
                   totalLength := len (render primary);
                   written := [primary] |} st1) as H.
  destruct (forRange _ _ _ st1) as [a st2]. cbn [fst snd app] in H.
  exists a. split; [reflexivity|].
  apply H. split; [now apply assembled_start|auto].
Qed.

Lemma GetFileContext_assemble (env : Env) (filePath : string) (st : Process) :
  fst (GetFileContext env filePath st) =
  match fst (assemble env filePath st) with
  | Ok a => Ok (context a)
  | Err err => Err err
  end.
Proof.
  unfold GetFileContext, bind.
  destruct (assemble env filePath st) as [[a|e] st1]; reflexivity.
Qed.

Lemma assemble_ok (env : Env) (filePath : string) (st : Process) (a : Assembly) :
  fst (assemble env filePath st) = Ok a ->
  exists content,
    fst (GetFileContent env filePath st) = Ok content /\
    assembled env (manager st) (Primary (relOf (manager st) filePath) content)
      (findRelatedFiles env filePath content) a.
Proof.
  intros Ha. pose proof (assemble_spec env filePath st) as H.
  destruct (fst (GetFileContent env filePath st)) as [content|e]; [|congruence].
  destruct H as (a' & Ha' & H). exists content. split; [reflexivity|].
  congruence.
Qed.

Lemma sizeOf_none (kind : section -> bool) (l : list section) :
  Forall (fun sec => kind sec = false) l -> sizeOf kind l = 0.
Proof.
  induction 1 as [|sec l Hsec _ IH]; [reflexivity|].
  cbn [sizeOf fold_right]. fold (sizeOf kind l). now rewrite Hsec.
Qed.

Lemma assembled_primary_size (env : Env) (cm : ContextManager) (relPath content : string)
    (done : list string) (a : Assembly) :
  assembled env cm (Primary relPath content) done a ->
  sizeOf isPrimary (written a) = len (render (Primary relPath content)).
Proof.
  intros [_ _ _ _ (items & -> & Hall & _)].
  cbn [sizeOf fold_right isPrimary]. fold (sizeOf isPrimary items).
  rewrite (sizeOf_none _ _ Hall). lia.
Qed.

Lemma GetFileContent_withBudget (env : Env) (filePath : string) (maxLen : Z) (st : Process) :
  GetFileContent env filePath (withBudget maxLen st)
  = (fst (GetFileContent env filePath st),
     withBudget maxLen (snd (GetFileContent env filePath st))).
Proof.
  unfold GetFileContent, bind, getManager, ret, osReadFile, updManager, withBudget.
  cbn [manager readLog SetMaxContextLength fileCache fileMtimes fst snd].
  destruct (fileCache (manager st) !! filePath) as [c|];
    [destruct (Stat env filePath) as [info|];
     [destruct (fileMtimes (manager st) !! filePath) as [m|];
      [destruct (m =? time.UnixNano (FileInfo.ModTime info))|]|]|];
    try reflexivity;
    (destruct (ReadFile env filePath) as [content|]; [|reflexivity];
     destruct (Stat env filePath); reflexivity).
Qed.

(** ** [GetFileContext] *)

(** C3, as stated, fails: the cache holds the content of the file with the
    time it had; the file is rewritten with another content and the same
    modification time; the text of [GetFileContext] then holds the old
    content and not the content of the file. *)
Lemma primary_stale_counterexample :
  fst (GetFileContent notesBefore "/proj/notes.txt" notesStart) = Ok "old text" /\
  ReadFile notesSameTime "/proj/notes.txt" = Ok "new text" /\
  fst (GetFileContext notesSameTime "/proj/notes.txt"
         (snd (GetFileContent notesBefore "/proj/notes.txt" notesStart)))
  = Ok ("File: notes.txt" +++ LF +++ LF +++ "```" +++ LF +++ "old text" +++ LF
        +++ "```" +++ LF +++ LF) /\
  strings.Contains
    ("File: notes.txt" +++ LF +++ LF +++ "```" +++ LF +++ "old text" +++ LF
     +++ "```" +++ LF +++ LF) "new text" = false.
Proof. repeat split; vm_compute; reflexivity. Qed.

(** C3, amended. Whatever the budget, the text of [GetFileContext] starts
    with the block of the primary file, and the block holds, whole and byte
    for byte, the content the file is fetched with: the content of the entry
    that the cache has for it with the stamp of its time, and the content of
    the file on disk when the cache has no such entry.  The budget is held
    against related files only. *)
Theorem GetFileContext_primary_in_full (env : Env) (filePath : string) (st : Process)
    (maxLen : Z) (content : string) :
  fetchedAs env (manager st) filePath content ->
  exists rest,
    fst (GetFileContext env filePath (withBudget maxLen st))
    = Ok ("File: " +++ relOf (manager st) filePath +++ LF +++ LF +++ "```" +++ LF
          +++ content +++ LF +++ "```" +++ LF +++ LF +++ rest).
Proof.
  intros Hc. apply GetFileContent_fetched in Hc.
  pose proof (assemble_spec env filePath (withBudget maxLen st)) as H.
  rewrite GetFileContent_withBudget in H. cbn [fst] in H. rewrite Hc in H.
  destruct H as (a & Ha & [H1 _ _ _ (items & Hw & _)]).
  exists (renderAll items).
  rewrite GetFileContext_assemble, Ha, H1, Hw.
  cbn [renderAll fold_right render]. fold (renderAll items).
  unfold fence. now rewrite !append_assoc.
Qed.

Lemma GetFileContext_primary_in_full_witness :
  ReadFile serverEnv "/proj/server.go" = Ok serverGo /\
  (exists rest,
     fst (GetFileContext serverEnv "/proj/server.go" (withBudget 0 (serverStart 16384)))
     = Ok ("File: " +++ "server.go" +++ LF +++ LF +++ "```" +++ LF
           +++ serverGo +++ LF +++ "```" +++ LF +++ LF +++ rest)) /\
  ReadFile notesSameTime "/proj/notes.txt" = Ok "new text" /\
  freshEntry notesSameTime
    (manager (snd (GetFileContent notesBefore "/proj/notes.txt" notesStart)))
    "/proj/notes.txt" "old text" /\
  (exists rest,
     fst (GetFileContext notesSameTime "/proj/notes.txt"
            (withBudget 0 (snd (GetFileContent notesBefore "/proj/notes.txt" notesStart))))
     = Ok ("File: " +++ "notes.txt" +++ LF +++ LF +++ "```" +++ LF
           +++ "old text" +++ LF +++ "```" +++ LF +++ LF +++ rest)).
Proof.
  assert (Hfresh : freshEntry notesSameTime
            (manager (snd (GetFileContent notesBefore "/proj/notes.txt" notesStart)))
            "/proj/notes.txt" "old text").
  { split; [vm_compute; reflexivity|].
    exists (FileInfo.mk "notes.txt" false 100). split; vm_compute; reflexivity. }
  split; [reflexivity|]. split; [|split; [reflexivity|split; [exact Hfresh|]]].
  - apply (GetFileContext_primary_in_full serverEnv "/proj/server.go"
             (serverStart 16384) 0 serverGo).
    right. split; [|reflexivity]. intros cached [H _]. vm_compute in H. discriminate.
  - apply (GetFileContext_primary_in_full notesSameTime "/proj/notes.txt"
             (snd (GetFileContent notesBefore "/proj/notes.txt" notesStart)) 0 "old text").
    left. exact Hfresh.
Defined.

(** C2, as stated, fails: with a budget of 0 the primary section of 112
    bytes is written all the same, no related section is, and 0 is more than
    the budget less the primary section plus the largest notice, 80 bytes. *)
Lemma related_sections_budget_counterexample :
  exists a,
    fst (assemble serverEnv "/proj/server.go" (serverStart 0)) = Ok a /\
    sizeOf isPrimary (written a) = 112 /\
    sizeOf isRelated (written a) = 0 /\
    largestNotice (manager (serverStart 0))
      (findRelatedFiles serverEnv "/proj/server.go" serverGo) = 80 /\
    sizeOf isRelated (written a)
    > maxContextLen (manager (serverStart 0)) - sizeOf isPrimary (written a) + 80.
Proof.
  eexists. split; [vm_compute; reflexivity|].
  repeat split; vm_compute; reflexivity.
Qed.

(** C2, amended. The related sections of an assembled context take no more
    than the budget less the size of the primary section, and nothing when
    the primary section alone is over the budget. *)
Theorem related_sections_within_budget (env : Env) (filePath : string) (st : Process)
    (a : Assembly) :
  fst (assemble env filePath st) = Ok a ->
  sizeOf isRelated (written a)
  <= Z.max 0 (maxContextLen (manager st) - sizeOf isPrimary (written a)) /\
  fst (GetFileContext env filePath st) = Ok (renderAll (written a)).
Proof.
  intros Ha. destruct (assemble_ok env filePath st a Ha) as (content & _ & Has).
  rewrite (assembled_primary_size _ _ _ _ _ _ Has).
  destruct Has as [H1 H2 H3 _ _]. split.
  - destruct H3 as [H3|H3]; lia.
  - now rewrite GetFileContext_assemble, Ha, H1.
Qed.

Lemma related_sections_within_budget_witness :
  exists a,
    fst (assemble serverEnv "/proj/server.go" (serverStart 250)) = Ok a /\
    sizeOf isRelated (written a) <= Z.max 0 (250 - sizeOf isPrimary (written a)).
Proof.
  eexists. split; [vm_compute; reflexivity|].
  refine (proj1 (related_sections_within_budget serverEnv "/proj/server.go"
                   (serverStart 250) _ _)).
  vm_compute; reflexivity.
Defined.

(** C6, as stated, fails: with a budget of 250 the note beside [server.go]
    does not fit and the configuration file after it does, so the notice
    for the first stands before the section of the second. *)
Lemma section_order_counterexample :
  exists a,
    fst (assemble serverEnv "/proj/server.go" (serverStart 250)) = Ok a /\
    findRelatedFiles serverEnv "/proj/server.go" serverGo
    = ["/proj/server.md"; "/proj/server.yaml"] /\
    written a = [Primary "server.go" serverGo; Notice "server.md";
                 Related "server.yaml" serverYaml] /\
    fst (GetFileContext serverEnv "/proj/server.go" (serverStart 250))
    = Ok (render (Primary "server.go" serverGo) +++ render (Notice "server.md")
          +++ render (Related "server.yaml" serverYaml)).
Proof.
  eexists. split; [vm_compute; reflexivity|].
  repeat split; vm_compute; reflexivity.
Qed.

Lemma GetFileContent_result_origin (env : Env) (f : string) (st : Process) (c : string) :
  fst (GetFileContent env f st) = Ok c ->
  fetchedAs env (manager st) f c.
Proof.
  destruct (freshEntry_dec env f (manager st)) as [(c' & Hf)|Hno].
  - rewrite (GetFileContent_hit env f st c' Hf). cbn. intros [= <-]. now left.
  - rewrite (GetFileContent_miss env f st Hno), slowPath_result. now right.
Qed.

Lemma GetFileContent_error_origin (env : Env) (f : string) (st : Process) (e : error) :
  fst (GetFileContent env f st) = Err e ->
  forall c, ~ fetchedAs env (manager st) f c.
Proof.
  intros He c [Hf|[_ Hr]].
  - rewrite (GetFileContent_hit env f st c Hf) in He. discriminate.
  - destruct (GetFileContent_readable env f st c Hr) as [c' Hc']. congruence.
Qed.

(** An entry that is fresh after a call was fresh before it, or is the
    entry of the file of the call, which had none and was read. *)
Lemma freshEntry_origin (env : Env) (filePath f c : string) (st : Process) :
  freshEntry env (manager (snd (GetFileContent env filePath st))) f c ->
  freshEntry env (manager st) f c \/
  (f = filePath /\ fetchedAs env (manager st) f c /\
   forall cached, ~ freshEntry env (manager st) f cached).
Proof.
  destruct (freshEntry_dec env filePath (manager st)) as [(c' & Hf)|Hno].
  { rewrite (GetFileContent_hit env filePath st c' Hf). now left. }
  rewrite (GetFileContent_miss env filePath st Hno).
  unfold slowPath. destruct (ReadFile env filePath) as [content|] eqn:Hr; [|now left].
  destruct (Stat env filePath) as [info|]; [|now left].
  cbn [snd manager]. intros [Hc (i & Hi & Hm)]. cbn [store fileCache fileMtimes] in *.
  destruct (String.eqb_spec filePath f) as [->|Hne].
  - rewrite lookup_insert_eq in Hc. right. split; [reflexivity|].
    split; [right; split; [exact Hno|congruence]|exact Hno].
  - rewrite lookup_insert_ne in Hc by exact Hne.
    rewrite lookup_insert_ne in Hm by exact Hne.
    left. split; eauto.
Qed.

(** An entry that is fresh stays so through a call. *)
Lemma freshEntry_kept (env : Env) (filePath f c : string) (st : Process) :
  freshEntry env (manager st) f c ->
  freshEntry env (manager (snd (GetFileContent env filePath st))) f c.
Proof.
  intros Hf. destruct (String.eqb_spec filePath f) as [->|Hne].
  - now rewrite (GetFileContent_hit env f st c Hf).
  - destruct (GetFileContent_cases env filePath st) as [(c' & _ & ->)| ->];
      [exact Hf|].
    unfold slowPath. destruct (ReadFile env filePath) as [content|]; [|exact Hf].
    destruct (Stat env filePath) as [info|]; [|exact Hf].
    destruct Hf as [Hc (i & Hi & Hm)]. split; cbn.
    + now rewrite lookup_insert_ne.
    + exists i. split; [exact Hi|]. now rewrite lookup_insert_ne.
Qed.

(** The content a file is fetched with is one, and so is what the related
    files give. *)
Lemma fetchedAs_functional (env : Env) (cm : ContextManager) (f c1 c2 : string) :
  fetchedAs env cm f c1 -> fetchedAs env cm f c2 -> c1 = c2.
Proof.
  intros [H1|[Hno1 H1]] [H2|[Hno2 H2]].
  - destruct H1 as [H1 _], H2 as [H2 _]. congruence.
  - now destruct (Hno2 c1).
  - now destruct (Hno1 c2).
  - congruence.
Qed.

Lemma relatedItem_functional (env : Env) (cm : ContextManager) (total : Z) (f : string)
    (item1 item2 : string) (total1 total2 : Z) :
  relatedItem env cm total f item1 total1 ->
  relatedItem env cm total f item2 total2 ->
  item1 = item2 /\ total1 = total2.
Proof.
  intros H1 H2.
  destruct H1 as [Hno1|c1 Hf1 Hb1|c1 Hf1 Hb1], H2 as [Hno2|c2 Hf2 Hb2|c2 Hf2 Hb2];
    try (split; reflexivity);
    try (now destruct (Hno1 c2)); try (now destruct (Hno2 c1));
    pose proof (fetchedAs_functional env cm f c1 c2 Hf1 Hf2) as <-;
    try (split; reflexivity); lia.
Qed.

Lemma relatedItems_functional (env : Env) (cm : ContextManager) (total : Z)
    (files : list string) (text1 text2 : string) (total1 total2 : Z) :
  relatedItems env cm total files text1 total1 ->
  relatedItems env cm total files text2 total2 ->
  text1 = text2 /\ total1 = total2.
Proof.
  intros H1. revert text2 total2.
  induction H1 as [|files text f item t1 t2 Hfiles IH Hitem]; intros text2 total2 H2.
  - inversion H2 as [|files' text' f' item' t1' t2' Hfiles' Hitem' Heq]; [now split|].
    now destruct files'.
  - inversion H2 as [Heq|files' text' f' item' t1' t2' Hfiles' Hitem' Heq].
    + now destruct files.
    + apply app_inj_tail in Heq as [-> ->].
      destruct (IH _ _ Hfiles') as [-> ->].
      destruct (relatedItem_functional _ _ _ _ _ _ _ _ Hitem Hitem') as [-> ->].
      now split.
Qed.

Lemma relatedStep_itemized (env : Env) (cm : ContextManager) (primaryText : string)
    (done : list string) (f : string) (a : Assembly) (st : Process) :
  itemizedInv env cm primaryText done a st ->
  itemizedInv env cm primaryText (done ++ [f])
    (fst (relatedStep env f a st)) (snd (relatedStep env f a st)).
Proof.
  intros ((text & Hitems & Hw) & Hkeep & Horigin & Hroot & Hmax).
  destruct (GetFileContent_frame env f st) as [Hr1 Hm1].
  rewrite relatedStep_unfold. cbn [fst snd].
  assert (Hstate :
    (forall g c, freshEntry env cm g c ->
                 freshEntry env (manager (snd (GetFileContent env f st))) g c) /\
    (forall g c, freshEntry env (manager (snd (GetFileContent env f st))) g c ->
                 fetchedAs env cm g c) /\
    rootPath (manager (snd (GetFileContent env f st))) = rootPath cm /\
    maxContextLen (manager (snd (GetFileContent env f st))) = maxContextLen cm).
  { split; [|split; [|split; congruence]].
    - intros g c Hg. apply freshEntry_kept. now apply Hkeep.
    - intros g c Hg.
      destruct (freshEntry_origin env f g c st Hg) as [H|(-> & [H|[_ H]] & Hno)].
      + now apply Horigin.
      + now apply Horigin.
      + right. split; [|exact H]. intros cached Hcached. apply (Hno cached).
        now apply Hkeep. }
  split; [|exact Hstate].
  destruct (fst (GetFileContent env f st)) as [c|e] eqn:Hres.
  - assert (Hfetched : fetchedAs env cm f c).
    { destruct (GetFileContent_result_origin env f st c Hres) as [H|[Hno H]];
        [now apply Horigin|].
      right. split; [|exact H]. intros cached Hcached. apply (Hno cached).
      now apply Hkeep. }
    cbn zeta. rewrite Hm1, Hmax. rewrite (relOf_root _ cm) by congruence.
    destruct (Z.gtb_spec (totalLength a + len (render (Related (relOf cm f) c)))
                (maxContextLen cm)) as [Hgt|Hle].
    + eexists. cbn [write context totalLength]. split.
      * eapply items_more; [exact Hitems|].
        apply (item_notice env cm (totalLength a) f c Hfetched).
        cbn [render] in Hgt. unfold fence in Hgt. apply Z.lt_gt. exact Hgt.
      * rewrite Hw, append_assoc. reflexivity.
    + eexists. cbn [write context totalLength]. split.
      * eapply items_more; [exact Hitems|].
        apply (item_section env cm (totalLength a) f c Hfetched).
        cbn [render] in Hle. unfold fence in Hle. exact Hle.
      * rewrite Hw, append_assoc. reflexivity.
  - exists (text +++ EmptyString). split.
    + eapply items_more; [exact Hitems|]. apply item_none.
      intros c [Hc|[Hno Hc]].
      * apply (GetFileContent_error_origin env f st e Hres c). left. now apply Hkeep.
      * destruct (GetFileContent_readable env f st c Hc) as [c' Hc']. congruence.
    + now rewrite append_nil_r.
Qed.

(** C6, amended. The text of [GetFileContext] is the block of the primary
    file and then what the related files give, each at its place in the
    order of [findRelatedFiles]: nothing for a file whose content cannot be
    fetched, which was not in the cache with the stamp of its time and
    cannot be read; for a file that is fetched one item, its block when the
    running total and the block are within the budget, and its notice when
    they are not, the running total being the size of the primary block and
    of the related blocks written so far.  A notice can so stand before the
    block of a later file. *)
Theorem sections_in_resolver_order (env : Env) (filePath : string) (st : Process)
    (content : string) :
  fetchedAs env (manager st) filePath content ->
  exists text total,
    relatedItems env (manager st)
      (len ("File: " +++ relOf (manager st) filePath +++ LF +++ LF +++ "```" +++ LF
            +++ content +++ LF +++ "```" +++ LF +++ LF))
      (findRelatedFiles env filePath content) text total /\
    fst (GetFileContext env filePath st)
    = Ok (("File: " +++ relOf (manager st) filePath +++ LF +++ LF +++ "```" +++ LF
           +++ content +++ LF +++ "```" +++ LF +++ LF) +++ text).
Proof.
  intros Hc. apply GetFileContent_fetched in Hc.
  set (primaryText := "File: " +++ relOf (manager st) filePath +++ LF +++ LF +++ "```"
                      +++ LF +++ content +++ LF +++ "```" +++ LF +++ LF).
  assert (Hrun : fst (assemble env filePath st)
     = Ok (fst (forRange (findRelatedFiles env filePath content) (relatedStep env)
               {| context := primaryText;
                  totalLength := len primaryText;
                  written := [Primary (relOf (manager st) filePath) content] |}
               (snd (GetFileContent env filePath st))))).
  { unfold assemble, bind.
    destruct (GetFileContent_frame env filePath st) as [Hroot _].
    destruct (GetFileContent env filePath st) as [r st1]. cbn [fst snd] in *. subst r.
    unfold getManager. cbn zeta. rewrite (relOf_root _ _ filePath Hroot).
    now destruct (forRange _ _ _ st1). }
  destruct (GetFileContent_frame env filePath st) as [Hroot Hmax].
  destruct (forRange_invariant (relatedStep env)
              (itemizedInv env (manager st) primaryText)
              (relatedStep_itemized env (manager st) primaryText)
              (findRelatedFiles env filePath content) []
              {| context := primaryText;
                 totalLength := len primaryText;
                 written := [Primary (relOf (manager st) filePath) content] |}
              (snd (GetFileContent env filePath st))) as ((text & Hitems & Hw) & _).
  - split; [exists EmptyString; split; [constructor|now rewrite append_nil_r]|].
    split; [intros f c Hf; now apply freshEntry_kept|].
    split; [|split; assumption].
    intros f c Hf.
    destruct (freshEntry_origin env filePath f c st Hf) as [H|(_ & H & _)];
      [now left|exact H].
  - cbn [app] in Hitems, Hw. exists text. eexists. split; [exact Hitems|].
    now rewrite GetFileContext_assemble, Hrun, Hw.
Qed.

Lemma sections_in_resolver_order_witness :
  ReadFile serverEnv "/proj/server.go" = Ok serverGo /\
  findRelatedFiles serverEnv "/proj/server.go" serverGo
  = ["/proj/server.md"; "/proj/server.yaml"] /\
  exists text total,
    relatedItems serverEnv (manager (serverStart 250))
      (len ("File: " +++ relOf (manager (serverStart 250)) "/proj/server.go"
            +++ LF +++ LF +++ "```" +++ LF +++ serverGo +++ LF +++ "```" +++ LF +++ LF))
      (findRelatedFiles serverEnv "/proj/server.go" serverGo) text total /\
    fst (GetFileContext serverEnv "/proj/server.go" (serverStart 250))
    = Ok (("File: " +++ relOf (manager (serverStart 250)) "/proj/server.go"
           +++ LF +++ LF +++ "```" +++ LF +++ serverGo +++ LF +++ "```" +++ LF +++ LF)
          +++ text).
Proof.
  split; [reflexivity|]. split; [vm_compute; reflexivity|].
  apply (sections_in_resolver_order serverEnv "/proj/server.go" (serverStart 250) serverGo).
  right. split; [|reflexivity]. intros cached [H _]. vm_compute in H. discriminate.
Defined.

(** C10. A notice is written without being added to the running total and
    without a test of its own: the running total is the size of the primary
    and of the related sections, and the text is longer than the running
    total by the size of all the notices.  So the text can be over the
    budget by that much while every related section written kept the running
    total within the budget: with a budget of 160 the sections of
    [server.go] fill it and the text has 78 bytes more, one notice. *)
Theorem notices_outside_running_total :
  (forall (env : Env) (filePath : string) (st : Process) (a : Assembly),
     fst (assemble env filePath st) = Ok a ->
     fst (GetFileContext env filePath st) = Ok (context a) /\
     totalLength a = sizeOf isPrimary (written a) + sizeOf isRelated (written a) /\
     len (context a) = totalLength a + sizeOf isNotice (written a) /\
     (sizeOf isRelated (written a) = 0 \/ totalLength a <= maxContextLen (manager st))) /\
  (exists a,
     fst (assemble serverEnv "/proj/server.go" (serverStart 160)) = Ok a /\
     map isNotice (written a) = [false; true; false] /\
     totalLength a = 160 /\
     sizeOf isNotice (written a) = 78 /\
     len (context a) = 160 + 78).
Proof.
  split.
  - intros env filePath st a Ha.
    destruct (assemble_ok env filePath st a Ha) as (content & _ & Has).
    pose proof (assembled_primary_size _ _ _ _ _ _ Has) as Hp.
    destruct Has as [H1 H2 H3 H4 _].
    split; [now rewrite GetFileContext_assemble, Ha|].
    repeat split; [lia|exact H4|exact H3].
  - eexists. split; [vm_compute; reflexivity|].
    repeat split; vm_compute; reflexivity.
Qed.

Lemma notices_outside_running_total_witness :
  exists a,
    fst (assemble serverEnv "/proj/server.go" (serverStart 100)) = Ok a /\
    len (context a) = totalLength a + sizeOf isNotice (written a).
Proof.
  eexists. split; [vm_compute; reflexivity|].
  refine (proj1 (proj2 (proj2 (proj1 notices_outside_running_total serverEnv
                   "/proj/server.go" (serverStart 100) _ _)))).
  vm_compute; reflexivity.
Defined.

(** ** [filepath.Walk] *)

Section WalkLemmas.
Context {L : Type}.
Variable env : Env.
Variable walkFn : WalkFunc L.
Variable descend : string -> FileInfo.t -> L -> option (L * option error).

Lemma walkEntries_cons (path name : string) (rest : list string) (vars : L) :
  walkEntries env walkFn descend path (name :: rest) vars =
  let filename := filepath.Join [path; name] in
  match Lstat env filename with
  | Err err =>
      match walkFn filename None (Some err) vars with
      | (vars1, Some err1) =>
          if negb (isErr SkipDir err1) then Some (vars1, Some err1)
          else walkEntries env walkFn descend path rest vars1
      | (vars1, None) => walkEntries env walkFn descend path rest vars1
      end
  | Ok fileInfo =>
      match descend filename fileInfo vars with
      | None => None
      | Some (vars1, Some err1) =>
          if negb (FileInfo.IsDir fileInfo) || negb (isErr SkipDir err1)
          then Some (vars1, Some err1)
          else walkEntries env walkFn descend path rest vars1
      | Some (vars1, None) => walkEntries env walkFn descend path rest vars1
      end
  end.
Proof. reflexivity. Qed.

(** The loop over the names of a directory, cut in two. *)
Lemma walkEntries_app (path : string) (before after : list string) (vars : L) :
  walkEntries env walkFn descend path (before ++ after) vars =
  match walkEntries env walkFn descend path before vars with
  | Some (vars1, None) => walkEntries env walkFn descend path after vars1
  | stopped => stopped
  end.
Proof.
  revert vars. induction before as [|name before IH]; intros vars; [reflexivity|].
  rewrite <- app_comm_cons, !walkEntries_cons. cbn zeta.
  destruct (Lstat env (filepath.Join [path; name])) as [info|err].
  - destruct (descend _ info vars) as [[vars1 [err1|]]|]; [|apply IH|reflexivity].
    destruct (negb (FileInfo.IsDir info) || negb (isErr SkipDir err1)); [reflexivity|apply IH].
  - destruct (walkFn _ None (Some err) vars) as [vars1 [err1|]]; [|apply IH].
    destruct (negb (isErr SkipDir err1)); [reflexivity|apply IH].
Qed.

Lemma isErr_true (target err : error) : isErr target err = true -> err = target.
Proof.
  unfold isErr. destruct err, target; cbn; try discriminate; try reflexivity.
  - intros H. apply andb_true_iff in H as [H1 H2].
    apply String.eqb_eq in H1, H2. now subst.
  - intros H. apply andb_true_iff in H as [H1 H2].
    apply String.eqb_eq in H1, H2. now subst.
Qed.

Hypothesis walkFn_steers :
  forall path info err vars, steers (snd (walkFn path info err vars)).
Hypothesis descend_steers :
  forall path info vars vars1 r, descend path info vars = Some (vars1, r) -> steers r.

Lemma walkEntries_steers (path : string) (names : list string) (vars vars1 : L)
    (r : option error) :
  walkEntries env walkFn descend path names vars = Some (vars1, r) -> steers r.
Proof.
  revert vars. induction names as [|name rest IH]; intros vars.
  - cbn. intros [= _ <-]. now left.
  - rewrite walkEntries_cons. cbn zeta.
    destruct (Lstat env (filepath.Join [path; name])) as [info|err].
    + destruct (descend _ info vars) as [[v [err1|]]|] eqn:Hd; [|apply IH|discriminate].
      destruct (negb (FileInfo.IsDir info) || negb (isErr SkipDir err1)); [|apply IH].
      intros [= _ <-]. exact (descend_steers _ _ _ _ _ Hd).
    + pose proof (walkFn_steers (filepath.Join [path; name]) None (Some err) vars) as Hs.
      destruct (walkFn _ None (Some err) vars) as [v [err1|]]; [|apply IH].
      destruct (negb (isErr SkipDir err1)); [|apply IH].
      intros [= _ <-]. exact Hs.
Qed.

End WalkLemmas.

Lemma walk_steers {L : Type} (env : Env) (walkFn : WalkFunc L) :
  (forall path info err vars, steers (snd (walkFn path info err vars))) ->
  forall depth path info vars vars1 r,
    walk env walkFn depth path info vars = Some (vars1, r) -> steers r.
Proof.
  intros Hfn depth. induction depth as [|depth IH]; intros path info vars vars1 r.
  - cbn. destruct (negb (FileInfo.IsDir info)); [|discriminate].
    intros [= H]. pose proof (Hfn path (Some info) None vars) as Hs.
    rewrite H in Hs. exact Hs.
  - cbn [walk]. destruct (negb (FileInfo.IsDir info)).
    + intros [= H]. pose proof (Hfn path (Some info) None vars) as Hs.
      rewrite H in Hs. exact Hs.
    + destruct (readDirNames env path) as [names|err].
      * pose proof (Hfn path (Some info) None vars) as Hs.
        destruct (walkFn path (Some info) None vars) as [v [err1|]].
        -- intros [= _ <-]. exact Hs.
        -- apply (walkEntries_steers env walkFn _ Hfn IH).
      * intros [= H]. pose proof (Hfn path (Some info) (Some err) vars) as Hs.
        rewrite H in Hs. exact Hs.
Qed.

Lemma relevantFn_steers (env : Env) (cm : ContextManager) (query : string) (maxFiles : Z)
    (path : string) (info : option FileInfo.t) (err : option error) (vars : list string) :
  steers (snd (relevantFn env cm query maxFiles path info err vars)).
Proof.
  unfold relevantFn, steers.
  destruct err as [e|]; [now left|].
  destruct info as [info|]; [|now left].
  destruct (FileInfo.IsDir info).
  - destruct (ShouldIgnore env cm path); cbn; auto.
  - destruct (ShouldIgnore env cm path); [now left|].
    destruct (_ >=? _); cbn; auto.
Qed.

(** [GetRelevantFiles] returns no error, whatever the file system does. *)
Lemma GetRelevantFiles_no_error (env : Env) (cm : ContextManager) (depth : nat)
    (query : string) (maxFiles : Z) (files : list string) (err : option error) :
  GetRelevantFiles env cm depth query maxFiles = Some (files, err) -> err = None.
Proof.
  unfold GetRelevantFiles, Walk.
  set (fn := relevantFn env cm query maxFiles).
  destruct (Lstat env (rootPath cm)) as [info|e].
  - destruct (walk env fn depth (rootPath cm) info []) as [[v [err1|]]|] eqn:Hw;
      [|now intros [= _ <-]|discriminate].
    destruct (walk_steers env fn (relevantFn_steers env cm query maxFiles) _ _ _ _ _ _ Hw)
      as [H|[= ->]]; [discriminate|].
    cbn. now intros [= _ <-].
  - pose proof (relevantFn_steers env cm query maxFiles (rootPath cm) None (Some e) [])
      as Hs.
    fold fn in Hs. destruct (fn (rootPath cm) None (Some e) []) as [v [err1|]];
      [|now intros [= _ <-]].
    destruct Hs as [H|[= ->]]; [discriminate|].
    cbn. now intros [= _ <-].
Qed.

(** ** [GetRelevantFiles] and [GetProjectStructure] *)

(** C4, at an input where the code departs from it.  With a limit of 1 on a
    project of two directories, [SkipDir] returned on the first match leaves
    the directory of that file only; the walk goes on in the next directory
    and a second path is returned. *)
Theorem GetRelevantFiles_over_limit :
  GetRelevantFiles repoEnv (NewContextManager repoEnv "/proj") 3 ".go" 1
  = Some (["/proj/api/client.go"; "/proj/ui/terminal.go"], None).
Proof. vm_compute. reflexivity. Qed.

Lemma Rel_self (path : string) : filepath.Rel path path = Ok ".".
Proof. unfold filepath.Rel. now rewrite String.eqb_refl. Qed.

Lemma structureFn_root (env : Env) (cm : ContextManager) (info : FileInfo.t)
    (result : string) :
  structureFn env cm (rootPath cm) (Some info) None result = (result, None).
Proof.
  unfold structureFn. rewrite String.eqb_refl. cbn [negb andb].
  now rewrite Rel_self.
Qed.

(** C7, as stated, fails for [GetProjectStructure]: the root lists a file
    that [Lstat] no longer finds, the relative path of the root resolves, and
    the call returns the error of that entry; without the entry it returns
    the tree. *)
Lemma structure_entry_error_counterexample :
  filepath.Rel "/proj" "/proj" = Ok "." /\
  Lstat racyEnv "/proj/notes.tmp" = Err (PathError "lstat" "/proj/notes.tmp") /\
  GetProjectStructure racyEnv (NewContextManager racyEnv "/proj") 3
  = Some (Err (PathError "lstat" "/proj/notes.tmp")) /\
  GetProjectStructure repoEnv (NewContextManager repoEnv "/proj") 3
  = Some (Ok ("Project Structure:" +++ LF +++ "api/" +++ LF +++ "  client.go" +++ LF
              +++ "ui/" +++ LF +++ "  terminal.go" +++ LF)).
Proof. repeat split; vm_compute; reflexivity. Qed.

Lemma walk_file {L : Type} (env : Env) (walkFn : WalkFunc L) (depth : nat)
    (path : string) (info : FileInfo.t) (vars : L) :
  FileInfo.IsDir info = false ->
  walk env walkFn depth path info vars = Some (walkFn path (Some info) None vars).
Proof. intros Hd. destruct depth; cbn; now rewrite Hd. Qed.

(** On a file that is not ignored the function of [GetProjectStructure]
    fails only when the relative path does not resolve; on an ignored file
    it does not fail. *)
Lemma structureFn_file (env : Env) (cm : ContextManager) (path relPath : string)
    (info : FileInfo.t) (result : string) :
  FileInfo.IsDir info = false ->
  filepath.Rel (rootPath cm) path = Ok relPath ->
  snd (structureFn env cm path (Some info) None result) = None.
Proof.
  intros Hd Hrel. unfold structureFn. rewrite Hd, Hrel.
  destruct (negb (String.eqb path (rootPath cm)) && ShouldIgnore env cm path);
    [reflexivity|].
  now destruct (String.eqb relPath ".").
Qed.

(** The loop of [GetProjectStructure] passes a run of files. *)
Lemma walkEntries_files (env : Env) (cm : ContextManager) (depth : nat) (path : string)
    (names : list string) :
  (forall name, In name names ->
     exists info relPath,
       Lstat env (filepath.Join [path; name]) = Ok info /\
       FileInfo.IsDir info = false /\
       filepath.Rel (rootPath cm) (filepath.Join [path; name]) = Ok relPath) ->
  forall vars, exists vars1,
    walkEntries env (structureFn env cm) (walk env (structureFn env cm) depth)
      path names vars = Some (vars1, None).
Proof.
  induction names as [|name rest IH]; intros Hfiles vars; [cbn; eauto|].
  rewrite walkEntries_cons. cbn zeta.
  destruct (Hfiles name (or_introl eq_refl)) as (info & relPath & Hl & Hd & Hrel).
  rewrite Hl, (walk_file env _ depth _ info vars Hd).
  pose proof (structureFn_file env cm _ relPath info vars Hd Hrel) as Hfn.
  destruct (structureFn env cm _ (Some info) None vars) as [vars1 r].
  cbn [snd] in Hfn. subst r. apply IH. intros n Hn. apply Hfiles. now right.
Qed.

(** The loop over a directory answers when the descent into each entry
    does. *)
Lemma walkEntries_total {L : Type} (env : Env) (walkFn : WalkFunc L)
    (descend : string -> FileInfo.t -> L -> option (L * option error))
    (path : string) (names : list string) :
  (forall name info vars,
     In name names -> Lstat env (filepath.Join [path; name]) = Ok info ->
     exists r, descend (filepath.Join [path; name]) info vars = Some r) ->
  forall vars, exists r, walkEntries env walkFn descend path names vars = Some r.
Proof.
  induction names as [|name rest IH]; intros Hd vars; [cbn; eauto|].
  rewrite walkEntries_cons. cbn zeta.
  assert (Hrest : forall vars1,
            exists r, walkEntries env walkFn descend path rest vars1 = Some r).
  { apply IH. intros n i v Hn. apply Hd. now right. }
  destruct (Lstat env (filepath.Join [path; name])) as [info|err] eqn:Hl.
  - destruct (Hd name info vars (or_introl eq_refl) Hl) as [[vars1 [err1|]] ->];
      [|apply Hrest].
    destruct (negb (FileInfo.IsDir info) || negb (isErr SkipDir err1)); [eauto|apply Hrest].
  - destruct (walkFn _ None (Some err) vars) as [vars1 [err1|]]; [|apply Hrest].
    destruct (negb (isErr SkipDir err1)); [eauto|apply Hrest].
Qed.

(** [walk] answers on a tree that is within its depth. *)
Lemma walk_total {L : Type} (env : Env) (walkFn : WalkFunc L) (depth : nat) :
  forall path info vars,
    withinDepth env depth path info = true ->
    exists r, walk env walkFn depth path info vars = Some r.
Proof.
  induction depth as [|depth IH]; intros path info vars Hin.
  - cbn in Hin. rewrite orb_false_r in Hin. cbn. rewrite Hin. eauto.
  - cbn [walk]. cbn [withinDepth] in Hin.
    destruct (negb (FileInfo.IsDir info)); [eauto|]. cbn [orb] in Hin.
    destruct (readDirNames env path) as [names|err]; [|eauto].
    destruct (walkFn path (Some info) None vars) as [vars1 [err1|]]; [eauto|].
    apply walkEntries_total. intros name i v Hname Hl.
    apply IH. rewrite forallb_forall in Hin. specialize (Hin name Hname).
    now rewrite Hl in Hin.
Qed.

(** C7, amended. Both calls answer on every tree within the depth given.
    In [GetRelevantFiles] an error on an entry is swallowed: the function
    handed an error returns none, an entry on which [Lstat] fails and a
    directory that cannot be listed are passed as if the directory above
    did not name them, and the call returns no error.  In
    [GetProjectStructure] an error on an entry is fatal: the function
    returns the error it is handed, with or without the description of the
    entry, and the error of a relative path that does not resolve; the
    error of an entry on which [Lstat] fails, of a directory that cannot be
    listed and of anything below ends the loop over the directory, what
    comes after the entry not being looked at; a directory hands on what
    its loop ends with; and the call returns the error the walk ends with,
    at the root or below it.  So in a root whose first entries are files,
    the first entry on which [Lstat] fails, or that is a directory that
    cannot be listed, makes the call return its error. *)
Theorem entry_errors_in_traversals (env : Env) (cm : ContextManager) :
  (forall depth query maxFiles,
     (forall info, Lstat env (rootPath cm) = Ok info ->
                   withinDepth env depth (rootPath cm) info = true) ->
     exists files, GetRelevantFiles env cm depth query maxFiles = Some (files, None)) /\
  (forall query maxFiles path info e relevantFiles,
     relevantFn env cm query maxFiles path info (Some e) relevantFiles
     = (relevantFiles, None)) /\
  (forall query maxFiles descend path before name after vars e,
     Lstat env (filepath.Join [path; name]) = Err e ->
     walkEntries env (relevantFn env cm query maxFiles) descend path
       (before ++ name :: after) vars
     = walkEntries env (relevantFn env cm query maxFiles) descend path
         (before ++ after) vars) /\
  (forall query maxFiles depth path before name after vars info e,
     Lstat env (filepath.Join [path; name]) = Ok info ->
     FileInfo.IsDir info = true ->
     ReadDir env (filepath.Join [path; name]) = Err e ->
     walkEntries env (relevantFn env cm query maxFiles)
       (walk env (relevantFn env cm query maxFiles) (S depth)) path
       (before ++ name :: after) vars
     = walkEntries env (relevantFn env cm query maxFiles)
         (walk env (relevantFn env cm query maxFiles) (S depth)) path
         (before ++ after) vars) /\
  (forall depth,
     (forall info, Lstat env (rootPath cm) = Ok info ->
                   withinDepth env depth (rootPath cm) info = true) ->
     exists r, GetProjectStructure env cm depth = Some r) /\
  (forall path info e result,
     structureFn env cm path info (Some e) result = (result, Some e)) /\
  (forall path info e result,
     negb (String.eqb path (rootPath cm)) && ShouldIgnore env cm path = false ->
     filepath.Rel (rootPath cm) path = Err e ->
     structureFn env cm path (Some info) None result = (result, Some e)) /\
  (forall descend path before name after vars vars1 e,
     walkEntries env (structureFn env cm) descend path before vars = Some (vars1, None) ->
     isErr SkipDir e = false ->
     Lstat env (filepath.Join [path; name]) = Err e ->
     walkEntries env (structureFn env cm) descend path (before ++ name :: after) vars
     = Some (vars1, Some e)) /\
  (forall descend path before name after vars vars1 vars2 info e,
     walkEntries env (structureFn env cm) descend path before vars = Some (vars1, None) ->
     isErr SkipDir e = false ->
     Lstat env (filepath.Join [path; name]) = Ok info ->
     descend (filepath.Join [path; name]) info vars1 = Some (vars2, Some e) ->
     walkEntries env (structureFn env cm) descend path (before ++ name :: after) vars
     = Some (vars2, Some e)) /\
  (forall depth path info vars e,
     FileInfo.IsDir info = true ->
     ReadDir env path = Err e ->
     walk env (structureFn env cm) (S depth) path info vars = Some (vars, Some e)) /\
  (forall depth path info entries vars vars1 failed,
     FileInfo.IsDir info = true ->
     ReadDir env path = Ok entries ->
     structureFn env cm path (Some info) None vars = (vars1, None) ->
     walkEntries env (structureFn env cm) (walk env (structureFn env cm) depth) path
       (map DirEntry.Name entries) vars1 = Some failed ->
     walk env (structureFn env cm) (S depth) path info vars = Some failed) /\
  (forall depth info entries result e,
     Lstat env (rootPath cm) = Ok info ->
     FileInfo.IsDir info = true ->
     ReadDir env (rootPath cm) = Ok entries ->
     isErr SkipDir e = false ->
     isErr SkipAll e = false ->
     walkEntries env (structureFn env cm) (walk env (structureFn env cm) depth)
       (rootPath cm) (map DirEntry.Name entries) ("Project Structure:" +++ LF)
     = Some (result, Some e) ->
     GetProjectStructure env cm (S depth) = Some (Err e)) /\
  (forall depth e,
     isErr SkipDir e = false ->
     isErr SkipAll e = false ->
     Lstat env (rootPath cm) = Err e \/
     (exists info, Lstat env (rootPath cm) = Ok info /\ FileInfo.IsDir info = true /\
                   ReadDir env (rootPath cm) = Err e) ->
     GetProjectStructure env cm (S depth) = Some (Err e)) /\
  (forall depth info entries before name after e,
     Lstat env (rootPath cm) = Ok info ->
     FileInfo.IsDir info = true ->
     ReadDir env (rootPath cm) = Ok entries ->
     map DirEntry.Name entries = before ++ name :: after ->
     (forall n, In n before ->
        exists i relPath,
          Lstat env (filepath.Join [rootPath cm; n]) = Ok i /\
          FileInfo.IsDir i = false /\
          filepath.Rel (rootPath cm) (filepath.Join [rootPath cm; n]) = Ok relPath) ->
     isErr SkipDir e = false ->
     isErr SkipAll e = false ->
     Lstat env (filepath.Join [rootPath cm; name]) = Err e \/
     (exists i, Lstat env (filepath.Join [rootPath cm; name]) = Ok i /\
                FileInfo.IsDir i = true /\
                ReadDir env (filepath.Join [rootPath cm; name]) = Err e) ->
     GetProjectStructure env cm (S (S depth)) = Some (Err e)).
Proof.
  repeat apply conj.
  - intros depth query maxFiles Hin.
    assert (Hsome : exists r, GetRelevantFiles env cm depth query maxFiles = Some r).
    { unfold GetRelevantFiles, Walk.
      destruct (Lstat env (rootPath cm)) as [info|e].
      - destruct (walk_total env (relevantFn env cm query maxFiles) depth
                    (rootPath cm) info [] (Hin info eq_refl)) as [[v [err1|]] ->]; [|eauto].
        destruct (isErr SkipDir err1 || isErr SkipAll err1); eauto.
      - destruct (relevantFn env cm query maxFiles (rootPath cm) None (Some e) [])
          as [v [err1|]]; [|eauto].
        destruct (isErr SkipDir err1 || isErr SkipAll err1); eauto. }
    destruct Hsome as [[files err] Hr]. exists files. rewrite Hr.
    now rewrite (GetRelevantFiles_no_error env cm depth query maxFiles files err Hr).
  - reflexivity.
  - intros query maxFiles descend path before name after vars e He.
    rewrite !walkEntries_app.
    destruct (walkEntries _ _ _ _ before vars) as [[v [err1|]]|]; try reflexivity.
    rewrite walkEntries_cons. cbn zeta. now rewrite He.
  - intros query maxFiles depth path before name after vars info e Hl Hd Hr.
    rewrite !walkEntries_app.
    destruct (walkEntries _ _ _ _ before vars) as [[v [err1|]]|]; try reflexivity.
    rewrite walkEntries_cons. cbn zeta. rewrite Hl.
    cbn [walk]. rewrite Hd. cbn [negb]. unfold readDirNames. now rewrite Hr.
  - intros depth Hin. unfold GetProjectStructure, Walk.
    destruct (Lstat env (rootPath cm)) as [info|e].
    + destruct (walk_total env (structureFn env cm) depth (rootPath cm) info
                  ("Project Structure:" +++ LF) (Hin info eq_refl)) as [[v [err1|]] ->];
        [|eauto].
      destruct (isErr SkipDir err1 || isErr SkipAll err1); eauto.
    + destruct (structureFn env cm (rootPath cm) None (Some e) _) as [v [err1|]]; [|eauto].
      destruct (isErr SkipDir err1 || isErr SkipAll err1); eauto.
  - intros path info e result. unfold structureFn. reflexivity.
  - intros path info e result Hig Hrel. unfold structureFn. now rewrite Hig, Hrel.
  - intros descend path before name after vars vars1 e Hb Hskip He.
    rewrite walkEntries_app, Hb, walkEntries_cons. cbn zeta.
    rewrite He. cbn. now rewrite Hskip.
  - intros descend path before name after vars vars1 vars2 info e Hb Hskip Hl Hd.
    rewrite walkEntries_app, Hb, walkEntries_cons. cbn zeta.
    rewrite Hl, Hd, Hskip. cbn. now rewrite orb_true_r.
  - intros depth path info vars e Hd Hr.
    cbn [walk]. rewrite Hd. cbn [negb]. unfold readDirNames. now rewrite Hr.
  - intros depth path info entries vars vars1 failed Hd Hr Hfn Hloop.
    cbn [walk]. rewrite Hd. cbn [negb]. unfold readDirNames. now rewrite Hr, Hfn.
  - intros depth info entries result e Hl Hd Hr Hdir Hall Hloop.
    unfold GetProjectStructure, Walk. rewrite Hl. cbn [walk]. rewrite Hd. cbn [negb].
    unfold readDirNames. now rewrite Hr, structureFn_root, Hloop, Hdir, Hall.
  - intros depth e Hdir Hall [Hl|(info & Hl & Hd & Hr)].
    + unfold GetProjectStructure, Walk. rewrite Hl. cbn. now rewrite Hdir, Hall.
    + unfold GetProjectStructure, Walk. rewrite Hl. cbn [walk]. rewrite Hd. cbn [negb].
      unfold readDirNames. rewrite Hr. cbn. now rewrite Hdir, Hall.
  - intros depth info entries before name after e Hl Hd Hr Hnames Hfiles Hdir Hall Hfail.
    destruct (walkEntries_files env cm (S depth) (rootPath cm) before Hfiles
                ("Project Structure:" +++ LF)) as [vars1 Hbefore].
    unfold GetProjectStructure, Walk. rewrite Hl.
    change (walk env (structureFn env cm) (S (S depth)) (rootPath cm) info
              ("Project Structure:" +++ LF))
      with (if negb (FileInfo.IsDir info)
            then Some (structureFn env cm (rootPath cm) (Some info) None
                         ("Project Structure:" +++ LF))
            else
              match readDirNames env (rootPath cm) with
              | Err err =>
                  Some (structureFn env cm (rootPath cm) (Some info) (Some err)
                          ("Project Structure:" +++ LF))
              | Ok names =>
                  match structureFn env cm (rootPath cm) (Some info) None
                          ("Project Structure:" +++ LF) with
                  | (vars2, Some err1) => Some (vars2, Some err1)
                  | (vars2, None) =>
                      walkEntries env (structureFn env cm)
                        (walk env (structureFn env cm) (S depth)) (rootPath cm) names vars2
                  end
              end).
    rewrite Hd. cbn [negb]. unfold readDirNames. rewrite Hr, structureFn_root, Hnames.
    rewrite walkEntries_app, Hbefore, walkEntries_cons. cbn zeta.
    destruct Hfail as [He|(i & Hi & Hdi & Hri)].
    + rewrite He. unfold structureFn at 1. cbv beta iota.
      rewrite Hdir. cbn [negb]. cbv iota. now rewrite Hdir, Hall.
    + rewrite Hi. cbn [walk]. rewrite Hdi. cbn [negb]. unfold readDirNames.
      rewrite Hri. unfold structureFn at 1. cbv beta iota.
      rewrite Hdir. cbn [negb orb]. cbv iota. now rewrite Hdir, Hall.
Qed.

Lemma entry_errors_in_traversals_witness :
  (exists files,
     GetRelevantFiles racyEnv (NewContextManager racyEnv "/proj") 3 ".go" 5
     = Some (files, None)) /\
  (exists r, GetProjectStructure racyEnv (NewContextManager racyEnv "/proj") 3 = Some r) /\
  walkEntries racyEnv (relevantFn racyEnv (NewContextManager racyEnv "/proj") ".go" 5)
    (walk racyEnv (relevantFn racyEnv (NewContextManager racyEnv "/proj") ".go" 5) 2)
    "/proj" (["api"] ++ "notes.tmp" :: ["ui"]) []
  = walkEntries racyEnv (relevantFn racyEnv (NewContextManager racyEnv "/proj") ".go" 5)
      (walk racyEnv (relevantFn racyEnv (NewContextManager racyEnv "/proj") ".go" 5) 2)
      "/proj" (["api"] ++ ["ui"]) [] /\
  walkEntries sealedEnv (relevantFn sealedEnv (NewContextManager sealedEnv "/proj") ".go" 5)
    (walk sealedEnv (relevantFn sealedEnv (NewContextManager sealedEnv "/proj") ".go" 5) 2)
    "/proj" ([] ++ "api" :: ["ui"]) []
  = walkEntries sealedEnv (relevantFn sealedEnv (NewContextManager sealedEnv "/proj") ".go" 5)
      (walk sealedEnv (relevantFn sealedEnv (NewContextManager sealedEnv "/proj") ".go" 5) 2)
      "/proj" ([] ++ ["ui"]) [] /\
  structureFn racyEnv (NewContextManager racyEnv "/proj") "elsewhere/notes.md"
    (Some (FileInfo.mk "notes.md" false 0)) None "Project Structure:"
  = ("Project Structure:", Some (RelError "/proj" "elsewhere/notes.md")) /\
  walk sealedEnv (structureFn sealedEnv (NewContextManager sealedEnv "/proj")) 2
    "/proj/api" (FileInfo.mk "api" true 0) ("Project Structure:" +++ LF)
  = Some ("Project Structure:" +++ LF, Some (PathError "open" "/proj/api")) /\
  GetProjectStructure racyEnv (NewContextManager racyEnv "/proj") 3
  = Some (Err (PathError "lstat" "/proj/notes.tmp")) /\
  GetProjectStructure sealedEnv (NewContextManager sealedEnv "/proj") 3
  = Some (Err (PathError "open" "/proj/api")) /\
  GetProjectStructure emptyEnv (NewContextManager emptyEnv "/proj") 3
  = Some (Err (PathError "lstat" "/proj")) /\
  GetProjectStructure goneEnv (NewContextManager goneEnv "/proj") 2
  = Some (Err (PathError "lstat" "/proj/notes.tmp")).
Proof.
  pose proof (entry_errors_in_traversals racyEnv (NewContextManager racyEnv "/proj"))
    as (Htotal & _ & Hgone & _ & Hanswer & _ & Hrel & _ & _ & _ & _ & Hcall & _).
  pose proof (entry_errors_in_traversals sealedEnv (NewContextManager sealedEnv "/proj"))
    as (_ & _ & _ & Hsealed & _ & _ & _ & _ & _ & Hlist & _ & Hcall' & _).
  pose proof (entry_errors_in_traversals emptyEnv (NewContextManager emptyEnv "/proj"))
    as (_ & _ & _ & _ & _ & _ & _ & _ & _ & _ & _ & _ & Hroot & _).
  pose proof (entry_errors_in_traversals goneEnv (NewContextManager goneEnv "/proj"))
    as (_ & _ & _ & _ & _ & _ & _ & _ & _ & _ & _ & _ & _ & Hentry).
  repeat apply conj.
  - apply Htotal. intros info [= <-]. vm_compute. reflexivity.
  - apply Hanswer. intros info [= <-]. vm_compute. reflexivity.
  - apply (Hgone ".go" 5 _ "/proj" ["api"] "notes.tmp" ["ui"] []
             (PathError "lstat" "/proj/notes.tmp")).
    reflexivity.
  - apply (Hsealed ".go" 5 1%nat "/proj" [] "api" ["ui"] []
             (FileInfo.mk "api" true 0) (PathError "open" "/proj/api"));
      vm_compute; reflexivity.
  - apply Hrel; vm_compute; reflexivity.
  - apply Hlist; vm_compute; reflexivity.
  - apply (Hcall 2%nat (FileInfo.mk "proj" true 0)
             [dirEntry "api"; fileEntry "notes.tmp"; dirEntry "ui"]
             ("Project Structure:" +++ LF +++ "api/" +++ LF +++ "  client.go" +++ LF));
      vm_compute; reflexivity.
  - apply (Hcall' 2%nat (FileInfo.mk "proj" true 0) [dirEntry "api"; dirEntry "ui"]
             ("Project Structure:" +++ LF));
      vm_compute; reflexivity.
  - apply (Hroot 2%nat). 1,2: reflexivity. left. vm_compute. reflexivity.
  - apply (Hentry 0%nat (FileInfo.mk "proj" true 0)
             [fileEntry "README.md"; fileEntry "notes.tmp"; fileEntry "main.go"]
             ["README.md"] "notes.tmp" ["main.go"]); try reflexivity.
    + intros n [<-|[]]. exists (FileInfo.mk "README.md" false 10), "README.md".
      repeat split; vm_compute; reflexivity.
    + left. reflexivity.
Defined.

Lemma scanLines_flat_map (perLine : string -> list string) (content : string) :
  scanLines perLine content
  = flat_map (fun line => perLine (strings.TrimSpace line)) (strings.Split content LF).
Proof.
  unfold scanLines.
  enough (H : forall lines acc,
             fold_left (fun relatedFiles line =>
                          relatedFiles ++ perLine (strings.TrimSpace line)) lines acc
             = acc ++ flat_map (fun line => perLine (strings.TrimSpace line)) lines)
    by apply (H _ []).
  induction lines as [|line lines IH]; intros acc; cbn [fold_left flat_map].
  - now rewrite app_nil_r.
  - now rewrite IH, app_assoc.
Qed.

Lemma sourceFilesIn_In (ext resolvedPath : string) (entries : list DirEntry.t)
    (entry : DirEntry.t) :
  In entry entries ->
  DirEntry.IsDir entry = false ->
  filepath.Ext (DirEntry.Name entry) = ext ->
  In (filepath.Join [resolvedPath; DirEntry.Name entry])
     (sourceFilesIn ext resolvedPath entries).
Proof.
  intros Hin Hd He. unfold sourceFilesIn. apply in_flat_map.
  exists entry. split; [exact Hin|].
  rewrite Hd, He, String.eqb_refl. now left.
Qed.

Lemma scanLines_In (perLine : string -> list string) (content line path : string) :
  In line (strings.Split content LF) ->
  In path (perLine (strings.TrimSpace line)) ->
  In path (scanLines perLine content).
Proof.
  intros Hl Hp. rewrite scanLines_flat_map. apply in_flat_map. eauto.
Qed.

(** C5, as stated, fails for the JS/TS strategy: [app.js] imports the
    directory [./lib], which holds two [.js] files, and no file is added. *)
Lemma directory_import_counterexample :
  filepath.Ext "/web/app.js" = ".js" /\
  In ("import { format } from " +++ SQUOTE +++ "./lib" +++ SQUOTE +++ ";")
     (strings.Split appJs LF) /\
  jsImportPath ("import { format } from " +++ SQUOTE +++ "./lib" +++ SQUOTE +++ ";")
  = Some "./lib" /\
  filepath.Join [filepath.Dir "/web/app.js"; "./lib"] = "/web/lib" /\
  Stat webEnv "/web/lib" = Ok (FileInfo.mk "lib" true 0) /\
  ReadDir webEnv "/web/lib" = Ok [fileEntry "format.js"; fileEntry "util.js"] /\
  findRelatedFiles webEnv "/web/app.js" appJs = [].
Proof. repeat split; vm_compute; auto. Qed.

(** *** Prefixes and pieces of a string *)

Lemma prefix_append (a b : string) : String.prefix a (a +++ b) = true.
Proof.
  induction a as [|c a IH]; [now destruct b|].
  rewrite append_cons. cbn. now destruct (ascii_dec c c).
Qed.

Lemma HasPrefix_append (a b : string) : strings.HasPrefix (a +++ b) a = true.
Proof. apply prefix_append. Qed.

Lemma TrimPrefix_append (a b : string) : strings.TrimPrefix (a +++ b) a = b.
Proof.
  unfold strings.TrimPrefix. rewrite HasPrefix_append.
  induction a as [|c a IH]; [reflexivity|]. rewrite append_cons. exact IH.
Qed.

(** Whether [sep] starts a string is told by as many bytes as [sep] has. *)
Lemma prefix_long (sep u v : string) :
  (String.length sep <= String.length u)%nat ->
  String.prefix sep (u +++ v) = String.prefix sep u.
Proof.
  revert u. induction sep as [|c sep IH]; intros u Hlen; [now destruct (u +++ v), u|].
  destruct u as [|d u]; [cbn in Hlen; lia|].
  rewrite append_cons. cbn. destruct (ascii_dec c d); [|reflexivity].
  apply IH. cbn in Hlen. lia.
Qed.

Lemma length_append (a b : string) :
  String.length (a +++ b) = (String.length a + String.length b)%nat.
Proof. induction a as [|c a IH]; [reflexivity|]. rewrite append_cons. cbn. now rewrite IH. Qed.

Lemma rev_cons (c : ascii) (s : string) :
  strings.rev (String c s) = strings.rev s +++ String c EmptyString.
Proof.
  unfold strings.rev. cbn [list_ascii_of_string List.rev].
  generalize (List.rev (list_ascii_of_string s)). intros l.
  induction l as [|d l IH]; [reflexivity|].
  cbn [app string_of_list_ascii]. now rewrite append_cons, IH.
Qed.

Lemma splitFrom_skip (sep x b cur : string) :
  strings.splitFrom sep (String.length x) cur (x +++ b) = strings.splitFrom sep 0 cur b.
Proof.
  induction x as [|c x IH]; [reflexivity|].
  rewrite append_cons. cbn [String.length strings.splitFrom]. exact IH.
Qed.

(** A separator that is [word] and one byte more starts with a byte. *)
Lemma sep_cons (word : string) (last : ascii) :
  exists c rest,
    word +++ String last EmptyString = String c rest /\
    String.length rest = String.length word.
Proof.
  destruct word as [|c w]; [exists last, EmptyString; now split|].
  exists c, (w +++ String last EmptyString). rewrite append_cons. split; [reflexivity|].
  rewrite length_append. cbn. lia.
Qed.

(** The first piece ends at the first place where the separator stands:
    the separator, [word] and one byte more, does not stand in what is
    before that place and the bytes of [word]. *)
Lemma splitFrom_first (word : string) (last : ascii) (a b : string) :
  strings.Contains (a +++ word) (word +++ String last EmptyString) = false ->
  forall cur,
    strings.splitFrom (word +++ String last EmptyString) 0 cur
      (a +++ (word +++ String last EmptyString) +++ b)
    = (strings.rev cur +++ a)
      :: strings.splitFrom (word +++ String last EmptyString) 0 EmptyString b.
Proof.
  set (sep := word +++ String last EmptyString).
  induction a as [|c a IH]; intros Hno cur.
  - rewrite append_nil_r. change (EmptyString +++ sep +++ b) with (sep +++ b).
    destruct (sep_cons word last) as (c & rest & Hsep & Hlen). fold sep in Hsep.
    pose proof (prefix_append sep b) as Hp.
    rewrite Hsep in *. rewrite append_cons in *.
    cbn [strings.splitFrom]. rewrite Hp. f_equal.
    cbn [String.length]. rewrite Nat.sub_succ, Nat.sub_0_r.
    apply splitFrom_skip.
  - rewrite append_cons in Hno. cbn [strings.Contains] in Hno.
    apply orb_false_iff in Hno as [Hhere Hlater].
    rewrite append_cons. cbn [strings.splitFrom].
    assert (Hp : String.prefix sep (String c (a +++ sep +++ b)) = false).
    { rewrite <- Hhere.
      replace (String c (a +++ sep +++ b))
        with (String c (a +++ word) +++ String last EmptyString +++ b).
      - apply prefix_long. unfold sep. cbn [String.length].
        rewrite !length_append. cbn. lia.
      - unfold sep. now rewrite append_cons, !append_assoc. }
    rewrite Hp, (IH Hlater), rev_cons, append_assoc. reflexivity.
Qed.

(** A string in which the separator does not stand is one piece. *)
Lemma splitFrom_none (sep b : string) :
  strings.Contains b sep = false ->
  forall cur, strings.splitFrom sep 0 cur b = [strings.rev cur +++ b].
Proof.
  induction b as [|c b IH]; intros Hno cur; [cbn; now rewrite append_nil_r|].
  cbn [strings.Contains] in Hno. apply orb_false_iff in Hno as [Hhere Hlater].
  cbn [strings.splitFrom]. rewrite Hhere, (IH Hlater), rev_cons, append_assoc.
  reflexivity.
Qed.

Lemma sourceFilesIn_filter (ext resolvedPath : string) (entries : list DirEntry.t) :
  sourceFilesIn ext resolvedPath entries
  = map (fun entry => filepath.Join [resolvedPath; DirEntry.Name entry])
      (List.filter (fun entry => negb (DirEntry.IsDir entry)
                                 && String.eqb (filepath.Ext (DirEntry.Name entry)) ext)
         entries).
Proof.
  unfold sourceFilesIn. induction entries as [|entry entries IH]; [reflexivity|].
  cbn [flat_map List.filter].
  destruct (negb (DirEntry.IsDir entry)
            && String.eqb (filepath.Ext (DirEntry.Name entry)) ext);
    cbn [map app]; now rewrite IH.
Qed.

(** What the scan of a Go file makes of a line [import "..."]. *)
Lemma goImportPath_quoted (rest : string) :
  goImportPath ("import " +++ DQUOTE +++ rest)
  = if isLocalImport (strings.Trim (DQUOTE +++ rest) DQUOTE)
    then Some (strings.Trim (DQUOTE +++ rest) DQUOTE) else None.
Proof.
  unfold goImportPath.
  rewrite (HasPrefix_append "import " (DQUOTE +++ rest)).
  rewrite (HasPrefix_append ("import " +++ DQUOTE) rest : strings.HasPrefix
             ("import " +++ DQUOTE +++ rest) ("import " +++ DQUOTE) = true).
  rewrite (TrimPrefix_append "import " (DQUOTE +++ rest)).
  reflexivity.
Qed.

(** What the scan of a Python file makes of a line [from ... import ...]. *)
Lemma pyModulePath_from (module rest : string) :
  strings.Contains ("from " +++ module +++ "impor") "import" = false ->
  pyModulePath ("from " +++ module +++ "import" +++ rest)
  = if strings.HasPrefix (strings.TrimSpace module) "."
    then Some (if String.eqb (strings.TrimSpace module) "." then EmptyString
               else strings.ReplaceAll (strings.TrimSpace module) "." "/")
    else None.
Proof.
  intros Hno. unfold pyModulePath.
  rewrite (HasPrefix_append "from " (module +++ "import" +++ rest)).
  rewrite orb_true_r.
  change (strings.Split ("from " +++ module +++ "import" +++ rest) "import")
    with (strings.splitFrom ("impor" +++ "t") 0 EmptyString
            ("from " +++ module +++ "import" +++ rest)).
  replace ("from " +++ module +++ "import" +++ rest)
    with (("from " +++ module) +++ ("impor" +++ "t") +++ rest)
    by (now rewrite append_assoc).
  rewrite (splitFrom_first "impor" "t"%char ("from " +++ module) rest)
    by (now rewrite append_assoc).
  change (strings.rev EmptyString +++ "from " +++ module) with ("from " +++ module).
  now rewrite (TrimPrefix_append "from " module).
Qed.

(** What the scan of a JS/TS file makes of a line [import ... from ...]
    and of a line [require(...]. *)
Lemma jsImportPath_from (names rest : string) :
  strings.Contains ("import " +++ names +++ "fro") "from" = false ->
  strings.Contains rest "from" = false ->
  jsImportPath ("import " +++ names +++ "from" +++ rest)
  = let importPath :=
      strings.Trim (strings.TrimSpace rest) (SQUOTE +++ DQUOTE +++ ";" +++ CR +++ LF) in
    if negb (String.eqb importPath "") && isLocalImport importPath
    then Some importPath else None.
Proof.
  intros Hno1 Hno2. unfold jsImportPath.
  rewrite (HasPrefix_append "import " (names +++ "from" +++ rest)).
  cbn [orb]. cbv iota.
  change (strings.Split ("import " +++ names +++ "from" +++ rest) "from")
    with (strings.splitFrom ("fro" +++ "m") 0 EmptyString
            ("import " +++ names +++ "from" +++ rest)).
  replace ("import " +++ names +++ "from" +++ rest)
    with (("import " +++ names) +++ ("fro" +++ "m") +++ rest)
    by (now rewrite append_assoc).
  rewrite (splitFrom_first "fro" "m"%char ("import " +++ names) rest)
    by (now rewrite append_assoc).
  rewrite (splitFrom_none "from" rest Hno2).
  reflexivity.
Qed.

Lemma jsImportPath_require (rest : string) :
  jsImportPath ("require(" +++ rest)
  = let importPath :=
      strings.Trim (strings.TrimSpace (strings.TrimSuffix rest ");"))
        (SQUOTE +++ DQUOTE) in
    if negb (String.eqb importPath "") && isLocalImport importPath
    then Some importPath else None.
Proof.
  unfold jsImportPath.
  rewrite (HasPrefix_append "require(" rest), orb_true_r.
  change (strings.HasPrefix ("require(" +++ rest) "import ") with false. cbv iota.
  now rewrite (TrimPrefix_append "require(" rest).
Qed.

Lemma findRelatedFiles_scan (env : Env) (filePath content : string)
    (perLine : string -> string -> list string)
    (before after : list string) (line : string) :
  findRelatedFiles env filePath content
  = scanLines (perLine (filepath.Dir filePath)) content
    ++ siblings env (filepath.Dir filePath) (filepath.Base filePath)
         (filepath.Ext filePath) ->
  strings.Split content LF = before ++ line :: after ->
  findRelatedFiles env filePath content
  = flat_map (fun l => perLine (filepath.Dir filePath) (strings.TrimSpace l)) before
    ++ perLine (filepath.Dir filePath) (strings.TrimSpace line)
    ++ flat_map (fun l => perLine (filepath.Dir filePath) (strings.TrimSpace l)) after
    ++ siblings env (filepath.Dir filePath) (filepath.Base filePath)
         (filepath.Ext filePath).
Proof.
  intros -> Hsplit. rewrite scanLines_flat_map, Hsplit, flat_map_app.
  cbn [flat_map]. now rewrite <- !app_assoc.
Qed.

(** C5, amended. In a Go file, a line that reads, white space at its ends
    apart, [import "..."], where what follows [import ] is, without the
    double quotes at its ends, a path that starts with [./] or [../] and,
    joined to the directory of the file, names a directory that can be
    listed, adds at its place among the imports the entries of that
    directory that are no directories and have the extension [.go], in the
    order of the listing, each joined to the directory, and nothing else.
    In a Python file, a line [from ... import ...], where the text between
    [from ] and the first [import], white space apart, starts with a dot,
    does the same with the extension [.py] for the directory that this text
    names, each dot replaced by a slash, when it can be listed.  In a JS or
    TS file a line [import ... from ...] or [require(...] whose path, trimmed
    as the code trims it, starts with [./] or [../] and names a directory
    adds nothing. *)
Theorem directory_imports (env : Env) (filePath content line : string)
    (before after : list string) :
  strings.Split content LF = before ++ line :: after ->
  (forall rest importPath info entries,
     filepath.Ext filePath = ".go" ->
     strings.TrimSpace line = "import " +++ DQUOTE +++ rest ->
     importPath = strings.Trim (DQUOTE +++ rest) DQUOTE ->
     strings.HasPrefix importPath "./" || strings.HasPrefix importPath "../" = true ->
     Stat env (filepath.Join [filepath.Dir filePath; importPath]) = Ok info ->
     FileInfo.IsDir info = true ->
     ReadDir env (filepath.Join [filepath.Dir filePath; importPath]) = Ok entries ->
     findRelatedFiles env filePath content
     = flat_map (fun l => goLine env (filepath.Dir filePath) (strings.TrimSpace l)) before
       ++ map (fun entry =>
                 filepath.Join [filepath.Join [filepath.Dir filePath; importPath];
                                DirEntry.Name entry])
            (List.filter (fun entry =>
                            negb (DirEntry.IsDir entry)
                            && String.eqb (filepath.Ext (DirEntry.Name entry)) ".go")
               entries)
       ++ flat_map (fun l => goLine env (filepath.Dir filePath) (strings.TrimSpace l)) after
       ++ siblings env (filepath.Dir filePath) (filepath.Base filePath) ".go") /\
  (forall between rest module resolvedDir entries,
     filepath.Ext filePath = ".py" ->
     strings.TrimSpace line = "from " +++ between +++ "import" +++ rest ->
     strings.Contains ("from " +++ between +++ "impor") "import" = false ->
     module = strings.TrimSpace between ->
     strings.HasPrefix module "." = true ->
     resolvedDir
     = filepath.Join [filepath.Dir filePath;
                      if String.eqb module "." then EmptyString
                      else strings.ReplaceAll module "." "/"] ->
     ReadDir env resolvedDir = Ok entries ->
     findRelatedFiles env filePath content
     = flat_map (fun l => pyLine env (filepath.Dir filePath) (strings.TrimSpace l)) before
       ++ map (fun entry => filepath.Join [resolvedDir; DirEntry.Name entry])
            (List.filter (fun entry =>
                            negb (DirEntry.IsDir entry)
                            && String.eqb (filepath.Ext (DirEntry.Name entry)) ".py")
               entries)
       ++ flat_map (fun l => pyLine env (filepath.Dir filePath) (strings.TrimSpace l)) after
       ++ siblings env (filepath.Dir filePath) (filepath.Base filePath) ".py") /\
  (forall importPath info,
     filepath.Ext filePath = ".js" \/ filepath.Ext filePath = ".ts" ->
     (exists names rest,
        strings.TrimSpace line = "import " +++ names +++ "from" +++ rest /\
        strings.Contains ("import " +++ names +++ "fro") "from" = false /\
        strings.Contains rest "from" = false /\
        importPath
        = strings.Trim (strings.TrimSpace rest) (SQUOTE +++ DQUOTE +++ ";" +++ CR +++ LF))
     \/
     (exists rest,
        strings.TrimSpace line = "require(" +++ rest /\
        importPath
        = strings.Trim (strings.TrimSpace (strings.TrimSuffix rest ");"))
            (SQUOTE +++ DQUOTE)) ->
     strings.HasPrefix importPath "./" || strings.HasPrefix importPath "../" = true ->
     Stat env (filepath.Join [filepath.Dir filePath; importPath]) = Ok info ->
     FileInfo.IsDir info = true ->
     findRelatedFiles env filePath content
     = flat_map (fun l => jsLine env (filepath.Dir filePath) (strings.TrimSpace l)) before
       ++ flat_map (fun l => jsLine env (filepath.Dir filePath) (strings.TrimSpace l)) after
       ++ siblings env (filepath.Dir filePath) (filepath.Base filePath)
            (filepath.Ext filePath)).
Proof.
  intros Hsplit. split; [|split].
  - intros rest importPath info entries Hext Hline -> Hlocal Hs Hd Hr.
    rewrite (findRelatedFiles_scan env filePath content (goLine env) before after line);
      [|unfold findRelatedFiles; now rewrite Hext|exact Hsplit].
    rewrite Hext. do 2 f_equal.
    unfold goLine. rewrite Hline, goImportPath_quoted.
    unfold isLocalImport. rewrite Hlocal, Hs, Hd, Hr. cbn [negb].
    apply sourceFilesIn_filter.
  - intros between rest module resolvedDir entries Hext Hline Hno -> Hdot -> Hr.
    rewrite (findRelatedFiles_scan env filePath content (pyLine env) before after line);
      [|unfold findRelatedFiles; now rewrite Hext|exact Hsplit].
    rewrite Hext. do 2 f_equal.
    unfold pyLine. rewrite Hline, (pyModulePath_from between rest Hno), Hdot, Hr.
    apply sourceFilesIn_filter.
  - intros importPath info Hext Hline Hlocal Hs Hd.
    rewrite (findRelatedFiles_scan env filePath content (jsLine env) before after line);
      [|unfold findRelatedFiles; destruct Hext as [-> | ->]; reflexivity|exact Hsplit].
    f_equal.
    assert (Hnonempty : String.eqb importPath "" = false).
    { destruct importPath; [discriminate Hlocal|reflexivity]. }
    enough (Hnone : jsLine env (filepath.Dir filePath) (strings.TrimSpace line) = [])
      by now rewrite Hnone.
    unfold jsLine.
    destruct Hline as [(names & rest & -> & Hno1 & Hno2 & Hp)|(rest & -> & Hp)].
    + rewrite (jsImportPath_from names rest Hno1 Hno2). cbv zeta. rewrite <- Hp.
      unfold isLocalImport. rewrite Hnonempty, Hlocal. cbn [negb andb].
      now rewrite Hs, Hd.
    + rewrite jsImportPath_require. cbv zeta. rewrite <- Hp.
      unfold isLocalImport. rewrite Hnonempty, Hlocal. cbn [negb andb].
      now rewrite Hs, Hd.
Qed.

Lemma directory_imports_witness :
  strings.Split mainGo LF
  = ["package main"] ++ ("import " +++ DQUOTE +++ "./lib" +++ DQUOTE) :: [EmptyString] /\
  ReadDir goEnv "/gosrc/lib"
  = Ok [fileEntry "format.go"; fileEntry "notes.md"; dirEntry "sub"] /\
  findRelatedFiles goEnv "/gosrc/main.go" mainGo = ["/gosrc/lib/format.go"] /\
  strings.Split mainPy LF = [] ++ "from .lib import format" :: [EmptyString] /\
  findRelatedFiles pyEnv "/pysrc/main.py" mainPy
  = ["/pysrc/lib/__init__.py"; "/pysrc/lib/format.py"] /\
  strings.Split appJs LF
  = [] ++ ("import { format } from " +++ SQUOTE +++ "./lib" +++ SQUOTE +++ ";")
       :: ["format();"; EmptyString] /\
  findRelatedFiles webEnv "/web/app.js" appJs = [].
Proof.
  split; [reflexivity|]. split; [reflexivity|]. split; [|split; [reflexivity|split]].
  - refine (eq_trans
      (proj1 (directory_imports goEnv "/gosrc/main.go" mainGo
                ("import " +++ DQUOTE +++ "./lib" +++ DQUOTE)
                ["package main"] [EmptyString] eq_refl)
         ("./lib" +++ DQUOTE) "./lib" (FileInfo.mk "lib" true 0)
         [fileEntry "format.go"; fileEntry "notes.md"; dirEntry "sub"]
         _ _ _ _ _ _ _) _);
      vm_compute; reflexivity.
  - refine (eq_trans
      (proj1 (proj2 (directory_imports pyEnv "/pysrc/main.py" mainPy
                       "from .lib import format" [] [EmptyString] eq_refl))
         ".lib " " format" ".lib" "/pysrc/lib"
         [fileEntry "__init__.py"; fileEntry "format.py"]
         _ _ _ _ _ _ _) _);
      vm_compute; reflexivity.
  - split; [reflexivity|].
    refine (eq_trans
      (proj2 (proj2 (directory_imports webEnv "/web/app.js" appJs
                       ("import { format } from " +++ SQUOTE +++ "./lib" +++ SQUOTE +++ ";")
                       [] ["format();"; EmptyString] eq_refl))
         "./lib" (FileInfo.mk "lib" true 0) (or_introl eq_refl) _ _ _ _) _).
    + left. exists "{ format } ", (" " +++ SQUOTE +++ "./lib" +++ SQUOTE +++ ";").
      repeat split; vm_compute; reflexivity.
    + reflexivity.
    + reflexivity.
    + reflexivity.
    + vm_compute. reflexivity.
Defined.

(** * Further properties *)

(** ** The cache from call to call *)

Lemma GetFileContent_settings (env : Env) (filePath : string) (st : Process) :
  sameSettings (manager (snd (GetFileContent env filePath st))) (manager st).
Proof.
  unfold sameSettings.
  destruct (GetFileContent_cases env filePath st) as [(c & _ & ->)| ->]; [auto 6|].
  unfold slowPath. destruct (ReadFile env filePath); [|auto 6].
  destruct (Stat env filePath); auto 6.
Qed.

(** What a call does to the two maps: nothing, or one entry stored in both. *)
Lemma GetFileContent_maps (env : Env) (filePath : string) (st : Process) :
  (fileCache (manager (snd (GetFileContent env filePath st))) = fileCache (manager st) /\
   fileMtimes (manager (snd (GetFileContent env filePath st))) = fileMtimes (manager st)) \/
  (exists content info,
     ReadFile env filePath = Ok content /\
     Stat env filePath = Ok info /\
     fst (GetFileContent env filePath st) = Ok content /\
     fileCache (manager (snd (GetFileContent env filePath st)))
     = <[filePath := content]> (fileCache (manager st)) /\
     fileMtimes (manager (snd (GetFileContent env filePath st)))
     = <[filePath := time.UnixNano (FileInfo.ModTime info)]> (fileMtimes (manager st))).
Proof.
  destruct (GetFileContent_cases env filePath st) as [(c & _ & ->)| ->]; [now left|].
  unfold slowPath. destruct (ReadFile env filePath) as [content|]; [|now left].
  destruct (Stat env filePath) as [info|]; [|now left].
  right. exists content, info. cbn. auto.
Qed.

(** X1. A second call for a file that was fetched and whose time stamp can
    be read is answered by the cache: it returns the same content, reads no
    file and changes nothing. *)
Theorem GetFileContent_twice (env : Env) (filePath : string) (st : Process)
    (content : string) (info : FileInfo.t) :
  fst (GetFileContent env filePath st) = Ok content ->
  Stat env filePath = Ok info ->
  GetFileContent env filePath (snd (GetFileContent env filePath st))
  = (Ok content, snd (GetFileContent env filePath st)).
Proof.
  intros Hres Hstat. apply GetFileContent_hit.
  destruct (GetFileContent_cases env filePath st) as [(c & Hf & Heq)|Heq];
    rewrite Heq in *; cbn [fst snd] in *.
  - now inversion Hres; subst.
  - unfold slowPath in *. rewrite Hstat in *.
    destruct (ReadFile env filePath) as [c|]; [|discriminate].
    cbn [fst snd manager] in *. inversion Hres; subst.
    split; cbn; [apply lookup_insert_eq|].
    exists info. split; [exact Hstat|apply lookup_insert_eq].
Qed.

Lemma GetFileContent_twice_witness :
  GetFileContent notesBefore "/proj/notes.txt"
    (snd (GetFileContent notesBefore "/proj/notes.txt" notesStart))
  = (Ok "old text", snd (GetFileContent notesBefore "/proj/notes.txt" notesStart)).
Proof.
  apply (GetFileContent_twice notesBefore "/proj/notes.txt" notesStart "old text"
           (FileInfo.mk "notes.txt" false 100)); vm_compute; reflexivity.
Defined.

(** X2. A call for one path leaves the entries of every other path, the
    root, the budget and the ignore rules as they were. *)
Theorem GetFileContent_other_paths (env : Env) (filePath other : string) (st : Process) :
  other <> filePath ->
  fileCache (manager (snd (GetFileContent env filePath st))) !! other
  = fileCache (manager st) !! other /\
  fileMtimes (manager (snd (GetFileContent env filePath st))) !! other
  = fileMtimes (manager st) !! other /\
  sameSettings (manager (snd (GetFileContent env filePath st))) (manager st).
Proof.
  intros Hne. split; [|split; [|apply GetFileContent_settings]].
  - destruct (GetFileContent_maps env filePath st)
      as [[-> _]|(c & i & _ & _ & _ & -> & _)]; [reflexivity|].
    now apply lookup_insert_ne.
  - destruct (GetFileContent_maps env filePath st)
      as [[_ ->]|(c & i & _ & _ & _ & _ & ->)]; [reflexivity|].
    now apply lookup_insert_ne.
Qed.

Lemma GetFileContent_other_paths_witness :
  fileCache (manager (snd (GetFileContent serverEnv "/proj/server.md"
     (snd (GetFileContent serverEnv "/proj/server.go" (serverStart 100)))))) !! "/proj/server.go"
  = Some serverGo.
Proof.
  rewrite (proj1 (GetFileContent_other_paths serverEnv "/proj/server.md" "/proj/server.go"
                    (snd (GetFileContent serverEnv "/proj/server.go" (serverStart 100)))
                    ltac:(discriminate))).
  vm_compute. reflexivity.
Defined.

Lemma forRange_state {A L : Type} (body : A -> L -> M L) (Q : Process -> Prop) :
  (forall x vars st, Q st -> Q (snd (body x vars st))) ->
  forall l vars st, Q st -> Q (snd (forRange l body vars st)).
Proof.
  intros Hstep l vars st HQ.
  apply (forRange_invariant body (fun _ _ st' => Q st')
           (fun _ x v s H => Hstep x v s H) l [] vars st HQ).
Qed.

Lemma relatedStep_state (env : Env) (f : string) (a : Assembly) (st : Process) :
  snd (relatedStep env f a st) = snd (GetFileContent env f st).
Proof. now rewrite relatedStep_unfold. Qed.

Lemma assemble_state (env : Env) (filePath : string) (st : Process) :
  snd (assemble env filePath st) =
  match fst (GetFileContent env filePath st) with
  | Err _ => snd (GetFileContent env filePath st)
  | Ok content =>
      let st1 := snd (GetFileContent env filePath st) in
      let primary := Primary (relOf (manager st1) filePath) content in
      snd (forRange (findRelatedFiles env filePath content) (relatedStep env)
             {| context := render primary;
                totalLength := len (render primary);
                written := [primary] |} st1)
  end.
Proof.
  unfold assemble, bind.
  destruct (GetFileContent env filePath st) as [[content|e] st1]; cbn [fst snd];
    [|reflexivity].
  unfold getManager. cbn zeta.
  now destruct (forRange _ _ _ st1).
Qed.

Lemma GetFileContext_state (env : Env) (filePath : string) (st : Process) :
  snd (GetFileContext env filePath st) = snd (assemble env filePath st).
Proof.
  unfold GetFileContext, bind.
  now destruct (assemble env filePath st) as [[a|e] st1].
Qed.

(** What every call of [GetFileContent] keeps, [GetFileContext] keeps. *)
Lemma GetFileContext_keeps (env : Env) (Q : Process -> Prop) :
  (forall f st, Q st -> Q (snd (GetFileContent env f st))) ->
  forall filePath st, Q st -> Q (snd (GetFileContext env filePath st)).
Proof.
  intros HQ filePath st Hst.
  rewrite GetFileContext_state, assemble_state.
  pose proof (HQ filePath st Hst) as H1.
  destruct (fst (GetFileContent env filePath st)) as [content|e]; [|exact H1].
  cbn zeta. apply forRange_state; [|exact H1].
  intros f vars st' H. rewrite relatedStep_state. now apply HQ.
Qed.

Lemma NewContextManager_aligned (env : Env) (root : string) :
  aligned (NewContextManager env root).
Proof.
  intros path. split; intros [x H]; cbn in H; rewrite lookup_empty in H; discriminate.
Qed.

Lemma GetFileContent_aligned (env : Env) (filePath : string) (st : Process) :
  aligned (manager st) -> aligned (manager (snd (GetFileContent env filePath st))).
Proof.
  intros Hal path.
  destruct (GetFileContent_maps env filePath st)
    as [[-> ->]|(c & i & _ & _ & _ & -> & ->)]; [apply Hal|].
  destruct (decide (filePath = path)) as [->|Hne].
  - rewrite !lookup_insert_eq. split; eauto.
  - rewrite !lookup_insert_ne by exact Hne. apply Hal.
Qed.

(** X3. The two maps of the cache always hold the same paths: they do in a
    new manager, and [GetFileContent] and [GetFileContext] keep it so. *)
Theorem cache_maps_aligned (env : Env) (filePath : string) (st : Process) :
  aligned (manager st) ->
  aligned (manager (snd (GetFileContent env filePath st))) /\
  aligned (manager (snd (GetFileContext env filePath st))).
Proof.
  intros Hal. split; [now apply GetFileContent_aligned|].
  apply (GetFileContext_keeps env (fun s => aligned (manager s))); [|exact Hal].
  intros f s. apply GetFileContent_aligned.
Qed.

Lemma cache_maps_aligned_witness :
  aligned (manager (snd (GetFileContext serverEnv "/proj/server.go" (serverStart 250)))).
Proof.
  apply (proj2 (cache_maps_aligned serverEnv "/proj/server.go" (serverStart 250)
                 (NewContextManager_aligned serverEnv "/proj"))).
Defined.

Lemma NewContextManager_coherent (env envAtStart : Env) (root : string) :
  coherent env (NewContextManager envAtStart root).
Proof. intros path content [H _]. cbn in H. now rewrite lookup_empty in H. Qed.

Lemma GetFileContent_coherent (env : Env) (filePath : string) (st : Process) :
  coherent env (manager st) ->
  coherent env (manager (snd (GetFileContent env filePath st))).
Proof.
  intros Hco path content [Hc (info & Hs & Hm)].
  destruct (GetFileContent_maps env filePath st)
    as [[Ec Em]|(c & i & Hr & Hi & _ & Ec & Em)]; rewrite Ec in Hc; rewrite Em in Hm.
  - apply Hco. split; eauto.
  - destruct (decide (filePath = path)) as [->|Hne].
    + rewrite lookup_insert_eq in Hc. congruence.
    + rewrite lookup_insert_ne in Hc by exact Hne.
      rewrite lookup_insert_ne in Hm by exact Hne. apply Hco. split; eauto.
Qed.

Lemma GetFileContent_transparent (env : Env) (filePath : string) (st : Process) :
  coherent env (manager st) ->
  fst (GetFileContent env filePath st) = ReadFile env filePath.
Proof.
  intros Hco.
  destruct (GetFileContent_cases env filePath st) as [(c & Hf & ->)| ->].
  - cbn. symmetry. now apply Hco.
  - apply slowPath_result.
Qed.

(** X4. A cache in which every entry with the current time stamp of its
    file holds the current content of that file is invisible: a call returns
    what reading the file returns, the content or the error, and leaves the
    cache such a cache.  The cache of a new manager is one. *)
Theorem coherent_cache_transparent (env : Env) (filePath : string) (st : Process) :
  coherent env (manager st) ->
  fst (GetFileContent env filePath st) = ReadFile env filePath /\
  coherent env (manager (snd (GetFileContent env filePath st))) /\
  coherent env (manager (snd (GetFileContext env filePath st))).
Proof.
  intros Hco. split; [now apply GetFileContent_transparent|].
  split; [now apply GetFileContent_coherent|].
  apply (GetFileContext_keeps env (fun s => coherent env (manager s))); [|exact Hco].
  intros f s. apply GetFileContent_coherent.
Qed.

Lemma coherent_cache_transparent_witness :
  fst (GetFileContent notesAfter "/proj/notes.txt"
         (snd (GetFileContent notesAfter "/proj/missing.txt" notesStart)))
  = ReadFile notesAfter "/proj/notes.txt".
Proof.
  apply (proj1 (coherent_cache_transparent notesAfter "/proj/notes.txt" _
    (proj1 (proj2 (coherent_cache_transparent notesAfter "/proj/missing.txt" notesStart
       (NewContextManager_coherent notesAfter notesBefore "/proj")))))).
Defined.

(** ** [GetFileContext] as a whole *)

(** X5. [GetFileContext] fails exactly when the fetch of the primary file
    fails: it then returns the error of that fetch and has done nothing
    else, and when the fetch gives a content it returns a text. *)
Theorem GetFileContext_fails_as_primary (env : Env) (filePath : string) (st : Process) :
  (forall err,
     fst (GetFileContent env filePath st) = Err err ->
     GetFileContext env filePath st = (Err err, snd (GetFileContent env filePath st))) /\
  (forall content,
     fst (GetFileContent env filePath st) = Ok content ->
     exists text, fst (GetFileContext env filePath st) = Ok text).
Proof.
  split.
  - intros err Herr. unfold GetFileContext, assemble, bind.
    destruct (GetFileContent env filePath st) as [[c|e] st1]; cbn [fst snd] in *;
      [discriminate|].
    now inversion Herr.
  - intros content Hc. pose proof (assemble_spec env filePath st) as H.
    rewrite Hc in H. destruct H as (a & Ha & _).
    exists (context a). now rewrite GetFileContext_assemble, Ha.
Qed.

Lemma GetFileContext_fails_as_primary_witness :
  GetFileContext emptyEnv "/proj/gone.txt" (start (NewContextManager emptyEnv "/proj"))
  = (Err (PathError "open" "/proj/gone.txt"),
     snd (GetFileContent emptyEnv "/proj/gone.txt"
            (start (NewContextManager emptyEnv "/proj")))).
Proof.
  apply (proj1 (GetFileContext_fails_as_primary emptyEnv "/proj/gone.txt"
                  (start (NewContextManager emptyEnv "/proj")))).
  vm_compute. reflexivity.
Defined.

Lemma forRange_related {A L : Type} (body : A -> L -> M L)
    (R : Process -> Process -> Prop) :
  (forall x vars st1 st2,
     R st1 st2 ->
     fst (body x vars st1) = fst (body x vars st2) /\
     R (snd (body x vars st1)) (snd (body x vars st2))) ->
  forall l vars st1 st2,
    R st1 st2 ->
    fst (forRange l body vars st1) = fst (forRange l body vars st2) /\
    R (snd (forRange l body vars st1)) (snd (forRange l body vars st2)).
Proof.
  intros Hstep l. induction l as [|x l IH]; intros vars st1 st2 HR; [now split|].
  cbn [forRange]. unfold bind.
  destruct (Hstep x vars st1 st2 HR) as [Hv HR'].
  destruct (body x vars st1) as [v1 s1], (body x vars st2) as [v2 s2].
  cbn [fst snd] in *. subst v2. now apply IH.
Qed.

Lemma relatedStep_related (env : Env) (f : string) (a : Assembly) (st1 st2 : Process) :
  coherent env (manager st1) /\ coherent env (manager st2) /\
  sameSettings (manager st1) (manager st2) ->
  fst (relatedStep env f a st1) = fst (relatedStep env f a st2) /\
  (coherent env (manager (snd (relatedStep env f a st1))) /\
   coherent env (manager (snd (relatedStep env f a st2))) /\
   sameSettings (manager (snd (relatedStep env f a st1)))
     (manager (snd (relatedStep env f a st2)))).
Proof.
  intros (H1 & H2 & Hs).
  assert (Hs' : sameSettings (manager (snd (GetFileContent env f st1)))
                  (manager (snd (GetFileContent env f st2)))).
  { destruct (GetFileContent_settings env f st1) as (? & ? & ? & ? & ?).
    destruct (GetFileContent_settings env f st2) as (? & ? & ? & ? & ?).
    destruct Hs as (? & ? & ? & ? & ?). unfold sameSettings. repeat split; congruence. }
  rewrite !relatedStep_unfold. cbn [fst snd].
  rewrite !GetFileContent_transparent by assumption.
  split; [|auto using GetFileContent_coherent].
  destruct (ReadFile env f) as [c|]; [|reflexivity].
  cbn zeta. destruct Hs' as (Hroot & Hmax & _).
  now rewrite (relOf_root _ _ f Hroot), Hmax.
Qed.

(** X6. With a coherent cache the text of [GetFileContext] does not depend
    on what is cached: two processes with coherent caches and the same root
    and budget get the same result, and so a call repeated on an unchanged
    file system returns what the first call returned. *)
Theorem GetFileContext_cache_independent (env : Env) (filePath : string)
    (st1 st2 : Process) :
  coherent env (manager st1) ->
  coherent env (manager st2) ->
  sameSettings (manager st1) (manager st2) ->
  fst (GetFileContext env filePath st1) = fst (GetFileContext env filePath st2) /\
  fst (GetFileContext env filePath (snd (GetFileContext env filePath st1)))
  = fst (GetFileContext env filePath st1).
Proof.
  assert (Hgen : forall s1 s2,
            coherent env (manager s1) -> coherent env (manager s2) ->
            sameSettings (manager s1) (manager s2) ->
            fst (GetFileContext env filePath s1) = fst (GetFileContext env filePath s2)).
  { intros s1 s2 H1 H2 Hs.
    rewrite !GetFileContext_assemble. f_equal.
    unfold assemble, bind.
    pose proof (GetFileContent_transparent env filePath s1 H1) as E1.
    pose proof (GetFileContent_transparent env filePath s2 H2) as E2.
    pose proof (GetFileContent_coherent env filePath s1 H1) as C1.
    pose proof (GetFileContent_coherent env filePath s2 H2) as C2.
    destruct (GetFileContent_settings env filePath s1) as (R1 & M1 & I1 & J1 & K1).
    destruct (GetFileContent_settings env filePath s2) as (R2 & M2 & I2 & J2 & K2).
    destruct (GetFileContent env filePath s1) as [r1 t1].
    destruct (GetFileContent env filePath s2) as [r2 t2].
    cbn [fst snd] in *. subst r1 r2.
    destruct (ReadFile env filePath) as [content|e]; [|reflexivity].
    unfold getManager. cbn zeta.
    assert (Ht : sameSettings (manager t1) (manager t2)).
    { destruct Hs as (? & ? & ? & ? & ?). unfold sameSettings. repeat split; congruence. }
    rewrite (relOf_root (manager t1) (manager t2) filePath (proj1 Ht)).
    destruct (forRange_related (relatedStep env)
                (fun a b => coherent env (manager a) /\ coherent env (manager b) /\
                            sameSettings (manager a) (manager b))
                (relatedStep_related env)
                (findRelatedFiles env filePath content)
                {| context := render (Primary (relOf (manager t2) filePath) content);
                   totalLength := len (render (Primary (relOf (manager t2) filePath) content));
                   written := [Primary (relOf (manager t2) filePath) content] |}
                t1 t2 (conj C1 (conj C2 Ht))) as [Hv _].
    destruct (forRange _ _ _ t1) as [a1 u1], (forRange _ _ _ t2) as [a2 u2].
    cbn [fst snd] in *. now subst. }
  intros H1 H2 Hs. split; [now apply Hgen|].
  apply Hgen; [|exact H1|].
  - apply (GetFileContext_keeps env (fun s => coherent env (manager s))); [|exact H1].
    intros f s. apply GetFileContent_coherent.
  - apply (GetFileContext_keeps env (fun s => sameSettings (manager s) (manager st1))).
    + intros f s (? & ? & ? & ? & ?).
      destruct (GetFileContent_settings env f s) as (? & ? & ? & ? & ?).
      unfold sameSettings. repeat split; congruence.
    + unfold sameSettings. auto 6.
Qed.

Lemma GetFileContext_cache_independent_witness :
  fst (GetFileContext serverEnv "/proj/server.go"
         (snd (GetFileContext serverEnv "/proj/server.go" (serverStart 250))))
  = fst (GetFileContext serverEnv "/proj/server.go" (serverStart 250)).
Proof.
  refine (proj2 (GetFileContext_cache_independent serverEnv "/proj/server.go"
                   (serverStart 250) (serverStart 250) _ _ _)).
  - apply NewContextManager_coherent.
  - apply NewContextManager_coherent.
  - unfold sameSettings. auto 6.
Defined.

(** ** Ignore rules *)

(** X7. After [AddIgnorePattern] a path is ignored exactly when it was
    ignored before or the new pattern applies to it: a pattern ending in the
    separator acts on directories of that name only, any other pattern on
    files only, and no pattern ever takes a path out of the ignored ones. *)
Theorem ShouldIgnore_AddIgnorePattern (env : Env) (cm : ContextManager)
    (pattern path : string) :
  ShouldIgnore env (AddIgnorePattern pattern cm) path
  = ShouldIgnore env cm path || patternApplies env pattern path.
Proof.
  unfold ShouldIgnore, patternApplies, AddIgnorePattern.
  cbn [ignoreDirs ignoreFiles].
  destruct (Stat env path) as [info|e]; [|reflexivity].
  destruct (FileInfo.IsDir info), (strings.HasSuffix pattern "/");
    cbn [andb negb]; rewrite ?existsb_app; cbn [existsb];
    rewrite ?orb_false_r; reflexivity.
Qed.

Lemma Base_not_empty (path : string) : filepath.Base path <> EmptyString.
Proof.
  unfold filepath.Base.
  destruct (String.eqb_spec path ""); [discriminate|].
  destruct (String.eqb_spec
              (filepath.afterLastSep (strings.trimRight filepath.isSep path)
                 (strings.trimRight filepath.isSep path)) ""); [discriminate|assumption].
Qed.

(** X8. The pattern that is the separator alone is filed as the empty
    directory name, which no path has: adding it changes no answer of
    [ShouldIgnore]. *)
Theorem AddIgnorePattern_separator_alone (env : Env) (cm : ContextManager)
    (path : string) :
  ShouldIgnore env (AddIgnorePattern "/" cm) path = ShouldIgnore env cm path.
Proof.
  rewrite ShouldIgnore_AddIgnorePattern. unfold patternApplies.
  destruct (Stat env path) as [info|e]; [|apply orb_false_r].
  destruct (FileInfo.IsDir info); [|apply orb_false_r].
  change (strings.TrimSuffix "/" "/") with EmptyString.
  cbn [strings.HasSuffix andb].
  destruct (String.eqb_spec (filepath.Base path) "") as [H|_];
    [now destruct (Base_not_empty path)|].
  apply orb_false_r.
Qed.

(** X9. A new manager ignores every directory named as one of the six
    default names, whatever the system it was created on; it ignores a
    directory named as one of the four Kali names exactly when it found
    [ID=kali] in [/etc/os-release] at its creation. *)
Theorem NewContextManager_ignored_dirs (env envAtStart : Env) (root path : string)
    (info : FileInfo.t) :
  Stat env path = Ok info ->
  FileInfo.IsDir info = true ->
  (In (filepath.Base path) defaultIgnoreDirs ->
   ShouldIgnore env (NewContextManager envAtStart root) path = true) /\
  (In (filepath.Base path) kaliIgnoreDirs ->
   ShouldIgnore env (NewContextManager envAtStart root) path
   = isKaliLinux (NewContextManager envAtStart root)) /\
  (isKaliLinux (NewContextManager envAtStart root) = true <->
   exists osInfo data,
     Stat envAtStart "/etc/os-release" = Ok osInfo /\
     ReadFile envAtStart "/etc/os-release" = Ok data /\
     strings.Contains data "ID=kali" = true).
Proof.
  intros Hs Hd. unfold ShouldIgnore, NewContextManager. rewrite Hs, Hd.
  cbn [ignoreDirs isKaliLinux].
  destruct (Stat envAtStart "/etc/os-release") as [osInfo|e].
  2:{ split; [|split].
      - intros Hin. repeat (destruct Hin as [<-|Hin]; [reflexivity|]). destruct Hin.
      - intros Hin. repeat (destruct Hin as [<-|Hin]; [reflexivity|]). destruct Hin.
      - split; [discriminate|]. intros (o & d & H & _). discriminate. }
  destruct (ReadFile envAtStart "/etc/os-release") as [data|e].
  2:{ split; [|split].
      - intros Hin. repeat (destruct Hin as [<-|Hin]; [reflexivity|]). destruct Hin.
      - intros Hin. repeat (destruct Hin as [<-|Hin]; [reflexivity|]). destruct Hin.
      - split; [discriminate|]. intros (o & d & _ & H & _). discriminate. }
  destruct (strings.Contains data "ID=kali") eqn:Hk.
  - split; [|split].
    + intros Hin. repeat (destruct Hin as [<-|Hin]; [reflexivity|]). destruct Hin.
    + intros Hin. repeat (destruct Hin as [<-|Hin]; [reflexivity|]). destruct Hin.
    + split; [|reflexivity]. intros _. eauto.
  - split; [|split].
    + intros Hin. repeat (destruct Hin as [<-|Hin]; [reflexivity|]). destruct Hin.
    + intros Hin. repeat (destruct Hin as [<-|Hin]; [reflexivity|]). destruct Hin.
    + split; [discriminate|]. intros (o & d & _ & H & Hc).
      inversion H; subst. congruence.
Qed.

Lemma NewContextManager_ignored_dirs_witness :
  ShouldIgnore kaliEnv (NewContextManager kaliEnv "/proj") "/proj/node_modules" = true /\
  ShouldIgnore kaliEnv (NewContextManager kaliEnv "/proj") "/proj/wordlists" = true /\
  ShouldIgnore kaliEnv (NewContextManager emptyEnv "/proj") "/proj/wordlists" = false.
Proof.
  split; [|split].
  - apply (proj1 (NewContextManager_ignored_dirs kaliEnv kaliEnv "/proj"
                    "/proj/node_modules" (FileInfo.mk "node_modules" true 0)
                    eq_refl eq_refl)).
    vm_compute. auto.
  - rewrite (proj1 (proj2 (NewContextManager_ignored_dirs kaliEnv kaliEnv "/proj"
                    "/proj/wordlists" (FileInfo.mk "wordlists" true 0)
                    eq_refl eq_refl))); [reflexivity|].
    vm_compute. auto.
  - rewrite (proj1 (proj2 (NewContextManager_ignored_dirs kaliEnv emptyEnv "/proj"
                    "/proj/wordlists" (FileInfo.mk "wordlists" true 0)
                    eq_refl eq_refl))); [reflexivity|].
    vm_compute. auto.
Defined.

(** ** Traversals *)

Section WalkKeeps.
Context {L : Type}.
Variable env : Env.
Variable walkFn : WalkFunc L.
Variable P : L -> Prop.

(** The function is handed the information that [Lstat] gave for the path. *)
Hypothesis walkFn_keeps :
  forall path info err vars,
    (forall i, info = Some i -> Lstat env path = Ok i) ->
    P vars -> P (fst (walkFn path info err vars)).

Lemma walkEntries_keeps
    (descend : string -> FileInfo.t -> L -> option (L * option error)) :
  (forall path info vars r,
     Lstat env path = Ok info -> P vars -> descend path info vars = Some r -> P (fst r)) ->
  forall path names vars r,
    P vars -> walkEntries env walkFn descend path names vars = Some r -> P (fst r).
Proof.
  intros Hd path names. induction names as [|name rest IH]; intros vars r HP.
  - cbn. now intros [= <-].
  - rewrite walkEntries_cons. cbn zeta.
    destruct (Lstat env (filepath.Join [path; name])) as [info|err] eqn:Hl.
    + destruct (descend _ info vars) as [[v [err1|]]|] eqn:Hdesc; [| |discriminate].
      * pose proof (Hd _ _ _ _ Hl HP Hdesc) as Hv. cbn in Hv.
        destruct (negb (FileInfo.IsDir info) || negb (isErr SkipDir err1));
          [now intros [= <-]|now apply IH].
      * pose proof (Hd _ _ _ _ Hl HP Hdesc) as Hv. now apply IH.
    + pose proof (walkFn_keeps (filepath.Join [path; name]) None (Some err) vars
                    ltac:(discriminate) HP) as Hv.
      destruct (walkFn _ None (Some err) vars) as [v [err1|]]; cbn in Hv;
        [|now apply IH].
      destruct (negb (isErr SkipDir err1)); [now intros [= <-]|now apply IH].
Qed.

Lemma walk_keeps (depth : nat) :
  forall path info vars r,
    Lstat env path = Ok info -> P vars ->
    walk env walkFn depth path info vars = Some r -> P (fst r).
Proof.
  induction depth as [|depth IH]; intros path info vars r Hl HP.
  - cbn. destruct (negb (FileInfo.IsDir info)); [|discriminate].
    intros [= <-]. apply walkFn_keeps; [now intros i [= <-]|exact HP].
  - cbn [walk]. destruct (negb (FileInfo.IsDir info)).
    + intros [= <-]. apply walkFn_keeps; [now intros i [= <-]|exact HP].
    + destruct (readDirNames env path) as [names|err].
      * pose proof (walkFn_keeps path (Some info) None vars
                      ltac:(now intros i [= <-]) HP) as Hv.
        destruct (walkFn path (Some info) None vars) as [v [err1|]]; cbn in Hv.
        -- now intros [= <-].
        -- now apply (walkEntries_keeps _ IH).
      * intros [= <-]. apply walkFn_keeps; [now intros i [= <-]|exact HP].
Qed.

Lemma Walk_keeps (depth : nat) (root : string) (vars : L) (r : L * option error) :
  P vars -> Walk env depth root walkFn vars = Some r -> P (fst r).
Proof.
  intros HP. unfold Walk.
  destruct (Lstat env root) as [info|err] eqn:Hl.
  - destruct (walk env walkFn depth root info vars) as [[v e]|] eqn:Hw; [|discriminate].
    pose proof (walk_keeps depth root info vars _ Hl HP Hw) as Hv. cbn in Hv.
    destruct e as [e|]; [|now intros [= <-]].
    destruct (isErr SkipDir e || isErr SkipAll e); now intros [= <-].
  - pose proof (walkFn_keeps root None (Some err) vars ltac:(discriminate) HP) as Hv.
    destruct (walkFn root None (Some err) vars) as [v [e|]]; cbn in Hv;
      [|now intros [= <-]].
    destruct (isErr SkipDir e || isErr SkipAll e); now intros [= <-].
Qed.

End WalkKeeps.



Lemma limit_reached (n : nat) (maxFiles : Z) :
  1 <= maxFiles ->
  (Z.of_nat n >=? maxFiles) = negb (n <? Z.to_nat maxFiles)%nat.
Proof.
  intros H. rewrite Z.geb_leb.
  destruct (Z.leb_spec maxFiles (Z.of_nat n)), (Nat.ltb_spec n (Z.to_nat maxFiles));
    cbn; try reflexivity; lia.
Qed.

(** The loop over a directory that holds no directory, from a list that is
    below the limit: it appends the relevant files until the limit. *)
Lemma walkEntries_flat (env : Env) (cm : ContextManager) (query : string) (maxFiles : Z)
    (depth : nat) (dir : string) (names : list string) :
  1 <= maxFiles ->
  (forall name info,
     In name names -> Lstat env (filepath.Join [dir; name]) = Ok info ->
     FileInfo.IsDir info = false) ->
  forall acc,
    (List.length acc < Z.to_nat maxFiles)%nat ->
    exists r,
      walkEntries env (relevantFn env cm query maxFiles)
        (walk env (relevantFn env cm query maxFiles) depth) dir names acc
      = Some (acc ++ firstn (Z.to_nat maxFiles - List.length acc)
                       (List.filter (relevantFile env cm query)
                          (map (fun name => filepath.Join [dir; name]) names)), r) /\
      steers r.
Proof.
  intros Hmax. induction names as [|name rest IH]; intros Hflat acc Hacc.
  - exists None. cbn. rewrite firstn_nil, app_nil_r. split; [reflexivity|now left].
  - assert (Hrest : forall n i, In n rest -> Lstat env (filepath.Join [dir; n]) = Ok i ->
                                FileInfo.IsDir i = false)
      by (intros n i Hn; apply Hflat; now right).
    specialize (IH Hrest).
    rewrite walkEntries_cons. cbn zeta. cbn [map List.filter].
    unfold relevantFile at 1.
    destruct (Lstat env (filepath.Join [dir; name])) as [info|e] eqn:Hl.
    + rewrite (walk_file _ _ _ _ _ _ (Hflat name info (or_introl eq_refl) Hl)).
      unfold relevantFn at 1. cbv beta iota.
      rewrite (Hflat name info (or_introl eq_refl) Hl).
      fold (relOf cm (filepath.Join [dir; name])).
      destruct (ShouldIgnore env cm (filepath.Join [dir; name])); cbn [negb andb];
        [now apply IH|].
      destruct (strings.Contains _ _).
      * rewrite limit_reached, length_app by exact Hmax. cbn [List.length].
        destruct (Nat.ltb_spec (List.length acc + 1) (Z.to_nat maxFiles)) as [Hlt|Hge];
          cbn [negb].
        -- destruct (IH (acc ++ [filepath.Join [dir; name]])) as (r & Hr & Hs);
             [rewrite length_app; cbn; lia|].
           exists r. split; [|exact Hs]. rewrite Hr. f_equal. f_equal.
           rewrite length_app. cbn [List.length].
           replace (Z.to_nat maxFiles - List.length acc)%nat
             with (S (Z.to_nat maxFiles - (List.length acc + 1))) by lia.
           cbn [firstn]. now rewrite <- app_assoc.
        -- exists (Some SkipDir). cbn [negb orb]. split; [|now right].
           replace (Z.to_nat maxFiles - List.length acc)%nat with 1%nat by lia.
           cbn [firstn]. now rewrite firstn_O.
      * rewrite limit_reached by exact Hmax.
        destruct (Nat.ltb_spec (List.length acc) (Z.to_nat maxFiles)) as [_|Hge];
          [|lia].
        cbn [negb]. now apply IH.
    + unfold relevantFn at 1. cbv beta iota. now apply IH.
Qed.

(** X11. In a project whose root holds no directory the limit holds, and
    more: with a limit of at least 1 [GetRelevantFiles] returns the first
    [maxFiles] relevant files of the root, in the order of the listing, and
    all of them when they are fewer. *)
Theorem GetRelevantFiles_flat (env : Env) (cm : ContextManager) (depth : nat)
    (query : string) (maxFiles : Z) (info : FileInfo.t) (entries : list DirEntry.t) :
  Lstat env (rootPath cm) = Ok info ->
  FileInfo.IsDir info = true ->
  ShouldIgnore env cm (rootPath cm) = false ->
  ReadDir env (rootPath cm) = Ok entries ->
  (forall name i,
     In name (map DirEntry.Name entries) ->
     Lstat env (filepath.Join [rootPath cm; name]) = Ok i -> FileInfo.IsDir i = false) ->
  1 <= maxFiles ->
  GetRelevantFiles env cm (S depth) query maxFiles
  = Some (firstn (Z.to_nat maxFiles)
            (List.filter (relevantFile env cm query)
               (map (fun name => filepath.Join [rootPath cm; name])
                  (map DirEntry.Name entries))), None).
Proof.
  intros Hl Hd Hig Hr Hflat Hmax.
  unfold GetRelevantFiles, Walk. rewrite Hl. cbn [walk]. rewrite Hd. cbn [negb].
  unfold readDirNames. rewrite Hr.
  unfold relevantFn at 1. cbv beta iota. rewrite Hd, Hig.
  destruct (walkEntries_flat env cm query maxFiles depth (rootPath cm)
              (map DirEntry.Name entries) Hmax Hflat []) as (r & -> & Hs);
    [cbn; lia|].
  cbn [app List.length]. rewrite Nat.sub_0_r.
  destruct Hs as [-> | ->]; reflexivity.
Qed.

Lemma GetRelevantFiles_flat_witness :
  GetRelevantFiles serverEnv (NewContextManager serverEnv "/proj") 1 "SERVER" 2
  = Some (["/proj/server.go"; "/proj/server.md"], None).
Proof.
  rewrite (GetRelevantFiles_flat serverEnv (NewContextManager serverEnv "/proj") 0
             "SERVER" 2 (FileInfo.mk "proj" true 0)
             [fileEntry "server.go"; fileEntry "server.md"; fileEntry "server.yaml"]).
  - vm_compute. reflexivity.
  - reflexivity.
  - reflexivity.
  - vm_compute. reflexivity.
  - reflexivity.
  - intros name i Hin Hi. cbn in Hin.
    destruct Hin as [<-|[<-|[<-|[]]]]; vm_compute in Hi; now inversion Hi.
  - lia.
Defined.

(** X12. An entry that is ignored leaves no trace in either traversal: the
    loop over its directory goes on as if the entry were not named, and when
    the entry is a directory nothing below it is visited. *)
Theorem ignored_entries_pruned (env : Env) (cm : ContextManager) (depth : nat)
    (path name : string) (before after : list string) (info : FileInfo.t) :
  Lstat env (filepath.Join [path; name]) = Ok info ->
  ShouldIgnore env cm (filepath.Join [path; name]) = true ->
  (forall query maxFiles vars,
     walkEntries env (relevantFn env cm query maxFiles)
       (walk env (relevantFn env cm query maxFiles) (S depth)) path
       (before ++ name :: after) vars
     = walkEntries env (relevantFn env cm query maxFiles)
         (walk env (relevantFn env cm query maxFiles) (S depth)) path
         (before ++ after) vars) /\
  (filepath.Join [path; name] <> rootPath cm ->
   (FileInfo.IsDir info = true ->
    exists entries, ReadDir env (filepath.Join [path; name]) = Ok entries) ->
   forall vars,
     walkEntries env (structureFn env cm) (walk env (structureFn env cm) (S depth)) path
       (before ++ name :: after) vars
     = walkEntries env (structureFn env cm) (walk env (structureFn env cm) (S depth)) path
         (before ++ after) vars).
Proof.
  intros Hl Hig. split.
  - intros query maxFiles vars. rewrite !walkEntries_app.
    destruct (walkEntries _ _ _ _ before vars) as [[v [e|]]|]; try reflexivity.
    rewrite walkEntries_cons. cbn zeta. rewrite Hl.
    destruct (FileInfo.IsDir info) eqn:Hd.
    + cbn [walk]. rewrite Hd. cbn [negb]. unfold readDirNames.
      destruct (ReadDir env (filepath.Join [path; name])).
      * unfold relevantFn at 1. cbv beta iota. rewrite Hd, Hig. reflexivity.
      * unfold relevantFn at 1. cbv beta iota. reflexivity.
    + rewrite (walk_file _ _ _ _ _ _ Hd). unfold relevantFn at 1. cbv beta iota.
      rewrite Hd, Hig. reflexivity.
  - intros Hroot Hlist vars. rewrite !walkEntries_app.
    destruct (walkEntries _ _ _ _ before vars) as [[v [e|]]|]; try reflexivity.
    rewrite walkEntries_cons. cbn zeta. rewrite Hl.
    apply String.eqb_neq in Hroot.
    destruct (FileInfo.IsDir info) eqn:Hd.
    + destruct (Hlist eq_refl) as [entries Hr].
      cbn [walk]. rewrite Hd. cbn [negb]. unfold readDirNames. rewrite Hr.
      unfold structureFn at 1. cbv beta iota. rewrite Hroot, Hig, Hd. reflexivity.
    + rewrite (walk_file _ _ _ _ _ _ Hd). unfold structureFn at 1. cbv beta iota.
      rewrite Hroot, Hig, Hd. reflexivity.
Qed.

Lemma ignored_entries_pruned_witness :
  walkEntries kaliEnv (structureFn kaliEnv (NewContextManager kaliEnv "/proj"))
    (walk kaliEnv (structureFn kaliEnv (NewContextManager kaliEnv "/proj")) 1) "/proj"
    ([] ++ "node_modules" :: ["wordlists"]) "Project Structure:"
  = walkEntries kaliEnv (structureFn kaliEnv (NewContextManager kaliEnv "/proj"))
      (walk kaliEnv (structureFn kaliEnv (NewContextManager kaliEnv "/proj")) 1) "/proj"
      ([] ++ ["wordlists"]) "Project Structure:".
Proof.
  refine (proj2 (ignored_entries_pruned kaliEnv (NewContextManager kaliEnv "/proj") 0
                   "/proj" "node_modules" [] ["wordlists"]
                   (FileInfo.mk "node_modules" true 0) _ _) _ _ _).
  - reflexivity.
  - vm_compute. reflexivity.
  - vm_compute. discriminate.
  - intros _. exists []. reflexivity.
Defined.

Lemma structureFn_header (env : Env) (cm : ContextManager) (header path : string)
    (info : option FileInfo.t) (err : option error) (result : string) :
  (exists listing, result = header +++ listing) ->
  exists listing, fst (structureFn env cm path info err result) = header +++ listing.
Proof.
  intros [listing ->]. unfold structureFn.
  destruct err as [e|]; [eauto|].
  destruct info as [info|]; [|eauto].
  destruct (negb (String.eqb path (rootPath cm)) && ShouldIgnore env cm path).
  - destruct (FileInfo.IsDir info); eauto.
  - destruct (filepath.Rel (rootPath cm) path) as [relPath|e]; [|eauto].
    destruct (String.eqb relPath "."); [eauto|].
    destruct (FileInfo.IsDir info); cbn [fst]; rewrite append_assoc; eauto.
Qed.

(** X13. The text that [GetProjectStructure] returns starts with the line
    [Project Structure:], and the root is not in the listing: for a root
    that is a plain file the text is that line alone. *)
Theorem GetProjectStructure_header (env : Env) (cm : ContextManager) (depth : nat) :
  (forall text,
     GetProjectStructure env cm depth = Some (Ok text) ->
     exists listing, text = ("Project Structure:" +++ LF) +++ listing) /\
  (forall info,
     Lstat env (rootPath cm) = Ok info ->
     FileInfo.IsDir info = false ->
     GetProjectStructure env cm depth = Some (Ok ("Project Structure:" +++ LF))).
Proof.
  split.
  - intros text. unfold GetProjectStructure.
    destruct (Walk env depth (rootPath cm) (structureFn env cm) ("Project Structure:" +++ LF))
      as [[result [e|]]|] eqn:Hw; try discriminate.
    intros [= <-].
    apply (Walk_keeps env (structureFn env cm)
             (fun r => exists listing, r = ("Project Structure:" +++ LF) +++ listing))
      with (depth := depth) (root := rootPath cm) (vars := "Project Structure:" +++ LF)
           (r := (result, None)); [| |exact Hw].
    + intros path info err vars _. apply structureFn_header.
    + exists EmptyString. now rewrite append_nil_r.
  - intros info Hl Hd. unfold GetProjectStructure, Walk.
    now rewrite Hl, (walk_file _ _ _ _ _ _ Hd), structureFn_root.
Qed.

Lemma GetProjectStructure_header_witness :
  GetProjectStructure serverEnv (NewContextManager serverEnv "/proj/server.go") 0
  = Some (Ok ("Project Structure:" +++ LF)).
Proof.
  apply (proj2 (GetProjectStructure_header serverEnv
                  (NewContextManager serverEnv "/proj/server.go") 0)
           (FileInfo.mk "server.go" false 10)); reflexivity.
Defined.

(** X14. When the root does not exist, [GetRelevantFiles] returns the empty
    list and no error, and [GetProjectStructure] returns the error of
    [Lstat] on the root. *)
Theorem traversals_of_missing_root (env : Env) (cm : ContextManager) (depth : nat)
    (op p : string) :
  Lstat env (rootPath cm) = Err (PathError op p) ->
  (forall query maxFiles,
     GetRelevantFiles env cm depth query maxFiles = Some ([], None)) /\
  GetProjectStructure env cm depth = Some (Err (PathError op p)).
Proof.
  intros Hl. split.
  - intros query maxFiles. unfold GetRelevantFiles, Walk. now rewrite Hl.
  - unfold GetProjectStructure, Walk. now rewrite Hl.
Qed.

Lemma traversals_of_missing_root_witness :
  GetProjectStructure emptyEnv (NewContextManager emptyEnv "/proj") 5
  = Some (Err (PathError "lstat" "/proj")).
Proof.
  apply (proj2 (traversals_of_missing_root emptyEnv (NewContextManager emptyEnv "/proj") 5
                  "lstat" "/proj" eq_refl)).
Defined.

(** ** Related files *)

Lemma tryExtensions_file (env : Env) (resolvedPath : string) (exts : list string) :
  (List.length (tryExtensions env resolvedPath exts) <= 1)%nat /\
  forall p, In p (tryExtensions env resolvedPath exts) ->
            exists ext info,
              In ext exts /\ p = resolvedPath +++ ext /\
              Stat env p = Ok info /\ FileInfo.IsDir info = false.
Proof.
  induction exts as [|ext rest [IHlen IHin]]; [cbn; split; [lia|intros p []]|].
  cbn [tryExtensions].
  destruct (Stat env (resolvedPath +++ ext)) as [info|e] eqn:Hs.
  - destruct (FileInfo.IsDir info) eqn:Hd; cbn [negb].
    + split; [exact IHlen|]. intros p Hp.
      destruct (IHin p Hp) as (x & i & Hx & H). exists x, i. split; [now right|exact H].
    + split; [cbn; lia|]. intros p [<-|[]]. exists ext, info.
      split; [now left|auto].
  - split; [exact IHlen|]. intros p Hp.
    destruct (IHin p Hp) as (x & i & Hx & H). exists x, i. split; [now right|exact H].
Qed.

(** X15. An import line of a JS/TS file adds at most one path, and a path
    it adds is a file that exists: the path of the import as written, or
    that path with [.js], [.ts], [.jsx] or [.tsx] after it. *)
Theorem jsLine_one_existing_file (env : Env) (dir line : string) :
  (List.length (jsLine env dir line) <= 1)%nat /\
  forall p, In p (jsLine env dir line) ->
    (exists info, Stat env p = Ok info /\ FileInfo.IsDir info = false) /\
    exists importPath ext,
      jsImportPath line = Some importPath /\
      In ext [""; ".js"; ".ts"; ".jsx"; ".tsx"] /\
      p = filepath.Join [dir; importPath] +++ ext.
Proof.
  unfold jsLine. destruct (jsImportPath line) as [importPath|]; [|cbn; split; [lia|intros p []]].
  destruct (Stat env (filepath.Join [dir; importPath])) as [info|e] eqn:Hs.
  - destruct (FileInfo.IsDir info) eqn:Hd; cbn [negb]; [cbn; split; [lia|intros p []]|].
    split; [cbn; lia|]. intros p [<-|[]]. split; [eauto|].
    exists importPath, EmptyString. split; [reflexivity|]. split; [now left|].
    now rewrite append_nil_r.
  - destruct (tryExtensions_file env (filepath.Join [dir; importPath])
                [".js"; ".ts"; ".jsx"; ".tsx"]) as [Hlen Hin].
    split; [exact Hlen|]. intros p Hp.
    destruct (Hin p Hp) as (ext & info & Hext & -> & Hst & Hd).
    split; [eauto|]. exists importPath, ext. split; [reflexivity|].
    split; [now right|reflexivity].
Qed.

Lemma flat_map_nil {A B : Type} (f : A -> list B) (l : list A) :
  (forall x, In x l -> f x = []) -> flat_map f l = [].
Proof.
  induction l as [|x l IH]; intros H; [reflexivity|].
  cbn [flat_map]. rewrite (H x (or_introl eq_refl)), IH; [reflexivity|].
  intros y Hy. apply H. now right.
Qed.

(** X16. What is not an import adds nothing: for a file whose extension is
    none of [.go], [.js], [.ts], [.py], and for any file whose content has no
    line starting, blanks apart, with [import ], [import(], [require(] or
    [from ], the related files are the same-named files of its directory
    and nothing else. *)
Theorem findRelatedFiles_siblings_only (env : Env) (filePath content : string) :
  (filepath.Ext filePath <> ".go" /\ filepath.Ext filePath <> ".js" /\
   filepath.Ext filePath <> ".ts" /\ filepath.Ext filePath <> ".py") \/
  (forall line, In line (strings.Split content LF) ->
     strings.HasPrefix (strings.TrimSpace line) "import " = false /\
     strings.HasPrefix (strings.TrimSpace line) "import(" = false /\
     strings.HasPrefix (strings.TrimSpace line) "require(" = false /\
     strings.HasPrefix (strings.TrimSpace line) "from " = false) ->
  findRelatedFiles env filePath content
  = siblings env (filepath.Dir filePath) (filepath.Base filePath) (filepath.Ext filePath).
Proof.
  intros H. unfold findRelatedFiles.
  match goal with |- ?imported ++ _ = _ => enough (E : imported = []) by now rewrite E end.
  destruct H as [(Hgo & Hjs & Hts & Hpy)|Hlines].
  - apply String.eqb_neq in Hgo, Hjs, Hts, Hpy. now rewrite Hgo, Hjs, Hts, Hpy.
  - assert (Hg : scanLines (goLine env (filepath.Dir filePath)) content = []).
    { rewrite scanLines_flat_map. apply flat_map_nil. intros line Hin.
      destruct (Hlines line Hin) as (H1 & H2 & _).
      unfold goLine, goImportPath. now rewrite H1, H2. }
    assert (Hj : scanLines (jsLine env (filepath.Dir filePath)) content = []).
    { rewrite scanLines_flat_map. apply flat_map_nil. intros line Hin.
      destruct (Hlines line Hin) as (H1 & _ & H3 & _).
      unfold jsLine, jsImportPath. now rewrite H1, H3. }
    assert (Hp : scanLines (pyLine env (filepath.Dir filePath)) content = []).
    { rewrite scanLines_flat_map. apply flat_map_nil. intros line Hin.
      destruct (Hlines line Hin) as (H1 & _ & _ & H4).
      unfold pyLine, pyModulePath. now rewrite H1, H4. }
    rewrite Hg, Hj, Hp.
    destruct (String.eqb (filepath.Ext filePath) ".go"); [reflexivity|].
    destruct (String.eqb (filepath.Ext filePath) ".js" || String.eqb (filepath.Ext filePath) ".ts");
      [reflexivity|].
    now destruct (String.eqb (filepath.Ext filePath) ".py").
Qed.

Lemma findRelatedFiles_siblings_only_witness :
  findRelatedFiles serverEnv "/proj/server.md" serverMd
  = siblings serverEnv "/proj" "server.md" ".md" /\
  strings.Split ("package lib" +++ LF +++ "func Format() {}") LF
  = ["package lib"; "func Format() {}"] /\
  findRelatedFiles goEnv "/gosrc/lib/format.go" ("package lib" +++ LF +++ "func Format() {}")
  = siblings goEnv "/gosrc/lib" "format.go" ".go".
Proof.
  split; [|split; [reflexivity|]].
  - apply (findRelatedFiles_siblings_only serverEnv "/proj/server.md" serverMd).
    left. repeat split; vm_compute; discriminate.
  - apply (findRelatedFiles_siblings_only goEnv "/gosrc/lib/format.go"
             ("package lib" +++ LF +++ "func Format() {}")).
    right. intros line Hin.
    change (In line ["package lib"; "func Format() {}"]) in Hin.
    destruct Hin as [<-|[<-|[]]]; repeat split; vm_compute; reflexivity.
Defined.

Lemma prefix_refl (s : string) : String.prefix s s = true.
Proof.
  induction s as [|c s IH]; [reflexivity|].
  cbn. now destruct (ascii_dec c c).
Qed.

Lemma TrimSuffix_all (s : string) : strings.TrimSuffix s s = EmptyString.
Proof.
  unfold strings.TrimSuffix, strings.HasSuffix. rewrite prefix_refl, Nat.sub_diag.
  now destruct s.
Qed.

(** X17. A file whose whole name is its extension, as [.gitignore], has an
    empty name once the extension is taken off, and so has every such file:
    each other file of that kind in its directory, as [.env], is one of its
    related files. *)
Theorem dotfiles_related (env : Env) (filePath content : string)
    (entries : list DirEntry.t) (entry : DirEntry.t) :
  filepath.Ext filePath = filepath.Base filePath ->
  ReadDir env (filepath.Dir filePath) = Ok entries ->
  In entry entries ->
  DirEntry.IsDir entry = false ->
  filepath.Ext (DirEntry.Name entry) = DirEntry.Name entry ->
  DirEntry.Name entry <> filepath.Base filePath ->
  In (filepath.Join [filepath.Dir filePath; DirEntry.Name entry])
     (findRelatedFiles env filePath content).
Proof.
  intros Hext Hr Hin Hd Hname Hne.
  unfold findRelatedFiles. apply in_app_iff. right.
  unfold siblings. rewrite Hr. apply in_flat_map. exists entry. split; [exact Hin|].
  rewrite Hd, Hname, Hext, !TrimSuffix_all. cbn [String.eqb andb].
  apply String.eqb_neq in Hne. rewrite Hne. now left.
Qed.

Lemma dotfiles_related_witness :
  In "/proj/.env" (findRelatedFiles dotEnv "/proj/.gitignore" "dist").
Proof.
  apply (dotfiles_related dotEnv "/proj/.gitignore" "dist"
           [fileEntry ".dockerignore"; fileEntry ".env"; fileEntry ".gitignore";
            fileEntry "main.go"] (fileEntry ".env")).
  - reflexivity.
  - reflexivity.
  - cbn. auto.
  - reflexivity.
  - reflexivity.
  - discriminate.
Defined.

(** ** [GetFileContext] and the budget *)

Lemma render_related_positive (relPath content : string) :
  0 < len (render (Related relPath content)).
Proof.
  cbn [render]. rewrite len_append.
  pose proof (len_nonneg (relPath +++ LF +++ LF +++ fence +++ LF +++ content +++ LF
                            +++ fence +++ LF +++ LF)).
  change (len "Related file: ") with 14. lia.
Qed.

Lemma sizeOf_related_zero (l : list section) :
  sizeOf isRelated l = 0 -> Forall (fun sec => isRelated sec = false) l.
Proof.
  induction l as [|sec l IH]; [constructor|].
  cbn [sizeOf fold_right]. fold (sizeOf isRelated l).
  pose proof (sizeOf_nonneg isRelated l) as Hl.
  destruct sec as [p c|p c|p]; cbn [isRelated].
  - intros H. constructor; [reflexivity|now apply IH].
  - pose proof (render_related_positive p c). lia.
  - intros H. constructor; [reflexivity|now apply IH].
Qed.

(** X18. With a budget that is not above the size of the primary section no
    related section is written: after the primary section the text holds
    notices only. *)
Theorem small_budget_only_notices (env : Env) (filePath : string) (st : Process)
    (a : Assembly) :
  fst (assemble env filePath st) = Ok a ->
  maxContextLen (manager st) <= sizeOf isPrimary (written a) ->
  exists content items,
    written a = Primary (relOf (manager st) filePath) content :: items /\
    Forall (fun sec => isNotice sec = true) items.
Proof.
  intros Ha Hb. destruct (assemble_ok env filePath st a Ha) as (content & _ & Has).
  rewrite (assembled_primary_size _ _ _ _ _ _ Has) in Hb.
  destruct Has as [_ H2 H3 _ (items & Hw & Hall & _)].
  exists content, items. split; [exact Hw|].
  assert (Hz : sizeOf isRelated (written a) = 0).
  { pose proof (sizeOf_nonneg isRelated (written a)). destruct H3 as [H3|H3]; lia. }
  apply sizeOf_related_zero in Hz. rewrite Hw in Hz. inversion Hz as [|x l _ Hitems]; subst.
  clear -Hall Hitems. induction items as [|sec items IH]; [constructor|].
  inversion Hall; inversion Hitems; subst.
  constructor; [now destruct sec|now apply IH].
Qed.

Lemma small_budget_only_notices_witness :
  exists a,
    fst (assemble serverEnv "/proj/server.go" (serverStart 112)) = Ok a /\
    exists content items,
      written a = Primary (relOf (manager (serverStart 112)) "/proj/server.go") content
                  :: items /\
      Forall (fun sec => isNotice sec = true) items.
Proof.
  eexists. split; [vm_compute; reflexivity|].
  refine (small_budget_only_notices serverEnv "/proj/server.go" (serverStart 112) _ _ _).
  - vm_compute. reflexivity.
  - vm_compute. discriminate.
Defined.

Lemma assemble_run (env : Env) (filePath : string) (st : Process) (content : string) :
  fst (GetFileContent env filePath st) = Ok content ->
  fst (assemble env filePath st)
  = Ok (fst (forRange (findRelatedFiles env filePath content) (relatedStep env)
               {| context := render (Primary (relOf (manager st) filePath) content);
                  totalLength := len (render (Primary (relOf (manager st) filePath) content));
                  written := [Primary (relOf (manager st) filePath) content] |}
               (snd (GetFileContent env filePath st)))).
Proof.
  intros Hc. unfold assemble, bind.
  destruct (GetFileContent_settings env filePath st) as (Hroot & _).
  destruct (GetFileContent env filePath st) as [r st1]. cbn [fst snd] in *. subst r.
  unfold getManager. cbn zeta. rewrite (relOf_root _ _ filePath Hroot).
  now destruct (forRange _ _ _ st1).
Qed.

Lemma sameSettings_trans (cm1 cm2 cm3 : ContextManager) :
  sameSettings cm1 cm2 -> sameSettings cm2 cm3 -> sameSettings cm1 cm3.
Proof.
  intros (? & ? & ? & ? & ?) (? & ? & ? & ? & ?).
  unfold sameSettings. repeat split; congruence.
Qed.

Lemma relatedStep_settled (env : Env) (cm : ContextManager) (done : list string)
    (f : string) (a : Assembly) (st : Process) :
  settledInv env cm done a st ->
  settledInv env cm (done ++ [f])
    (fst (relatedStep env f a st)) (snd (relatedStep env f a st)).
Proof.
  intros (Hset & Hco & Hs).
  pose proof (sameSettings_trans _ _ _ (GetFileContent_settings env f st) Hs) as Hs1.
  rewrite relatedStep_unfold. cbn [fst snd].
  split; [|split; [now apply GetFileContent_coherent|exact Hs1]].
  rewrite (GetFileContent_transparent env f st Hco).
  destruct Hs1 as (Hroot & Hmax & _).
  destruct (ReadFile env f) as [c|e] eqn:Hr.
  - cbn zeta. rewrite (relOf_root _ cm f Hroot), Hmax.
    destruct (Z.gtb_spec (totalLength a + len (render (Related (relOf cm f) c)))
                (maxContextLen cm)) as [Hgt|Hle];
      intros f' c' Hin Hr'; cbn [write written totalLength];
      apply in_app_iff in Hin as [Hin|[<-|[]]].
    + destruct (Hset f' c' Hin Hr') as [H|[H1 H2]].
      * left. apply in_app_iff. now left.
      * right. split; [apply in_app_iff; now left|exact H2].
    + right. assert (c' = c) by congruence. subst c'.
      split; [apply in_app_iff; right; now left|lia].
    + pose proof (len_nonneg (render (Related (relOf cm f) c))) as Hn.
      destruct (Hset f' c' Hin Hr') as [H|[H1 H2]].
      * left. apply in_app_iff. now left.
      * right. split; [apply in_app_iff; now left|lia].
    + left. assert (c' = c) by congruence. subst c'.
      apply in_app_iff. right. now left.
  - intros f' c' Hin Hr'. apply in_app_iff in Hin as [Hin|[<-|[]]]; [now apply Hset|].
    congruence.
Qed.

(** X19. No related file is left out without need.  With a coherent cache,
    every related file that can be read has its section in the text, or has
    its notice, and then its section would not fit after the text as it
    ended either: the final running total and the section are over the
    budget. *)
Theorem skipped_files_do_not_fit (env : Env) (filePath : string) (st : Process)
    (a : Assembly) (content : string) :
  coherent env (manager st) ->
  fst (assemble env filePath st) = Ok a ->
  ReadFile env filePath = Ok content ->
  settled env (manager st) (findRelatedFiles env filePath content) a.
Proof.
  intros Hco Ha Hr.
  assert (Hc : fst (GetFileContent env filePath st) = Ok content)
    by now rewrite GetFileContent_transparent.
  rewrite (assemble_run env filePath st content Hc) in Ha. inversion Ha as [Ha'].
  apply (forRange_invariant (relatedStep env) (settledInv env (manager st))
           (relatedStep_settled env (manager st))
           (findRelatedFiles env filePath content) []).
  split; [intros f c []|].
  split; [now apply GetFileContent_coherent|apply GetFileContent_settings].
Qed.

Lemma skipped_files_do_not_fit_witness :
  exists a,
    fst (assemble serverEnv "/proj/server.go" (serverStart 250)) = Ok a /\
    settled serverEnv (manager (serverStart 250))
      (findRelatedFiles serverEnv "/proj/server.go" serverGo) a.
Proof.
  eexists. split; [vm_compute; reflexivity|].
  refine (skipped_files_do_not_fit serverEnv "/proj/server.go" (serverStart 250) _ serverGo
            _ _ _).
  - apply NewContextManager_coherent.
  - vm_compute. reflexivity.
  - reflexivity.
Defined.

(** ** Ignore rules and the cache *)

Lemma GetFileContent_sameCache (env : Env) (filePath : string) (st1 st2 : Process) :
  sameCache (manager st1) (manager st2) ->
  fst (GetFileContent env filePath st1) = fst (GetFileContent env filePath st2) /\
  sameCache (manager (snd (GetFileContent env filePath st1)))
    (manager (snd (GetFileContent env filePath st2))).
Proof.
  intros (Hc & Hm & Hr & Hb).
  unfold GetFileContent, bind, getManager, ret, osReadFile, updManager, sameCache.
  cbn [manager readLog fst snd]. rewrite <- Hc, <- Hm.
  destruct (fileCache (manager st1) !! filePath) as [c|];
    [destruct (Stat env filePath) as [info|] eqn:Hs;
     [destruct (fileMtimes (manager st1) !! filePath) as [m|];
      [destruct (m =? time.UnixNano (FileInfo.ModTime info))|]|]|];
    try (cbn; now rewrite ?Hc, ?Hm);
    (destruct (ReadFile env filePath) as [content|]; [|cbn; now rewrite ?Hc, ?Hm];
     try rewrite Hs; destruct (Stat env filePath);
     cbn; now rewrite ?Hc, ?Hm, ?Hr, ?Hb).
Qed.

Lemma relatedStep_sameCache (env : Env) (f : string) (a : Assembly) (st1 st2 : Process) :
  sameCache (manager st1) (manager st2) ->
  fst (relatedStep env f a st1) = fst (relatedStep env f a st2) /\
  sameCache (manager (snd (relatedStep env f a st1)))
    (manager (snd (relatedStep env f a st2))).
Proof.
  intros Hs. destruct (GetFileContent_sameCache env f st1 st2 Hs) as [Hres Hs'].
  rewrite !relatedStep_unfold. cbn [fst snd]. split; [|exact Hs'].
  rewrite <- Hres. destruct (fst (GetFileContent env f st1)) as [c|]; [|reflexivity].
  cbn zeta. destruct Hs' as (_ & _ & Hroot & Hmax).
  now rewrite (relOf_root _ _ f Hroot), Hmax.
Qed.

(** X20. The ignore rules play no part in fetching and assembling: two
    managers with the same cache, root and budget give the same content and
    the same context text whatever their ignore rules, so a pattern added by
    [AddIgnorePattern] changes nothing in them; a file that the traversals
    ignore is fetched and can be a related file. *)
Theorem fetching_ignores_ignore_rules (env : Env) (filePath : string)
    (st1 st2 : Process) :
  sameCache (manager st1) (manager st2) ->
  fst (GetFileContent env filePath st1) = fst (GetFileContent env filePath st2) /\
  fst (GetFileContext env filePath st1) = fst (GetFileContext env filePath st2).
Proof.
  intros Hs. destruct (GetFileContent_sameCache env filePath st1 st2 Hs) as [Hres Hs'].
  split; [exact Hres|].
  rewrite !GetFileContext_assemble.
  destruct (fst (GetFileContent env filePath st1)) as [content|e] eqn:H1.
  - rewrite (assemble_run env filePath st1 content H1).
    rewrite (assemble_run env filePath st2 content (eq_sym Hres)).
    destruct Hs as (_ & _ & Hroot & _). rewrite (relOf_root _ _ filePath Hroot).
    destruct (forRange_related (relatedStep env)
                (fun s1 s2 => sameCache (manager s1) (manager s2))
                (relatedStep_sameCache env)
                (findRelatedFiles env filePath content)
                {| context := render (Primary (relOf (manager st2) filePath) content);
                   totalLength := len (render (Primary (relOf (manager st2) filePath) content));
                   written := [Primary (relOf (manager st2) filePath) content] |}
                _ _ Hs') as [Hv _].
    now rewrite Hv.
  - pose proof (assemble_spec env filePath st1) as A1.
    pose proof (assemble_spec env filePath st2) as A2.
    rewrite H1 in A1. rewrite <- Hres in A2. now rewrite A1, A2.
Qed.

Lemma fetching_ignores_ignore_rules_witness :
  fst (GetFileContext serverEnv "/proj/server.go" (serverStart 250))
  = fst (GetFileContext serverEnv "/proj/server.go"
           (withPattern "*.yaml" (serverStart 250))).
Proof.
  refine (proj2 (fetching_ignores_ignore_rules serverEnv "/proj/server.go"
                   (serverStart 250) (withPattern "*.yaml" (serverStart 250)) _)).
  unfold sameCache. auto.
Defined.

(** ** A call repeated *)

Lemma GetFileContent_fresh_after (env : Env) (filePath : string) (st : Process)
    (content : string) (info : FileInfo.t) :
  fst (GetFileContent env filePath st) = Ok content ->
  Stat env filePath = Ok info ->
  freshEntry env (manager (snd (GetFileContent env filePath st))) filePath content.
Proof.
  intros Hres Hstat.
  destruct (GetFileContent_cases env filePath st) as [(c & Hf & Heq)|Heq];
    rewrite Heq in *; cbn [fst snd] in *.
  - now inversion Hres; subst.
  - unfold slowPath in *. rewrite Hstat in *.
    destruct (ReadFile env filePath) as [c|]; [|discriminate].
    cbn [fst snd manager] in *. inversion Hres; subst.
    split; cbn; [apply lookup_insert_eq|].
    exists info. split; [exact Hstat|apply lookup_insert_eq].
Qed.

(** An entry with the current time stamp stays as it is through a call for
    any path. *)
Lemma freshEntry_stays (env : Env) (filePath other content : string) (st : Process) :
  freshEntry env (manager st) other content ->
  freshEntry env (manager (snd (GetFileContent env filePath st))) other content.
Proof.
  intros Hf. destruct (decide (filePath = other)) as [->|Hne].
  - now rewrite (GetFileContent_hit env other st content Hf).
  - destruct Hf as [Hc (info & Hs & Hm)].
    destruct (GetFileContent_maps env filePath st)
      as [[Ec Em]|(c & i & _ & _ & _ & Ec & Em)]; split; rewrite ?Ec, ?Em;
      rewrite ?lookup_insert_ne by exact Hne; eauto.
Qed.

Lemma forRange_invariant_in {A L : Type} (body : A -> L -> M L)
    (I : list A -> L -> Process -> Prop) (all : list A) :
  (forall done x vars st,
     In x all -> I done vars st ->
     I (done ++ [x]) (fst (body x vars st)) (snd (body x vars st))) ->
  forall l done vars st,
    (forall x, In x l -> In x all) ->
    I done vars st ->
    I (done ++ l) (fst (forRange l body vars st)) (snd (forRange l body vars st)).
Proof.
  intros Hstep l. induction l as [|x l IH]; intros done vars st Hsub HI.
  - rewrite app_nil_r. exact HI.
  - cbn [forRange]. unfold bind.
    pose proof (Hstep done x vars st (Hsub x (or_introl eq_refl)) HI) as H1.
    destruct (body x vars st) as [vars1 st1]. cbn [fst snd] in H1.
    pose proof (IH (done ++ [x]) vars1 st1 (fun y Hy => Hsub y (or_intror Hy)) H1) as H2.
    now rewrite <- app_assoc in H2.
Qed.

Lemma GetFileContext_all_fresh (env : Env) (filePath : string) (st : Process)
    (content : string) (info : FileInfo.t) :
  fst (GetFileContent env filePath st) = Ok content ->
  Stat env filePath = Ok info ->
  (forall f, In f (findRelatedFiles env filePath content) ->
             (exists c, ReadFile env f = Ok c) /\ (exists i, Stat env f = Ok i)) ->
  allFresh env filePath content (findRelatedFiles env filePath content)
    (snd (GetFileContext env filePath st)).
Proof.
  intros Hc Hs Hfiles.
  rewrite GetFileContext_state, assemble_state, Hc. cbn zeta.
  apply (forRange_invariant_in (relatedStep env)
           (fun done _ s => allFresh env filePath content done s)
           (findRelatedFiles env filePath content)) with (done := []); [|auto|].
  - intros done x vars s Hx [Hp Hdone]. rewrite relatedStep_state. split.
    + now apply freshEntry_stays.
    + intros f Hf. apply in_app_iff in Hf as [Hf|[<-|[]]].
      * destruct (Hdone f Hf) as [c Hfresh]. exists c. now apply freshEntry_stays.
      * destruct (Hfiles x Hx) as [[c Hr] [i Hi]].
        destruct (GetFileContent_readable env x s c Hr) as [c' Hc'].
        exists c'. now apply (GetFileContent_fresh_after env x s c' i).
  - split; [now apply (GetFileContent_fresh_after env filePath st content info)|].
    intros f [].
Qed.

Lemma GetFileContext_all_hits (env : Env) (filePath : string) (st : Process)
    (content : string) :
  allFresh env filePath content (findRelatedFiles env filePath content) st ->
  snd (GetFileContext env filePath st) = st.
Proof.
  intros [Hp Hall].
  rewrite GetFileContext_state, assemble_state.
  rewrite (GetFileContent_hit env filePath st content Hp). cbn [fst snd]. cbn zeta.
  apply (forRange_invariant_in (relatedStep env) (fun _ _ s => s = st)
           (findRelatedFiles env filePath content)) with (done := []); [|auto|reflexivity].
  intros done x vars s Hx ->. rewrite relatedStep_state.
  destruct (Hall x Hx) as [c Hfresh].
  now rewrite (GetFileContent_hit env x st c Hfresh).
Qed.

(** X21. [GetFileContext] called again on an unchanged file system, when the
    primary file and its related files can all be read and their time stamps
    taken, is answered by the cache throughout: it reads no file and leaves
    the manager as the first call left it. *)
Theorem GetFileContext_twice (env : Env) (filePath : string) (st : Process)
    (content : string) (info : FileInfo.t) :
  fst (GetFileContent env filePath st) = Ok content ->
  Stat env filePath = Ok info ->
  (forall f, In f (findRelatedFiles env filePath content) ->
             (exists c, ReadFile env f = Ok c) /\ (exists i, Stat env f = Ok i)) ->
  snd (GetFileContext env filePath (snd (GetFileContext env filePath st)))
  = snd (GetFileContext env filePath st).
Proof.
  intros Hc Hs Hfiles.
  apply (GetFileContext_all_hits env filePath _ content).
  now apply (GetFileContext_all_fresh env filePath st content info).
Qed.

Lemma GetFileContext_twice_witness :
  readLog (snd (GetFileContext serverEnv "/proj/server.go"
                  (snd (GetFileContext serverEnv "/proj/server.go" (serverStart 250)))))
  = ["/proj/server.go"; "/proj/server.md"; "/proj/server.yaml"].
Proof.
  rewrite (GetFileContext_twice serverEnv "/proj/server.go" (serverStart 250) serverGo
             (FileInfo.mk "server.go" false 10)).
  - vm_compute. reflexivity.
  - vm_compute. reflexivity.
  - reflexivity.
  - intros f Hf. vm_compute in Hf.
    destruct Hf as [<-|[<-|[]]]; split; eexists; vm_compute; reflexivity.
Defined.

(** X22. A file that can be read while its time stamp cannot be taken is
    returned and not cached: the call reads it, returns its content and
    leaves the manager as it was, so that every later call reads it again. *)
Theorem GetFileContent_without_stat (env : Env) (filePath : string) (st : Process)
    (content : string) (err : error) :
  ReadFile env filePath = Ok content ->
  Stat env filePath = Err err ->
  GetFileContent env filePath st
  = (Ok content, {| manager := manager st; readLog := readLog st ++ [filePath] |}).
Proof.
  intros Hr Hs. rewrite GetFileContent_miss.
  - unfold slowPath. now rewrite Hr, Hs.
  - intros c [_ (info & Hi & _)]. congruence.
Qed.

Lemma GetFileContent_without_stat_witness :
  readLog (snd (GetFileContent noStatEnv "/proj/a.txt"
                  (snd (GetFileContent noStatEnv "/proj/a.txt" notesStart))))
  = ["/proj/a.txt"; "/proj/a.txt"].
Proof.
  rewrite !(GetFileContent_without_stat noStatEnv "/proj/a.txt" _ "text"
              (PathError "stat" "/proj/a.txt") eq_refl eq_refl).
  reflexivity.
Defined.

Lemma limit_always_reached (n : nat) (maxFiles : Z) :
  maxFiles <= 0 -> (Z.of_nat n >=? maxFiles) = true.
Proof. intros H. rewrite Z.geb_leb. apply Z.leb_le. lia. Qed.

Lemma walkEntries_flat_no_limit (env : Env) (cm : ContextManager) (query : string)
    (maxFiles : Z) (depth : nat) (dir : string) (names : list string) :
  maxFiles <= 0 ->
  (forall name info,
     In name names -> Lstat env (filepath.Join [dir; name]) = Ok info ->
     FileInfo.IsDir info = false) ->
  forall acc,
    exists r,
      walkEntries env (relevantFn env cm query maxFiles)
        (walk env (relevantFn env cm query maxFiles) depth) dir names acc
      = Some (acc ++ match find (visibleFile env cm)
                             (map (fun name => filepath.Join [dir; name]) names) with
                     | Some f => if relevantFile env cm query f then [f] else []
                     | None => []
                     end, r) /\
      steers r.
Proof.
  intros Hmax. induction names as [|name rest IH]; intros Hflat acc.
  - exists None. cbn. rewrite app_nil_r. split; [reflexivity|now left].
  - assert (Hrest : forall n i, In n rest -> Lstat env (filepath.Join [dir; n]) = Ok i ->
                                FileInfo.IsDir i = false)
      by (intros n i Hn; apply Hflat; now right).
    specialize (IH Hrest).
    rewrite walkEntries_cons. cbn zeta. cbn [map find].
    destruct (Lstat env (filepath.Join [dir; name])) as [info|e] eqn:Hl.
    + assert (Hvis : visibleFile env cm (filepath.Join [dir; name])
                     = negb (ShouldIgnore env cm (filepath.Join [dir; name])))
        by (unfold visibleFile; now rewrite Hl).
      assert (Hrel : relevantFile env cm query (filepath.Join [dir; name])
                     = negb (ShouldIgnore env cm (filepath.Join [dir; name]))
                       && strings.Contains
                            (strings.ToLower (MapToLower env)
                               (relOf cm (filepath.Join [dir; name])))
                            (strings.ToLower (MapToLower env) query))
        by (unfold relevantFile; now rewrite Hl).
      rewrite Hvis.
      rewrite (walk_file _ _ _ _ _ _ (Hflat name info (or_introl eq_refl) Hl)).
      unfold relevantFn at 1. cbv beta iota.
      rewrite (Hflat name info (or_introl eq_refl) Hl).
      fold (relOf cm (filepath.Join [dir; name])).
      destruct (ShouldIgnore env cm (filepath.Join [dir; name])) eqn:Hig; cbn [negb];
        [now apply IH|].
      rewrite Hrel. cbn [negb andb].
      rewrite !limit_always_reached by exact Hmax. cbn [negb orb].
      exists (Some SkipDir). split; [|now right].
      destruct (strings.Contains _ _); [reflexivity|now rewrite app_nil_r].
    + assert (Hvis : visibleFile env cm (filepath.Join [dir; name]) = false)
        by (unfold visibleFile; now rewrite Hl).
      rewrite Hvis. unfold relevantFn at 1. cbv beta iota. now apply IH.
Qed.

(** X23. A limit of zero or less does not mean no result.  In a project
    whose root holds no directory, [GetRelevantFiles] then stops at the
    first file that is not ignored, and returns that file when it matches
    the query. *)
Theorem GetRelevantFiles_limit_zero (env : Env) (cm : ContextManager) (depth : nat)
    (query : string) (maxFiles : Z) (info : FileInfo.t) (entries : list DirEntry.t) :
  Lstat env (rootPath cm) = Ok info ->
  FileInfo.IsDir info = true ->
  ShouldIgnore env cm (rootPath cm) = false ->
  ReadDir env (rootPath cm) = Ok entries ->
  (forall name i,
     In name (map DirEntry.Name entries) ->
     Lstat env (filepath.Join [rootPath cm; name]) = Ok i -> FileInfo.IsDir i = false) ->
  maxFiles <= 0 ->
  GetRelevantFiles env cm (S depth) query maxFiles
  = Some (match find (visibleFile env cm)
                  (map (fun name => filepath.Join [rootPath cm; name])
                     (map DirEntry.Name entries)) with
          | Some f => if relevantFile env cm query f then [f] else []
          | None => []
          end, None).
Proof.
  intros Hl Hd Hig Hr Hflat Hmax.
  unfold GetRelevantFiles, Walk. rewrite Hl. cbn [walk]. rewrite Hd. cbn [negb].
  unfold readDirNames. rewrite Hr.
  unfold relevantFn at 1. cbv beta iota. rewrite Hd, Hig.
  destruct (walkEntries_flat_no_limit env cm query maxFiles depth (rootPath cm)
              (map DirEntry.Name entries) Hmax Hflat []) as (r & -> & Hs).
  cbn [app]. destruct Hs as [-> | ->]; reflexivity.
Qed.

Lemma GetRelevantFiles_limit_zero_witness :
  GetRelevantFiles serverEnv (NewContextManager serverEnv "/proj") 1 "server" 0
  = Some (["/proj/server.go"], None).
Proof.
  rewrite (GetRelevantFiles_limit_zero serverEnv (NewContextManager serverEnv "/proj") 0
             "server" 0 (FileInfo.mk "proj" true 0)
             [fileEntry "server.go"; fileEntry "server.md"; fileEntry "server.yaml"]).
  - vm_compute. reflexivity.
  - reflexivity.
  - reflexivity.
  - vm_compute. reflexivity.
  - reflexivity.
  - intros name i Hin Hi. cbn in Hin.
    destruct Hin as [<-|[<-|[<-|[]]]]; vm_compute in Hi; now inversion Hi.
  - lia.
Defined.
